(** * Trackify analytics engine: a shallow embedding

    The development follows [server/services/analytics/analytics.py]
    (class [AnalyticsEngine]) and the part of
    [server/services/data_processor/data_processor.py] it reads from.

    - Measurement values are IEEE-754 binary64 numbers (Python [float],
      NumPy [float64]); they are modelled by Rocq's primitive floats, so
      comparisons, [NaN] and division by zero behave as in the program.
    - Timestamps ('%Y-%m-%d %H:%M:%S') are seconds on the time line ([Z]);
      dates ('%Y-%m-%d') are day numbers, midnight of day [d] being
      [86400 * d].
    - pandas, NumPy and scikit-learn are not part of the repository.  What
      the engine calls from them is gathered in the interface [PyLib];
      the engine is written over any implementation of it, and [RefLib]
      is a reference implementation used to run the engine on concrete
      series. *)

From Stdlib Require Import ZArith List String Ascii Bool Lia.
From Stdlib Require Import Permutation Sorted Orders Mergesort.
From Stdlib Require Import Floats.
Import ListNotations.

Set Warnings "-inexact-float".

(* ================================================================== *)
(** ** Comparisons of binary64 numbers *)
(* ================================================================== *)

Module FloatOrder.

Local Open Scope float_scope.

(** [x != y] and [x > y] as Python evaluates them on floats. *)
Definition neb (x y : float) : bool := negb (x =? y).
Definition gtb (x y : float) : bool := y <? x.

Definition is_finite (x : float) : bool :=
  negb (is_nan x) && negb (is_infinity x).

End FloatOrder.

(* ================================================================== *)
(** ** Data model *)
(* ================================================================== *)

(** One record of [data/processed_data.json]: the timestamp under key
    ['date'] and the numeric entries of the dictionary, by key. *)
Record Measurement := {
  date : Z;
  fields : list (string * float)
}.

(** [record.get(key)] *)
Fixpoint lookup (key : string) (kvs : list (string * float)) : option float :=
  match kvs with
  | [] => None
  | (k, v) :: rest => if String.eqb k key then Some v else lookup key rest
  end.

Definition has_key (key : string) (r : Measurement) : bool :=
  match lookup key (fields r) with Some _ => true | None => false end.

(** A number that is either a Python [int] or a float: the type of
    [x if cond else 0] and of [row.get(key, 0)]. *)
Inductive PyNum :=
| PyInt (n : Z)
| PyFloat (x : float).

(** A result dictionary that is either [{"error": msg}] or a value. *)
Inductive Outcome (A : Type) :=
| Error (msg : string)
| Value (a : A).
Arguments Error {A} msg.
Arguments Value {A} a.

(** The fitted line of [LinearRegression]: [coef_[0]] and [intercept_]. *)
Record LinearModel := {
  coef_ : float;
  intercept_ : float
}.

(** What the engine calls from Python's builtins, NumPy, pandas and
    scikit-learn and whose result depends on their numerics. *)
Class PyLib := {
  (** [round(x, n)] on a NumPy [float64] *)
  np_round : float -> Z -> float;
  (** [round(x, n)] on a Python [float] *)
  py_round : float -> Z -> float;
  (** [Series.mean()], NaN skipped *)
  series_mean : list float -> float;
  (** [Series.std()], NaN skipped, [ddof = 1] *)
  series_std : list float -> float;
  (** [Series.mode()] *)
  series_mode : list float -> list float;
  (** [LinearRegression().fit(x.reshape(-1, 1), y)] *)
  linreg_fit : list float -> list float -> LinearModel;
  (** [model.score(x, y)], the coefficient of determination *)
  linreg_score : LinearModel -> list float -> list float -> float;
  (** one entry of [DataFrame.corr()]: Pearson's r of two columns over the
      rows where both are present *)
  pearson : list float -> list float -> float;
  (** [f"{x:.1f}"] *)
  format_1f : float -> string;
  (** [f"{x}"] *)
  float_str : float -> string
}.

(* ================================================================== *)
(** ** pandas data frames, as far as the engine uses them *)
(* ================================================================== *)

Module Frame.

Import FloatOrder.
Local Open Scope float_scope.

(** [pd.DataFrame(data)]: one row per record, in the order given; a key
    missing from a record reads as NaN. *)
Definition DataFrame := list Measurement.

(** [metric in df.columns] *)
Definition has_column (df : DataFrame) (metric : string) : bool :=
  existsb (has_key metric) df.

(** [row[metric]] *)
Definition cell (metric : string) (r : Measurement) : float :=
  match lookup metric (fields r) with Some v => v | None => nan end.

(** [df[metric]] *)
Definition column (df : DataFrame) (metric : string) : list float :=
  map (cell metric) df.

(** [Series.notna()], element-wise *)
Definition notna (v : float) : bool := negb (is_nan v).

(** [Series.dropna()] *)
Definition dropna (s : list float) : list float := filter notna s.

(** [df[metric].notna().sum()] *)
Definition notna_count (df : DataFrame) (metric : string) : nat :=
  List.length (dropna (column df metric)).

(** [Series.iloc[0]] and [Series.iloc[-1]]; the engine reads them on
    non-empty series only. *)
Definition iloc_first (s : list float) : float := hd nan s.
Definition iloc_last (s : list float) : float := last s nan.

(** [Series.tail(n)] *)
Definition tail (n : nat) (s : list float) : list float :=
  skipn (List.length s - n) s.

(** The float of an integer, exact below [2^53]. *)
Definition Z2F (z : Z) : float :=
  if (z <? 0)%Z then - of_uint63 (Uint63.of_Z (- z))
  else of_uint63 (Uint63.of_Z z).

Definition N2F (n : nat) : float := Z2F (Z.of_nat n).

(** [np.arange(start, start + len)] as floats *)
Definition arange_from (start len : nat) : list float :=
  map N2F (seq start len).

(** [np.arange(n)] *)
Definition arange (n : nat) : list float := arange_from 0 n.

(** Consecutive differences [s[i] - s[i-1]], [i >= 1]. *)
Fixpoint diffs (s : list float) : list float :=
  match s with
  | a :: (b :: _) as rest => (b - a) :: diffs rest
  | _ => []
  end.

(** [Series.diff()]: NaN in the first position. *)
Definition series_diff (s : list float) : list float :=
  match s with
  | [] => []
  | _ => nan :: diffs s
  end.

(** Whole days between consecutive timestamps: [Timedelta.days] is the
    floor of the difference over one day. *)
Fixpoint day_gaps (ds : list Z) : list float :=
  match ds with
  | a :: (b :: _) as rest => Z2F ((b - a) / 86400) :: day_gaps rest
  | _ => []
  end.

(** [dates.diff().dt.days] *)
Definition date_diff_days (ds : list Z) : list float :=
  match ds with
  | [] => []
  | _ => nan :: day_gaps ds
  end.

(** Element-wise [a / b] of two aligned series. *)
Fixpoint series_div (a b : list float) : list float :=
  match a, b with
  | x :: a', y :: b' => (x / y) :: series_div a' b'
  | _, _ => []
  end.

(** [Series.min()] and [Series.max()], NaN skipped; NaN on an empty series. *)
Definition series_min (s : list float) : float :=
  match dropna s with
  | [] => nan
  | x :: rest => fold_left (fun acc v => if v <? acc then v else acc) rest x
  end.

Definition series_max (s : list float) : float :=
  match dropna s with
  | [] => nan
  | x :: rest => fold_left (fun acc v => if acc <? v then v else acc) rest x
  end.

(** [df['date'].min()] and [df['date'].max()] *)
Definition date_min (df : DataFrame) : Z :=
  match df with
  | [] => 0%Z
  | r :: rest => fold_left (fun acc r' => Z.min acc (date r')) rest (date r)
  end.

Definition date_max (df : DataFrame) : Z :=
  match df with
  | [] => 0%Z
  | r :: rest => fold_left (fun acc r' => Z.max acc (date r')) rest (date r)
  end.

(** [df.sort_values('date')]: ascending by timestamp.  pandas leaves the
    order of rows with equal timestamps unspecified; a merge sort stands for
    it here, and what depends on the order of such rows is stated for
    distinct timestamps only. *)
Module DateOrder <: TotalLeBool.
Definition t := Measurement.
Definition leb (a b : Measurement) : bool := (date a <=? date b)%Z.
Lemma leb_total : forall a b, leb a b = true \/ leb b a = true.
Proof. intros a b. unfold leb. rewrite !Z.leb_le. lia. Qed.
End DateOrder.

Module DateSort := Sort DateOrder.

Definition sort_values (df : DataFrame) : DataFrame := DateSort.sort df.

End Frame.

(* ================================================================== *)
(** ** The data-access collaborator ([DataProcessor]) *)
(* ================================================================== *)

Module DataProcessor.

(** The records of [data/processed_data.json], in file order; [[]] when
    the file does not exist. *)
Definition Store := list Measurement.

(** Lines 137-152: the record is kept unless it is before midnight of
    [start_date] or after midnight of [end_date]. *)
Definition in_range (start_date end_date : option Z) (r : Measurement) : bool :=
  match start_date with
  | Some s => negb (date r <? 86400 * s)%Z
  | None => true
  end
  &&
  match end_date with
  | Some e => negb (date r >? 86400 * e)%Z
  | None => true
  end.

(** Lines 122-163.  [limit] is applied to the records in file order; [None]
    and [0] mean no limit. *)
Definition get_body_composition_data
    (store : Store) (start_date end_date : option Z) (limit : option nat)
  : list Measurement :=
  let data := filter (in_range start_date end_date) store in
  match limit with
  | Some (S n) => firstn (S n) data
  | _ => data
  end.

(** Lines 165-172: the first record of the file. *)
Definition get_latest_measurement (store : Store) : option Measurement :=
  match get_body_composition_data store None None (Some 1%nat) with
  | r :: _ => Some r
  | [] => None
  end.

End DataProcessor.

(* ================================================================== *)
(** ** The analytics engine ([AnalyticsEngine]) *)
(* ================================================================== *)

Module AnalyticsEngine.

Import FloatOrder Frame.
Local Open Scope string_scope.
Local Open Scope float_scope.

(** *** Result records *)

Record Trend := {
  tr_trend : string;
  tr_slope : float;
  tr_change : float;
  tr_percent_change : PyNum;
  tr_data_points : nat;
  tr_period_days : Z
}.

(** [{"trend": "insufficient_data"}] or the full trend dictionary. *)
Inductive TrendResult :=
| insufficient_data
| trend_result (t : Trend).

Record MetricAnalysis := {
  ma_current : float;
  ma_start : float;
  ma_min : float;
  ma_max : float;
  ma_mean : float;
  ma_std : float;
  ma_total_change : float;
  ma_total_change_percent : PyNum;
  ma_trend_slope : float;
  ma_r_squared : float;
  ma_volatility : float;
  ma_largest_daily_change : float
}.

Record Velocity := {
  avg_daily_change : float;
  max_daily_change : float;
  min_daily_change : float;
  acceleration : float
}.

Record Prediction := {
  pr_current_value : float;
  pr_predicted_value : float;
  pr_change : float;
  pr_confidence : float;
  pr_trend : string
}.

Record Achievement := {
  ach_type : string;
  ach_description : string;
  ach_value : float;
  ach_category : string
}.

Inductive Frequency :=
| frequency_insufficient
| frequency_of (frequency : string) (avg_days_between : float)
               (most_common_interval : float).

Record PeriodStats := {
  ps_weight : PyNum;
  ps_body_fat : PyNum;
  ps_muscle_mass : PyNum;
  ps_bmi : PyNum
}.

Record PeriodChange := {
  pc_absolute : float;
  pc_percent : PyNum
}.

Record StrongCorrelation := {
  sc_metric1 : string;
  sc_metric2 : string;
  sc_correlation : float;
  sc_strength : string;
  sc_direction : string
}.

(** *** Python operators on the values above *)

(** [round(v, n)], [n >= 0]: an [int] is returned unchanged. *)
Definition round_num `{PyLib} (v : PyNum) (n : Z) : PyNum :=
  match v with
  | PyInt k => PyInt k
  | PyFloat x => PyFloat (np_round x n)
  end.

(** [v > c] for a float constant [c]. *)
Definition num_gtb (v : PyNum) (c : float) : bool :=
  match v with
  | PyInt k => c <? Z2F k
  | PyFloat x => c <? x
  end.

(** The guarded percentage of lines 400, 427 and 641:
    [(change / start * 100) if start != 0 else 0]. *)
Definition percent_or_zero (change start : float) : PyNum :=
  if neb start 0 then PyFloat (change / start * 100) else PyInt 0.

(** Python's [/] on two floats, which raises [ZeroDivisionError] on a zero
    divisor ([None] here). *)
Definition truediv (a b : float) : option float :=
  if b =? 0 then None else Some (a / b).

(** The same guarded percentage with every division checked. *)
Definition percent_or_zero_checked (change start : float) : option PyNum :=
  if neb start 0 then
    match truediv change start with
    | Some q => Some (PyFloat (q * 100))
    | None => None
    end
  else Some (PyInt 0).

(** [model.predict([[x]])] of a fitted line. *)
Definition predict (m : LinearModel) (x : float) : float :=
  coef_ m * x + intercept_ m.

(** [name.replace('_', ' ').title()] on ASCII metric names. *)
Definition is_lower (c : ascii) : bool :=
  (97 <=? nat_of_ascii c)%nat && (nat_of_ascii c <=? 122)%nat.
Definition is_upper (c : ascii) : bool :=
  (65 <=? nat_of_ascii c)%nat && (nat_of_ascii c <=? 90)%nat.
Definition to_upper (c : ascii) : ascii :=
  if is_lower c then ascii_of_nat (nat_of_ascii c - 32) else c.
Definition to_lower (c : ascii) : ascii :=
  if is_upper c then ascii_of_nat (nat_of_ascii c + 32) else c.

Fixpoint title_from (in_word : bool) (s : string) : string :=
  match s with
  | EmptyString => EmptyString
  | String c rest =>
      let c := if Ascii.eqb c "_"%char then " "%char else c in
      let cased := is_lower c || is_upper c in
      String (if in_word then to_lower c else to_upper c)
             (title_from cased rest)
  end.

Definition metric_title (name : string) : string := title_from false name.

Section Engine.

Context {L : PyLib}.

(** *** Helper methods *)

(** Lines 342-368. *)
Definition _calculate_measurement_frequency (df : DataFrame) : Frequency :=
  if (List.length df <? 2)%nat then frequency_insufficient
  else
    let df := sort_values df in
    let intervals := dropna (date_diff_days (map date df)) in
    let avg_interval := series_mean intervals in
    let frequency :=
      if avg_interval <=? 1 then "daily"
      else if avg_interval <=? 3 then "frequent"
      else if avg_interval <=? 7 then "weekly"
      else if avg_interval <=? 30 then "monthly"
      else "infrequent" in
    frequency_of frequency (np_round avg_interval 1)
      (match series_mode intervals with
       | m :: _ => m
       | [] => avg_interval
       end).

(** Lines 387-395: the direction of a trend from the regression slope and
    the standard deviation of the values. *)
Definition trend_direction (slope std : float) : string :=
  let threshold := std * 0.1 in
  if abs slope <? threshold then "stable"
  else if gtb slope 0 then "increasing"
  else "decreasing".

(** Lines 370-409.  Callers pass a metric that is a column of [df]. *)
Definition _calculate_trend (df : DataFrame) (metric : string) (days : Z)
  : TrendResult :=
  let cutoff_date := (date_max df - 86400 * days)%Z in
  let recent_df := filter (fun r => (cutoff_date <=? date r)%Z) df in
  if (List.length recent_df <? 2)%nat then insufficient_data
  else
    let values := dropna (column recent_df metric) in
    if (List.length values <? 2)%nat then insufficient_data
    else
      let x := arange (List.length values) in
      let model := linreg_fit x values in
      let slope := coef_ model in
      let direction := trend_direction slope (series_std values) in
      let start_value := iloc_first values in
      let end_value := iloc_last values in
      let pct_change := percent_or_zero (end_value - start_value) start_value in
      trend_result {|
        tr_trend := direction;
        tr_slope := np_round slope 4;
        tr_change := np_round (end_value - start_value) 2;
        tr_percent_change := round_num pct_change 2;
        tr_data_points := List.length values;
        tr_period_days := days
      |}.

(** Lines 411-442. *)
Definition _analyze_metric_trend (df : DataFrame) (metric : string)
  : Outcome MetricAnalysis :=
  let values := dropna (column df metric) in
  if (List.length values <? 2)%nat then Error "Insufficient data"
  else
    let x := arange (List.length values) in
    let model := linreg_fit x values in
    let daily_changes := dropna (series_diff values) in
    Value {|
      ma_current := np_round (iloc_last values) 2;
      ma_start := np_round (iloc_first values) 2;
      ma_min := np_round (series_min values) 2;
      ma_max := np_round (series_max values) 2;
      ma_mean := np_round (series_mean values) 2;
      ma_std := np_round (series_std values) 2;
      ma_total_change := np_round (iloc_last values - iloc_first values) 2;
      ma_total_change_percent :=
        round_num
          (percent_or_zero (iloc_last values - iloc_first values)
                           (iloc_first values)) 2;
      ma_trend_slope := np_round (coef_ model) 4;
      ma_r_squared := np_round (linreg_score model x values) 3;
      ma_volatility := np_round (series_std daily_changes) 2;
      ma_largest_daily_change :=
        np_round (series_max (map abs daily_changes)) 2
    |}.

(** [DataFrame.corr()] over the listed columns: entry [(i, j)].  pandas
    computes the coefficient once per unordered pair, with the column of
    larger index first, and stores it in both positions. *)
Definition corr_entry (df : DataFrame) (metrics : list string) (i j : nat)
  : float :=
  pearson (column df (nth (Nat.max i j) metrics ""))
          (column df (nth (Nat.min i j) metrics "")).

(** The pairs [(i, j)], [i < j < n], in the order of the nested loops. *)
Definition index_pairs (n : nat) : list (nat * nat) :=
  flat_map (fun i => map (fun j => (i, j)) (seq (S i) (n - S i))) (seq 0 n).

(** Lines 444-460, for a request of pairwise distinct numeric metrics: a
    metric named twice makes pandas return a sub-frame instead of a
    coefficient, and a requested column that holds no numbers (the date,
    the notes) is not a column of the frame here. *)
Definition _calculate_correlations (df : DataFrame) (metrics : list string)
  : Outcome (list (string * float)) :=
  let available_metrics := filter (has_column df) metrics in
  if (List.length available_metrics <? 2)%nat
  then Error "Need at least 2 metrics for correlation"
  else
    Value
      (map (fun ij =>
              let metric1 := nth (fst ij) available_metrics "" in
              let metric2 := nth (snd ij) available_metrics "" in
              ((metric1 ++ "_vs_" ++ metric2)%string,
               np_round (corr_entry df available_metrics (fst ij) (snd ij)) 3))
           (index_pairs (List.length available_metrics))).

(** The rows of [df] whose [metric] is present: [values] and the [dates]
    at [values.index]. *)
Definition present_rows (df : DataFrame) (metric : string) : DataFrame :=
  filter (fun r => notna (cell metric r)) df.

(** Lines 462-482. *)
Definition _calculate_change_velocity (df : DataFrame) (metric : string)
  : Outcome Velocity :=
  let values := dropna (column df metric) in
  let dates := map date (present_rows df metric) in
  if (List.length values <? 3)%nat then Error "Insufficient data"
  else
    let changes := series_diff values in
    let time_diffs := date_diff_days dates in
    let daily_changes := dropna (series_div changes time_diffs) in
    Value {|
      avg_daily_change := np_round (series_mean daily_changes) 4;
      max_daily_change := np_round (series_max daily_changes) 4;
      min_daily_change := np_round (series_min daily_changes) 4;
      acceleration := np_round (series_mean (series_diff daily_changes)) 6
    |}.

(** Lines 484-513.  [predictions[-1]] of an empty array ([days_ahead <= 0])
    raises, which the method turns into [None]. *)
Definition _predict_metric (df : DataFrame) (metric : string) (days_ahead : Z)
  : option Prediction :=
  let values := dropna (column df metric) in
  if (List.length values <? 5)%nat then None
  else if (days_ahead <=? 0)%Z then None
  else
    let recent_values := tail 30 values in
    let x := arange (List.length recent_values) in
    let model := linreg_fit x recent_values in
    let current_value := iloc_last values in
    let predicted_value :=
      predict model (Z2F (Z.of_nat (List.length recent_values) + days_ahead - 1)) in
    Some {|
      pr_current_value := np_round current_value 2;
      pr_predicted_value := np_round predicted_value 2;
      pr_change := np_round (predicted_value - current_value) 2;
      pr_confidence := np_round (linreg_score model x recent_values) 3;
      pr_trend :=
        if gtb predicted_value current_value then "increasing"
        else if predicted_value <? current_value then "decreasing"
        else "stable"
    |}.

(** Lines 523-538: the weight milestone from the change between the first
    and the last row. *)
Definition weight_achievement (weight_change : float) : list Achievement :=
  if weight_change <? -5 then
    [{| ach_type := "weight_loss";
        ach_description := "Lost " ++ format_1f (abs weight_change) ++ " kg";
        ach_value := abs weight_change;
        ach_category :=
          if gtb (abs weight_change) 10 then "major" else "significant" |}]
  else if gtb weight_change 2 then
    [{| ach_type := "weight_gain";
        ach_description := "Gained " ++ format_1f weight_change ++ " kg";
        ach_value := weight_change;
        ach_category := "muscle_building" |}]
  else [].

(** Lines 541-549. *)
Definition fat_achievement (fat_change : float) : list Achievement :=
  if fat_change <? -2 then
    [{| ach_type := "fat_loss";
        ach_description :=
          "Reduced body fat by " ++ format_1f (abs fat_change) ++ "%";
        ach_value := abs fat_change;
        ach_category :=
          if gtb (abs fat_change) 5 then "major" else "significant" |}]
  else [].

(** Lines 552-560. *)
Definition muscle_achievement (muscle_change : float) : list Achievement :=
  if gtb muscle_change 1 then
    [{| ach_type := "muscle_gain";
        ach_description :=
          "Gained " ++ format_1f muscle_change ++ " kg muscle mass";
        ach_value := muscle_change;
        ach_category := "muscle_building" |}]
  else [].

(** [df[metric].iloc[-1] - df[metric].iloc[0]] *)
Definition period_change (df : DataFrame) (metric : string) : float :=
  iloc_last (column df metric) - iloc_first (column df metric).

(** Lines 515-562. *)
Definition _identify_achievements (df : DataFrame) : list Achievement :=
  if (List.length df <? 2)%nat then []
  else
    (if has_column df "weight_kg"
     then weight_achievement (period_change df "weight_kg") else [])
    ++
    (if has_column df "body_fat_percent"
     then fat_achievement (period_change df "body_fat_percent") else [])
    ++
    (if has_column df "muscle_mass_kg"
     then muscle_achievement (period_change df "muscle_mass_kg") else []).

(** Lines 574-583. *)
Definition bmi_insight (bmi : float) : string :=
  if bmi <? 18.5 then
    "Your BMI indicates you're underweight. Consider consulting a nutritionist."
  else if (18.5 <=? bmi) && (bmi <? 25) then
    "Your BMI is in the healthy range. Great job maintaining a healthy weight!"
  else if (25 <=? bmi) && (bmi <? 30) then
    "Your BMI indicates you're overweight. Focus on creating a caloric deficit."
  else
    "Your BMI indicates obesity. Consider consulting a healthcare professional.".

(** Lines 586-595. *)
Definition body_fat_insight (body_fat : float) : list string :=
  if body_fat <? 10 then
    ["Your body fat is very low. Ensure you're maintaining adequate nutrition."]
  else if (10 <=? body_fat) && (body_fat <=? 15) then
    ["Excellent body fat percentage! You're in athletic range."]
  else if (16 <=? body_fat) && (body_fat <=? 20) then
    ["Good body fat percentage. You're in the fitness range."]
  else if gtb body_fat 25 then
    ["Consider focusing on fat loss through diet and cardio exercise."]
  else [].

(** Lines 598-603. *)
Definition hydration_insight (water_pct : float) : list string :=
  if water_pct <? 50 then
    ["Your body water percentage seems low. Ensure adequate hydration."]
  else if gtb water_pct 65 then
    ["Your body water percentage is high, which is generally positive."]
  else [].

(** The insights read off one row [latest] of a frame with the given
    columns (['bmi' in latest] asks for the column). *)
Definition insights_of_row (df : DataFrame) (latest : Measurement)
  : list string :=
  (if has_column df "bmi" then [bmi_insight (cell "bmi" latest)] else [])
  ++
  (if has_column df "body_fat_percent"
   then body_fat_insight (cell "body_fat_percent" latest) else [])
  ++
  (if has_column df "body_water_percent"
   then hydration_insight (cell "body_water_percent" latest) else []).

(** Lines 564-605. *)
Definition _generate_health_insights (df : DataFrame) : list string :=
  if (List.length df <? 2)%nat then []
  else
    match rev df with
    | latest :: _ => insights_of_row df latest
    | [] => []
    end.

(** Lines 607-616. *)
Definition _get_goal_recommendation (required_rate : float)
    (current_trend : TrendResult) (feasibility : string) : string :=
  if String.eqb feasibility "aggressive" then
    "This goal requires aggressive changes. Consider extending timeline or consulting a professional."
  else if String.eqb feasibility "challenging" then
    "This goal is challenging but achievable with consistent effort and proper planning."
  else if String.eqb feasibility "conservative" then
    "This goal is very achievable. Stay consistent with your current approach."
  else
    "This goal appears realistic. Monitor progress and adjust as needed.".

(** [row.get(key, 0)] on a row of [df]. *)
Definition row_get (df : DataFrame) (row : Measurement) (key : string)
  : PyNum :=
  if has_column df key then PyFloat (cell key row) else PyInt 0.

(** Lines 618-625. *)
Definition _get_period_stats (df : DataFrame) (row : Measurement)
  : PeriodStats :=
  {| ps_weight := row_get df row "weight_kg";
     ps_body_fat := row_get df row "body_fat_percent";
     ps_muscle_mass := row_get df row "muscle_mass_kg";
     ps_bmi := row_get df row "bmi" |}.

(** Lines 627-647. *)
Definition _calculate_period_changes (df : DataFrame)
  : list (string * PeriodChange) :=
  if (List.length df <? 2)%nat then []
  else
    let key_metrics :=
      ["weight_kg"; "body_fat_percent"; "muscle_mass_kg"; "bmi"] in
    map (fun metric =>
           let start := iloc_first (column df metric) in
           let change := period_change df metric in
           let pct_change := percent_or_zero change start in
           (metric, {| pc_absolute := np_round change 2;
                       pc_percent := round_num pct_change 2 |}))
        (filter (has_column df) key_metrics).

(** Lines 649-659. *)
Definition _get_period_trends (df : DataFrame) : list (string * TrendResult) :=
  let key_metrics := ["weight_kg"; "body_fat_percent"; "muscle_mass_kg"] in
  map (fun metric =>
         (metric, _calculate_trend df metric (Z.of_nat (List.length df))))
      (filter (has_column df) key_metrics).

(** [result['trend'] == label] *)
Definition trend_is (r : TrendResult) (label : string) : bool :=
  match r with
  | insufficient_data => String.eqb "insufficient_data" label
  | trend_result t => String.eqb (tr_trend t) label
  end.

(** Lines 661-685. *)
Definition _generate_recommendations (df : DataFrame) : list string :=
  if (List.length df <? 2)%nat
  then ["Collect more data for personalized recommendations"]
  else
    (if has_column df "weight_kg" then
       match _calculate_trend df "weight_kg" 30 with
       | trend_result t =>
           if String.eqb (tr_trend t) "increasing"
              && num_gtb (tr_percent_change t) 2
           then ["Weight is trending upward. Consider reviewing caloric intake and exercise routine."]
           else if String.eqb (tr_trend t) "stable"
           then ["Weight is stable. Great for maintenance phase!"]
           else []
       | insufficient_data => []
       end
     else [])
    ++
    (if has_column df "body_fat_percent" then
       let fat_trend := _calculate_trend df "body_fat_percent" 30 in
       if trend_is fat_trend "decreasing"
       then ["Body fat is decreasing - excellent progress! Keep up the current routine."]
       else if trend_is fat_trend "stable"
               && gtb (iloc_last (column df "body_fat_percent")) 20
       then ["Consider adding more cardio or creating a larger caloric deficit to reduce body fat."]
       else []
     else []).

(** Lines 687-700. *)
Definition _interpret_correlations (correlations : list StrongCorrelation)
  : list string :=
  map (fun corr =>
         let metric1 := metric_title (sc_metric1 corr) in
         let metric2 := metric_title (sc_metric2 corr) in
         if String.eqb (sc_direction corr) "positive" then
           metric1 ++ " and " ++ metric2
             ++ " tend to increase/decrease together (r="
             ++ float_str (sc_correlation corr) ++ ")"
         else
           "As " ++ metric1 ++ " increases, " ++ metric2
             ++ " tends to decrease (r="
             ++ float_str (sc_correlation corr) ++ ")")
      correlations.

End Engine.

(** *** Results of the entry points *)

Record DateRange := {
  dr_start : Z;
  dr_end : Z;
  dr_duration_days : Z
}.

Record Overview := {
  total_measurements : nat;
  date_range : DateRange;
  latest_measurement : Z;
  measurement_frequency : Frequency
}.

Record CurrentStats := {
  cs_current : float;
  cs_min : float;
  cs_max : float;
  cs_avg : float;
  cs_std : float
}.

Record PeriodTrends := {
  week : TrendResult;
  month : TrendResult;
  quarter : TrendResult;
  year : TrendResult
}.

Record MetricsSummary := {
  overview : Overview;
  current_stats : list (string * CurrentStats);
  trends : list (string * PeriodTrends);
  achievements : list Achievement;
  health_insights : list string
}.

Record AnalysisPeriod := {
  ap_start : Z;
  ap_end : Z;
  ap_duration_days : Z;
  ap_data_points : nat
}.

Record TrendAnalysis := {
  ta_period : AnalysisPeriod;
  ta_metrics_analysis : list (string * Outcome MetricAnalysis);
  ta_correlations : Outcome (list (string * float));
  ta_change_velocity : list (string * Outcome Velocity);
  ta_predictions : list (string * option Prediction)
}.

Record Correlations := {
  correlation_matrix : list (string * list (string * float));
  strong_correlations : list StrongCorrelation;
  insights : list string
}.

Record Predictions := {
  prediction_period : Z;
  base_data_points : nat;
  predictions : list (string * Prediction);
  confidence_note : string
}.

Record GoalAssessment := {
  current_weight : float;
  target_weight : float;
  weight_to_change : float;
  days_remaining : Z;
  weeks_remaining : float;
  required_weekly_rate : float;
  current_trend : TrendResult;
  feasibility : string;
  recommendation : string
}.

Record ReportInfo := {
  ri_period : Z * Z;
  ri_generated_at : Z;
  ri_duration_days : Z
}.

Record ReportSummary (Photo : Type) := {
  measurements_count : nat;
  photos_count : nat;
  start_stats : option PeriodStats;
  end_stats : option PeriodStats
}.

Record ProgressReport (Photo : Type) := {
  report_info : ReportInfo;
  summary : ReportSummary Photo;
  key_changes : list (string * PeriodChange);
  rep_achievements : list Achievement;
  rep_trends : list (string * TrendResult);
  rep_health_insights : list string;
  photos_timeline : list Photo;
  recommendations : list string
}.

(** The nine metrics of lines 39-43 and 151-155. *)
Definition numeric_metrics : list string :=
  ["weight_kg"; "bmi"; "body_fat_percent"; "muscle_mass_kg";
   "skeletal_muscle_percent"; "body_water_percent"; "basal_metabolic_rate";
   "visceral_fat"; "metabolic_age"].

(** Line 206. *)
Definition metrics_to_predict : list string :=
  ["weight_kg"; "body_fat_percent"; "muscle_mass_kg"; "bmi"].

(** Lines 260-266: the feasibility band of a required weekly rate. *)
Definition assess_feasibility (required_weekly_rate : float) : string :=
  if gtb (abs required_weekly_rate) 1.0 then "aggressive"
  else if gtb (abs required_weekly_rate) 0.5 then "challenging"
  else if abs required_weekly_rate <? 0.2 then "conservative"
  else "realistic".

(** Lines 164-179: one pass of the inner loop body. *)
Definition strong_entry `{PyLib} (metric1 metric2 : string)
    (correlation : float) : list StrongCorrelation :=
  if gtb (abs correlation) 0.7 then
    [{| sc_metric1 := metric1;
        sc_metric2 := metric2;
        sc_correlation := np_round correlation 3;
        sc_strength :=
          if gtb (abs correlation) 0.8 then "strong" else "moderate";
        sc_direction :=
          if gtb correlation 0 then "positive" else "negative" |}]
  else [].

Section EntryPoints.

Context {L : PyLib}.

Import DataProcessor.

(** *** Entry points, on the records the data access returned *)

(** Lines 31-83, after [data] has been read. *)
Definition metrics_summary_of (data : list Measurement)
  : Outcome MetricsSummary :=
  match data with
  | [] => Error "No data available"
  | first_record :: _ =>
      let df := sort_values data in
      let present := filter (has_column df) numeric_metrics in
      Value {|
        overview := {|
          total_measurements := List.length data;
          date_range := {|
            dr_start := (date_min df / 86400)%Z;
            dr_end := (date_max df / 86400)%Z;
            dr_duration_days := ((date_max df - date_min df) / 86400)%Z
          |};
          latest_measurement := date first_record;
          measurement_frequency := _calculate_measurement_frequency df
        |};
        current_stats :=
          map (fun metric =>
                 (metric,
                  {| cs_current := np_round (iloc_last (column df metric)) 2;
                     cs_min := np_round (series_min (column df metric)) 2;
                     cs_max := np_round (series_max (column df metric)) 2;
                     cs_avg := np_round (series_mean (column df metric)) 2;
                     cs_std := np_round (series_std (column df metric)) 2 |}))
              present;
        trends :=
          map (fun metric =>
                 (metric,
                  {| week := _calculate_trend df metric 7;
                     month := _calculate_trend df metric 30;
                     quarter := _calculate_trend df metric 90;
                     year := _calculate_trend df metric 365 |}))
              present;
        achievements := _identify_achievements df;
        health_insights := _generate_health_insights df
      |}
  end.

(** Lines 101-132, after [data] has been read, for a request of numeric
    metrics: a requested column that holds no numbers (the date, the
    notes) is not a column of the frame here, while the program analyses
    it and fails. *)
Definition trend_analysis_of (data : list Measurement)
    (start_date end_date : Z) (metrics : list string)
  : Outcome TrendAnalysis :=
  if (List.length data <? 2)%nat
  then Error "Insufficient data for trend analysis"
  else
    let df := sort_values data in
    let analysed :=
      filter (fun metric =>
                has_column df metric && (1 <? notna_count df metric)%nat)
             metrics in
    Value {|
      ta_period := {|
        ap_start := start_date;
        ap_end := end_date;
        ap_duration_days := (end_date - start_date)%Z;
        ap_data_points := List.length data
      |};
      ta_metrics_analysis :=
        map (fun metric => (metric, _analyze_metric_trend df metric)) analysed;
      ta_correlations := _calculate_correlations df metrics;
      ta_change_velocity :=
        map (fun metric => (metric, _calculate_change_velocity df metric))
            analysed;
      ta_predictions :=
        map (fun metric => (metric, _predict_metric df metric 30)) analysed
    |}.

(** Lines 145-185, after [data] has been read.  The frame is used in the
    order of [data]: this entry point does not sort. *)
Definition metric_correlations_of (data : list Measurement)
  : Outcome Correlations :=
  match data with
  | [] => Error "No data available"
  | _ =>
      let df : DataFrame := data in
      let available_metrics := filter (has_column df) numeric_metrics in
      let n := List.length available_metrics in
      let corr_matrix := corr_entry df available_metrics in
      let strong :=
        flat_map (fun ij =>
                    strong_entry (nth (fst ij) available_metrics "")
                                 (nth (snd ij) available_metrics "")
                                 (corr_matrix (fst ij) (snd ij)))
                 (index_pairs n) in
      Value {|
        correlation_matrix :=
          map (fun j =>
                 (nth j available_metrics "",
                  map (fun i =>
                         (nth i available_metrics "",
                          np_round (corr_matrix i j) 3))
                      (seq 0 n)))
              (seq 0 n);
        strong_correlations := strong;
        insights := _interpret_correlations strong
      |}
  end.

(** Lines 210-214: the loop of the prediction batch. *)
Definition batch_predictions (df : DataFrame) (days_ahead : Z)
  : list (string * Prediction) :=
  flat_map (fun metric =>
              if has_column df metric && (5 <? notna_count df metric)%nat
              then match _predict_metric df metric days_ahead with
                   | Some prediction => [(metric, prediction)]
                   | None => []
                   end
              else [])
           metrics_to_predict.

(** Lines 198-221, after [data] has been read. *)
Definition progress_predictions_of (data : list Measurement) (days_ahead : Z)
  : Outcome Predictions :=
  if (List.length data <? 10)%nat
  then Error "Insufficient data for predictions"
  else
    let df := sort_values data in
    Value {|
      prediction_period := days_ahead;
      base_data_points := List.length data;
      predictions := batch_predictions df days_ahead;
      confidence_note :=
        "Predictions are estimates based on recent trends and may vary with lifestyle changes"
    |}.

(** Lines 233-280.  [latest_data] and [recent_data] are the two reads from
    the data access; [target_date] is a day number.  The [else 0] of line
    249 is the integer 0, which compares and rounds as the float 0. *)
Definition goal_progress_of (latest_data : option Measurement)
    (recent_data : list Measurement) (target_weight : float) (target_date : Z)
  : Outcome GoalAssessment :=
  match latest_data with
  | None => Error "No measurement data available"
  | Some latest =>
      match lookup "weight_kg" (fields latest) with
      | None => Error "Error checking goal progress: 'weight_kg'"
      | Some current_weight =>
          let current_date := date latest in
          let target_dt := (86400 * target_date)%Z in
          let days_remaining := ((target_dt - current_date) / 86400)%Z in
          let weight_to_lose := current_weight - target_weight in
          if (days_remaining <=? 0)%Z
          then Error "Target date must be in the future"
          else
            let weeks_remaining := Z2F days_remaining / 7 in
            let required_weekly_rate :=
              if gtb weeks_remaining 0
              then weight_to_lose / weeks_remaining else 0 in
            let df := sort_values recent_data in
            let current_trend := _calculate_trend df "weight_kg" 30 in
            let feasibility := assess_feasibility required_weekly_rate in
            Value {|
              current_weight := current_weight;
              target_weight := target_weight;
              weight_to_change := py_round weight_to_lose 2;
              days_remaining := days_remaining;
              weeks_remaining := py_round weeks_remaining 1;
              required_weekly_rate := py_round required_weekly_rate 2;
              current_trend := current_trend;
              feasibility := feasibility;
              recommendation :=
                _get_goal_recommendation required_weekly_rate current_trend
                                         feasibility
            |}
      end
  end.

(** Lines 300-335, after [data] and [photos] have been read; [now] is the
    clock at generation time. *)
Definition progress_report_of {Photo : Type} (data : list Measurement)
    (photos : list Photo) (now : Z) (start_date end_date : Z)
    (include_photos : bool)
  : Outcome (ProgressReport Photo) :=
  match data with
  | [] => Error "No data available for the specified period"
  | _ =>
      let df := sort_values data in
      Value {|
        report_info := {|
          ri_period := (start_date, end_date);
          ri_generated_at := now;
          ri_duration_days := (end_date - start_date)%Z
        |};
        summary := {|
          measurements_count := List.length data;
          photos_count := List.length photos;
          start_stats := option_map (_get_period_stats df) (hd_error df);
          end_stats := option_map (_get_period_stats df) (hd_error (rev df))
        |};
        key_changes := _calculate_period_changes df;
        rep_achievements := _identify_achievements df;
        rep_trends := _get_period_trends df;
        rep_health_insights := _generate_health_insights df;
        photos_timeline := if include_photos then photos else [];
        recommendations := _generate_recommendations df
      |}
  end.

(** *** Entry points, reading from the data access *)

Definition get_metrics_summary (data_processor : Store)
  : Outcome MetricsSummary :=
  metrics_summary_of
    (get_body_composition_data data_processor None None (Some 100%nat)).

Definition get_trend_analysis (data_processor : Store)
    (start_date end_date : Z) (metrics : list string)
  : Outcome TrendAnalysis :=
  trend_analysis_of
    (get_body_composition_data data_processor (Some start_date)
                               (Some end_date) (Some 100%nat))
    start_date end_date metrics.

Definition get_metric_correlations (data_processor : Store)
  : Outcome Correlations :=
  metric_correlations_of
    (get_body_composition_data data_processor None None (Some 100%nat)).

Definition get_progress_predictions (data_processor : Store) (days_ahead : Z)
  : Outcome Predictions :=
  progress_predictions_of
    (get_body_composition_data data_processor None None (Some 90%nat))
    days_ahead.

Definition check_goal_progress (data_processor : Store)
    (target_weight : float) (target_date : Z)
  : Outcome GoalAssessment :=
  goal_progress_of
    (get_latest_measurement data_processor)
    (get_body_composition_data data_processor None None (Some 30%nat))
    target_weight target_date.

Definition generate_progress_report {Photo : Type} (data_processor : Store)
    (get_photos : Z -> Z -> list Photo) (now : Z)
    (start_date end_date : Z) (include_photos : bool)
  : Outcome (ProgressReport Photo) :=
  progress_report_of
    (get_body_composition_data data_processor (Some start_date)
                               (Some end_date) (Some 100%nat))
    (if include_photos then get_photos start_date end_date else [])
    now start_date end_date include_photos.

End EntryPoints.

End AnalyticsEngine.

(* ================================================================== *)
(** ** A reference implementation of the library interface *)
(* ================================================================== *)

(** The textbook definition of each library call, evaluated in binary64
    arithmetic from left to right.  NumPy and LAPACK may associate long
    sums differently, so on long series their last bits can differ from
    the values computed here; comparisons, NaN and infinities do not. *)
Module RefLib.

Import FloatOrder Frame.
Local Open Scope float_scope.

Definition pow10 (n : Z) : float := Z2F (10 ^ n).

(** [np.rint]: the nearest integer, ties to even.  Below [2^52] adding and
    subtracting [2^52] rounds to an integer; from [2^52] on every float is
    one. *)
Definition two52 : float := 4503599627370496.

Definition rint (x : float) : float :=
  if abs x <? two52 then
    let r := (abs x + two52) - two52 in
    if x <? 0 then - r else r
  else x.

(** [np.round(x, n)], [n >= 0]: scale, [rint], scale back. *)
Definition np_round (x : float) (n : Z) : float :=
  rint (x * pow10 n) / pow10 n.

(** [num / den] rounded to the nearest integer, ties to even
    ([0 <= num], [0 < den]). *)
Definition round_half_even (num den : Z) : Z :=
  let q := (num / den)%Z in
  let r := (num mod den)%Z in
  if (2 * r <? den)%Z then q
  else if (den <? 2 * r)%Z then (q + 1)%Z
  else if Z.even q then q else (q + 1)%Z.

(** [m * 2^e * 10^d] rounded to the nearest integer, ties to even. *)
Definition scaled_int (m : positive) (e : Z) (d : Z) : Z :=
  if (0 <=? e)%Z then (Z.pos m * 2 ^ e * 10 ^ d)%Z
  else round_half_even (Z.pos m * 10 ^ d) (2 ^ (- e)).

(** Builtin [round(x, n)], [n >= 0]: the float nearest to the decimal with
    [n] places nearest to the exact value of [x].  From [2^53] scaled units
    on, that float is [x] itself. *)
Definition py_round (x : float) (n : Z) : float :=
  match Prim2SF x with
  | S754_finite s m e =>
      let k := scaled_int m e n in
      if (2 ^ 53 <=? k)%Z then x
      else
        let r := Z2F k / pow10 n in
        if s then - r else r
  | _ => x
  end.

Definition sum (s : list float) : float :=
  fold_left (fun acc v => acc + v) s 0.

(** [Series.mean()] *)
Definition series_mean (s : list float) : float :=
  match dropna s with
  | [] => nan
  | vs => sum vs / N2F (List.length vs)
  end.

(** [Series.std()]: the square root of the sum of squared deviations over
    [n - 1]. *)
Definition series_std (s : list float) : float :=
  let vs := dropna s in
  if (List.length vs <? 2)%nat then nan
  else
    let avg := sum vs / N2F (List.length vs) in
    sqrt (sum (map (fun v => (v - avg) * (v - avg)) vs)
          / N2F (List.length vs - 1)).

Definition count_eq (v : float) (s : list float) : nat :=
  List.length (filter (fun w => w =? v) s).

Fixpoint insert_sorted (v : float) (s : list float) : list float :=
  match s with
  | [] => [v]
  | w :: rest =>
      if v <? w then v :: s
      else if v =? w then s
      else w :: insert_sorted v rest
  end.

(** [Series.mode()]: the most frequent values, ascending. *)
Definition series_mode (s : list float) : list float :=
  let vs := dropna s in
  let top := fold_left Nat.max (map (fun v => count_eq v vs) vs) 0%nat in
  fold_right insert_sorted []
             (filter (fun v => (count_eq v vs =? top)%nat) vs).

(** Ordinary least squares of [y] on [x] with an intercept. *)
Definition linreg_fit (x y : list float) : LinearModel :=
  let n := N2F (List.length x) in
  let x_mean := sum x / n in
  let y_mean := sum y / n in
  let sxy :=
    sum (map (fun p => (fst p - x_mean) * (snd p - y_mean)) (combine x y)) in
  let sxx := sum (map (fun v => (v - x_mean) * (v - x_mean)) x) in
  let coef := if sxx =? 0 then 0 else sxy / sxx in
  {| coef_ := coef; intercept_ := y_mean - coef * x_mean |}.

(** [r2_score]: one minus the residual over the total sum of squares. *)
Definition linreg_score (m : LinearModel) (x y : list float) : float :=
  let y_mean := sum y / N2F (List.length y) in
  let ss_res :=
    sum (map (fun p =>
                let d := snd p - (coef_ m * fst p + intercept_ m) in d * d)
             (combine x y)) in
  let ss_tot := sum (map (fun v => (v - y_mean) * (v - y_mean)) y) in
  if ss_tot =? 0 then (if ss_res =? 0 then 1 else 0)
  else 1 - ss_res / ss_tot.

(** The running sums of pandas' [nancorr] over the rows where both
    columns hold a finite number. *)
Record CorrState := {
  nobs : float;
  meanx : float;
  meany : float;
  ssqdm_x : float;
  ssqdm_y : float;
  covxy : float
}.

Definition corr_step (st : CorrState) (vx vy : float) : CorrState :=
  let nobs' := nobs st + 1 in
  let dx := vx - meanx st in
  let dy := vy - meany st in
  let meanx' := meanx st + 1 / nobs' * dx in
  let meany' := meany st + 1 / nobs' * dy in
  {| nobs := nobs';
     meanx := meanx';
     meany := meany';
     ssqdm_x := ssqdm_x st + (vx - meanx') * dx;
     ssqdm_y := ssqdm_y st + (vy - meany') * dy;
     covxy := covxy st + (vx - meanx') * dy |}.

Fixpoint corr_loop (st : CorrState) (xs ys : list float) : CorrState :=
  match xs, ys with
  | vx :: xs', vy :: ys' =>
      corr_loop (if is_finite vx && is_finite vy
                 then corr_step st vx vy else st)
                xs' ys'
  | _, _ => st
  end.

Definition corr_init : CorrState :=
  {| nobs := 0; meanx := 0; meany := 0;
     ssqdm_x := 0; ssqdm_y := 0; covxy := 0 |}.

(** Pearson's r ([min_periods = 1]): NaN without observations or without
    spread, otherwise the ratio clipped to [[-1, 1]]. *)
Definition pearson (xs ys : list float) : float :=
  let st := corr_loop corr_init xs ys in
  if nobs st <? 1 then nan
  else
    let divisor := sqrt (ssqdm_x st * ssqdm_y st) in
    if neb divisor 0 then
      let val := covxy st / divisor in
      if gtb val 1 then 1 else if val <? -1 then -1 else val
    else nan.

(** Decimal digits of a natural number. *)
Fixpoint digits_acc (fuel : nat) (n : Z) (acc : string) : string :=
  let acc' := String (ascii_of_nat (48 + Z.to_nat (n mod 10))) acc in
  match fuel with
  | O => acc'
  | S fuel' => if (n <? 10)%Z then acc' else digits_acc fuel' (n / 10) acc'
  end.

Definition digits (n : Z) : string :=
  digits_acc (Z.to_nat (Z.log2 n)) n EmptyString.

Fixpoint pad_left (width : nat) (s : string) : string :=
  match (width - String.length s)%nat with
  | O => s
  | S _ =>
      match width with
      | O => s
      | S w => String "0"%char (pad_left w s)
      end
  end.

(** [f"{x:.{d}f}"] *)
Definition format_fixed (d : nat) (x : float) : string :=
  match Prim2SF x with
  | S754_nan => "nan"
  | S754_infinity s => if s then "-inf" else "inf"
  | S754_zero s =>
      ((if s then "-" else "") ++ "0." ++ pad_left d "")%string
  | S754_finite s m e =>
      let k := scaled_int m e (Z.of_nat d) in
      let unit := (10 ^ Z.of_nat d)%Z in
      ((if s then "-" else "") ++ digits (k / unit) ++ "."
       ++ pad_left d (if (k mod unit =? 0)%Z then "" else digits (k mod unit)))%string
  end.

Fixpoint strip_zeros_rev (s : list ascii) : list ascii :=
  match s with
  | "0"%char :: ((c :: _) as rest) =>
      if Ascii.eqb c "."%char then s else strip_zeros_rev rest
  | _ => s
  end.

(** [f"{x}"] for a float with at most three decimal places, as line 176
    produces them: the fixed notation without trailing zeros. *)
Definition float_str (x : float) : string :=
  string_of_list_ascii
    (rev (strip_zeros_rev (rev (list_ascii_of_string (format_fixed 3 x))))).

Definition lib : PyLib :=
  Build_PyLib np_round py_round series_mean series_std series_mode
              linreg_fit linreg_score pearson (format_fixed 1) float_str.

End RefLib.

(* ================================================================== *)
(** ** More of the data-access collaborator ([DataProcessor]) *)
(* ================================================================== *)

Module DataProcessorQueries.

Import FloatOrder Frame DataProcessor AnalyticsEngine.
Local Open Scope string_scope.
Local Open Scope float_scope.

(** The truth value of [record.get(key)]: a number other than zero; a
    missing key gives [None], which is false. *)
Definition truthy (v : option float) : bool :=
  match v with
  | Some x => neb x 0
  | None => false
  end.

(** The dictionary [derived] of lines 73-112; a key that was not set is
    [None]. *)
Record Derived := {
  muscle_to_weight_ratio : option float;
  fat_muscle_ratio : option float;
  bmi_category : option string;
  fitness_score : option float
}.

(** Lines 89-98. *)
Definition bmi_category_of (bmi : float) : string :=
  if bmi <? 18.5 then "underweight"
  else if bmi <? 25 then "normal"
  else if bmi <? 30 then "overweight"
  else "obese".

(** Lines 77-80, with the division checked: [None] when it raises. *)
Definition muscle_to_weight_step {L : PyLib} (record : Measurement)
  : option (option float) :=
  if truthy (lookup "weight_kg" (fields record))
     && truthy (lookup "muscle_mass_kg" (fields record))
  then
    match truediv (cell "muscle_mass_kg" record) (cell "weight_kg" record) with
    | Some q => Some (Some (py_round (q * 100) 2))
    | None => None
    end
  else Some None.

(** Lines 83-86, with the division checked. *)
Definition fat_muscle_step {L : PyLib} (record : Measurement)
  : option (option float) :=
  if truthy (lookup "body_fat_percent" (fields record))
     && truthy (lookup "skeletal_muscle_percent" (fields record))
  then
    match truediv (cell "body_fat_percent" record)
                  (cell "skeletal_muscle_percent" record) with
    | Some q => Some (Some (py_round q 2))
    | None => None
    end
  else Some None.

(** Lines 89-98. *)
Definition bmi_category_step (record : Measurement) : option string :=
  if truthy (lookup "bmi" (fields record))
  then Some (bmi_category_of (cell "bmi" record))
  else None.

(** Lines 101-107. *)
Definition fitness_score_step {L : PyLib} (record : Measurement) : option float :=
  if has_key "skeletal_muscle_percent" record
     && has_key "body_fat_percent" record
     && has_key "body_water_percent" record
  then
    Some (py_round (cell "skeletal_muscle_percent" record * 0.4
                    + (100 - cell "body_fat_percent" record) * 0.4
                    + cell "body_water_percent" record * 0.2) 1)
  else None.

(** Lines 71-112.  An exception leaves the keys set so far and skips the
    rest. *)
Definition _calculate_derived_metrics {L : PyLib} (record : Measurement)
  : Derived :=
  match muscle_to_weight_step record with
  | None =>
      {| muscle_to_weight_ratio := None; fat_muscle_ratio := None;
         bmi_category := None; fitness_score := None |}
  | Some ratio =>
      match fat_muscle_step record with
      | None =>
          {| muscle_to_weight_ratio := ratio; fat_muscle_ratio := None;
             bmi_category := None; fitness_score := None |}
      | Some fat_muscle =>
          {| muscle_to_weight_ratio := ratio;
             fat_muscle_ratio := fat_muscle;
             bmi_category := bmi_category_step record;
             fitness_score := fitness_score_step record |}
      end
  end.

(** [df.sort_values('date', ascending=False)] of line 54.  As for
    [sort_values], a merge sort stands for the sort of pandas, which leaves
    the order of rows with equal timestamps unspecified. *)
Lemma newest_first_total (a b : Measurement) :
  (date b <=? date a)%Z = true \/ (date a <=? date b)%Z = true.
Proof. rewrite !Z.leb_le. lia. Qed.

Module NewestFirst <: TotalLeBool.
Definition t := Measurement.
Definition leb (a b : Measurement) : bool := (date b <=? date a)%Z.
Definition leb_total : forall a b, leb a b = true \/ leb b a = true :=
  newest_first_total.
End NewestFirst.

Module NewestFirstSort := Sort NewestFirst.

(** [record.update(derived)] on the numeric entries: the derived numbers
    are entered under their keys. *)
Definition update_derived (record : Measurement) (derived : Derived)
  : Measurement :=
  {| date := date record;
     fields :=
       (match muscle_to_weight_ratio derived with
        | Some v => [("muscle_to_weight_ratio", v)]
        | None => []
        end
        ++ match fat_muscle_ratio derived with
           | Some v => [("fat_muscle_ratio", v)]
           | None => []
           end
        ++ match fitness_score derived with
           | Some v => [("fitness_score", v)]
           | None => []
           end
        ++ fields record)%list |}.

(** Lines 46-66, from the rows of the sheet (renamed, with parsed dates) to
    the records that are saved: sorted newest first, each with its derived
    metrics. *)
Definition process_excel_file {L : PyLib} (rows : list Measurement)
  : list (Measurement * Derived) :=
  map (fun record =>
         (update_derived record (_calculate_derived_metrics record),
          _calculate_derived_metrics record))
      (NewestFirstSort.sort rows).

(** The numeric part of what [_save_processed_data] writes: the store the
    other methods read. *)
Definition saved_store {L : PyLib} (rows : list Measurement) : Store :=
  map fst (process_excel_file rows).

(** Lines 180-189: the loop, with the closest record and its distance so
    far; [None] is before the first record ([timedelta.max]). *)
Definition closer (target : Z) (best : option (Measurement * Z))
    (record : Measurement) : option (Measurement * Z) :=
  let diff := Z.abs (date record - target) in
  match best with
  | None => Some (record, diff)
  | Some (_, min_diff) =>
      if (diff <? min_diff)%Z then Some (record, diff) else best
  end.

(** Lines 174-195; [target_date] is a day number. *)
Definition get_measurement_by_date (store : Store) (target_date : Z)
  : option Measurement :=
  let data := get_body_composition_data store None None (Some 100%nat) in
  let target := (86400 * target_date)%Z in
  option_map fst (fold_left (closer target) data None).

(** [data.sort(key=lambda x: x['date'])]: Python's sort is stable, so the
    result is that of a stable insertion sort. *)
Fixpoint insert_by_date (r : Measurement) (sorted : list Measurement)
  : list Measurement :=
  match sorted with
  | [] => [r]
  | s :: rest =>
      if (date r <=? date s)%Z then r :: sorted
      else s :: insert_by_date r rest
  end.

Definition sort_by_date (data : list Measurement) : list Measurement :=
  fold_right insert_by_date [] data.

(** The result of [calculate_trends]. *)
Record StoredTrend := {
  st_trend : string;
  st_change : float;
  st_percent_change : PyNum;
  st_start_value : float;
  st_end_value : float;
  st_period_days : Z;
  st_data_points : nat
}.

Inductive StoredTrendResult :=
| stored_insufficient
| stored_trend (t : StoredTrend).

(** [round(v, n)] on a Python number. *)
Definition py_round_num {L : PyLib} (v : PyNum) (n : Z) : PyNum :=
  match v with
  | PyInt k => PyInt k
  | PyFloat x => PyFloat (py_round x n)
  end.

(** Lines 298-303 on a Python number. *)
Definition stored_direction (percent_change : PyNum) : string :=
  match percent_change with
  | PyInt k =>
      if (Z.abs k <? 1)%Z then "stable"
      else if (0 <? k)%Z then "increasing" else "decreasing"
  | PyFloat x =>
      if abs x <? 1 then "stable"
      else if gtb x 0 then "increasing" else "decreasing"
  end.

(** [[record.get(metric) for record in data if record.get(metric) is not
    None]] *)
Fixpoint present_values (metric : string) (data : list Measurement)
  : list float :=
  match data with
  | [] => []
  | r :: rest =>
      match lookup metric (fields r) with
      | Some v => v :: present_values metric rest
      | None => present_values metric rest
      end
  end.

(** Lines 264-317; [now] is the clock, and [metric] a numeric key (the
    date, the notes and the BMI category are not among [fields]).  A key
    whose value is [null] in the file is a key that is missing here. *)
Definition calculate_trends {L : PyLib} (store : Store) (now : Z)
    (metric : string) (days : Z) : StoredTrendResult :=
  let end_date := now in
  let start_date := (end_date - 86400 * days)%Z in
  let data :=
    get_body_composition_data store (Some (start_date / 86400)%Z)
                              (Some (end_date / 86400)%Z) (Some 100%nat) in
  if (List.length data <? 2)%nat then stored_insufficient
  else
    let data := sort_by_date data in
    let values := present_values metric data in
    if (List.length values <? 2)%nat then stored_insufficient
    else
      let first_value := iloc_first values in
      let last_value := iloc_last values in
      let change := last_value - first_value in
      let percent_change := percent_or_zero change first_value in
      stored_trend {|
        st_trend := stored_direction percent_change;
        st_change := py_round change 2;
        st_percent_change := py_round_num percent_change 2;
        st_start_value := first_value;
        st_end_value := last_value;
        st_period_days := days;
        st_data_points := List.length values
      |}.

End DataProcessorQueries.

(* ================================================================== *)
(** ** The photo collaborator ([PhotoManager]), as far as the engine and
       its callers read it *)
(* ================================================================== *)

Module PhotoManager.

Local Open Scope string_scope.

(** One record of [data/photos_metadata.json]. *)
Record Photo := {
  photo_id : string;
  photo_date : Z;
  photo_tags : list string
}.

(** [str.lower()] and [str.strip()].  Python's are aware of Unicode; the
    two below agree with them on ASCII text, which is what [ascii_text]
    says of a tag. *)
Definition ascii_char (c : ascii) : bool := (nat_of_ascii c <? 128)%nat.

Fixpoint ascii_text (s : string) : bool :=
  match s with
  | EmptyString => true
  | String c rest => ascii_char c && ascii_text rest
  end.

Definition lower_char (c : ascii) : ascii :=
  if (65 <=? nat_of_ascii c)%nat && (nat_of_ascii c <=? 90)%nat
  then ascii_of_nat (nat_of_ascii c + 32) else c.

Fixpoint lower (s : string) : string :=
  match s with
  | EmptyString => EmptyString
  | String c rest => String (lower_char c) (lower rest)
  end.

Definition is_space (c : ascii) : bool :=
  let n := nat_of_ascii c in
  ((9 <=? n)%nat && (n <=? 13)%nat)
  || ((28 <=? n)%nat && (n <=? 32)%nat).

Fixpoint lstrip (s : string) : string :=
  match s with
  | EmptyString => EmptyString
  | String c rest => if is_space c then lstrip rest else s
  end.

(** The string without its trailing white space. *)
Fixpoint rstrip (s : string) : string :=
  match s with
  | EmptyString => EmptyString
  | String c rest =>
      match rstrip rest with
      | EmptyString => if is_space c then EmptyString else String c EmptyString
      | kept => String c kept
      end
  end.

Definition strip (s : string) : string := rstrip (lstrip s).

(** [s.split(',')] *)
Fixpoint split_comma (s : string) : list string :=
  match s with
  | EmptyString => [EmptyString]
  | String c rest =>
      if Ascii.eqb c ","%char then EmptyString :: split_comma rest
      else
        match split_comma rest with
        | piece :: pieces => String c piece :: pieces
        | [] => [String c EmptyString]
        end
  end.

(** [x in l] on strings *)
Definition mem (x : string) (l : list string) : bool :=
  existsb (String.eqb x) l.

(** Line 209. *)
Definition tag_list (tags : string) : list string :=
  map (fun tag => lower (strip tag)) (split_comma tags).

(** Lines 211-213: one of the wanted tags is a tag of the photo, letter
    case apart. *)
Definition has_tag (wanted : list string) (photo : Photo) : bool :=
  existsb (fun tag => mem (lower tag) (map lower (photo_tags photo))) wanted.

Definition photo_in_range (start_date end_date : option Z) (photo : Photo)
  : bool :=
  match start_date with
  | Some s => negb (photo_date photo <? 86400 * s)%Z
  | None => true
  end
  &&
  match end_date with
  | Some e => negb (photo_date photo >? 86400 * e)%Z
  | None => true
  end.

(** Lines 179-224; [metadata] are the records of the metadata file, [[]]
    when it does not exist; an absent or empty [tags] does not filter. *)
Definition get_photos (metadata : list Photo)
    (start_date end_date : option Z) (tags : option string) : list Photo :=
  let photos := filter (photo_in_range start_date end_date) metadata in
  match tags with
  | None | Some EmptyString => photos
  | Some tags => filter (has_tag (tag_list tags)) photos
  end.

(** [photos[:limit]]: a negative [limit] counts from the end. *)
Definition slice_to {A : Type} (limit : Z) (l : list A) : list A :=
  if (limit <? 0)%Z then firstn (List.length l - Z.to_nat (- limit)) l
  else firstn (Z.to_nat limit) l.

(** The tags of every photo of the file are ASCII text. *)
Definition ascii_tags (metadata : list Photo) : Prop :=
  forall photo tag,
    In photo metadata -> In tag (photo_tags photo) -> ascii_text tag = true.

(** [main.get_progress_photos], lines 140-154 of [main.py]: [limit] is
    applied when it is given and not zero. *)
Definition get_progress_photos (metadata : list Photo)
    (start_date end_date : option Z) (tags : option string)
    (limit : option Z) : list Photo :=
  let photos := get_photos metadata start_date end_date tags in
  match limit with
  | None => photos
  | Some limit => if (limit =? 0)%Z then photos else slice_to limit photos
  end.

End PhotoManager.

(* ================================================================== *)
(** ** Notions and series used to state the properties *)
(* ================================================================== *)

Import FloatOrder Frame DataProcessor AnalyticsEngine.
Local Open Scope string_scope.
Local Open Scope list_scope.
Local Open Scope float_scope.

(** The rows of the trend window, [recent_df] of lines 372-373: not older
    than [days] days before the latest row. *)
Definition trend_window (df : DataFrame) (days : Z) : DataFrame :=
  filter (fun r => (date_max df - 86400 * days <=? date r)%Z) df.

(** An achievement of the given type, category and value is in the list. *)
Definition awarded (result : list Achievement) (type category : string)
    (value : float) : Prop :=
  exists a, In a result /\ ach_type a = type /\ ach_category a = category
            /\ ach_value a = value.

(** No achievement of the given type is in the list. *)
Definition not_awarded (result : list Achievement) (type : string) : Prop :=
  forall a, In a result -> ach_type a <> type.

(** [matrix[column][row]] of a nested dictionary. *)
Definition matrix_entry (matrix : list (string * list (string * float)))
    (column row : string) : option float :=
  match find (fun e => String.eqb (fst e) column) matrix with
  | Some (_, rows) => lookup row rows
  | None => None
  end.

(** The entry the loop of lines 166-179 appends for the pair [(i, j)]. *)
Definition strong_pair `{PyLib} (metrics : list string)
    (r : nat -> nat -> float) (i j : nat) : StrongCorrelation :=
  {| sc_metric1 := nth i metrics "";
     sc_metric2 := nth j metrics "";
     sc_correlation := np_round (r i j) 3;
     sc_strength := if gtb (abs (r i j)) 0.8 then "strong" else "moderate";
     sc_direction := if gtb (r i j) 0 then "positive" else "negative" |}.

(** Every column of the frame is a key of the record, as for the rows of
    one spreadsheet. *)
Definition carries_columns (df : DataFrame) (r : Measurement) : Prop :=
  forall key, has_column df key = true -> has_key key r = true.

(** A record with one weight entry. *)
Definition weighed (timestamp : Z) (weight : float) : Measurement :=
  {| date := timestamp; fields := [("weight_kg", weight)] |}.

(** A record carrying a weight and a BMI, at midnight of the given day. *)
Definition weighed_bmi (day : Z) (weight bmi : float) : Measurement :=
  {| date := 86400 * day;
     fields := [("weight_kg", weight); ("bmi", bmi)] |}.

(** A record with a BMI and a body-water percentage. *)
Definition bmi_water (timestamp : Z) (bmi water : float) : Measurement :=
  {| date := timestamp;
     fields := [("bmi", bmi); ("body_water_percent", water)] |}.

(** Four daily weights, 80, 79, 78 and 77 kg. *)
Definition four_weights : DataFrame :=
  [weighed 0 80; weighed 86400 79; weighed 172800 78; weighed 259200 77].

(** Ten daily records, newest first, the weight present in five of them. *)
Definition five_weights_of_ten : list Measurement :=
  [weighed_bmi 9 nan 24.0; weighed_bmi 8 78.2 24.1; weighed_bmi 7 nan 24.1;
   weighed_bmi 6 78.6 24.2; weighed_bmi 5 nan 24.3; weighed_bmi 4 79.1 24.4;
   weighed_bmi 3 nan 24.4; weighed_bmi 2 79.5 24.5; weighed_bmi 1 nan 24.6;
   weighed_bmi 0 80.0 24.7].

(** Twenty daily records, newest first, with a BMI in each and a weight in
    the three newest. *)
Definition three_and_twenty : list Measurement :=
  map (fun i =>
         weighed_bmi (Z.of_nat (19 - i))
                     (if (i <? 3)%nat then 80 - N2F i else nan)
                     (24 + N2F i / 10))
      (seq 0 20).

(** Two records whose metabolic age is the same. *)
Definition constant_age : list Measurement :=
  [{| date := 86400;
      fields := [("weight_kg", 79); ("metabolic_age", 30)] |};
   {| date := 0;
      fields := [("weight_kg", 80); ("metabolic_age", 30)] |}].

(** The same two records, newest first and oldest first. *)
Definition newest_first : list Measurement :=
  [weighed 86400 79; weighed 0 80].
Definition oldest_first : list Measurement :=
  [weighed 0 80; weighed 86400 79].

(** Three weighings within two hours of one day. *)
Definition same_day_weights : DataFrame :=
  [weighed 0 80; weighed 3600 81; weighed 7200 80].

(** Daily weights falling from [100 - first], [count] of them. *)
Definition weights_from (first count : nat) : DataFrame :=
  map (fun i => weighed (86400 * Z.of_nat i) (N2F (100 - i)))
      (seq first count).

(** The same records, [seconds] later. *)
Definition shift_dates (seconds : Z) (df : DataFrame) : DataFrame :=
  map (fun r => {| date := date r + seconds; fields := fields r |}) df.

(** Newest first, the order of the saved file. *)
Definition descending (a b : Measurement) : Prop := (date b <= date a)%Z.

(** A weight that starts at zero. *)
Definition from_zero : Store := [weighed 10 5; weighed 0 0].

(** Two weighings of earlier days and one of today, 00:01. *)
Definition with_today : Store :=
  [weighed (86400 * 2 + 60) 90; weighed 86400 79; weighed 0 80].

(** Three photos of the metadata file, newest first. *)
Definition three_photos : list PhotoManager.Photo :=
  [ {| PhotoManager.photo_id := "c"; PhotoManager.photo_date := 200000;
       PhotoManager.photo_tags := ["Front"; "week 3"] |};
    {| PhotoManager.photo_id := "b"; PhotoManager.photo_date := 100000;
       PhotoManager.photo_tags := ["side"] |};
    {| PhotoManager.photo_id := "a"; PhotoManager.photo_date := 0;
       PhotoManager.photo_tags := ["FRONT"] |} ].

(** Three weighings of one and the same weight. *)
Definition constant_weights : DataFrame :=
  [weighed 0 80; weighed 86400 80; weighed 172800 80].

(** Four weighings whose BMI falls with the weight. *)
Definition weight_with_bmi : list Measurement :=
  [weighed_bmi 3 77.2 24.1; weighed_bmi 2 78.6 24.4; weighed_bmi 1 79.1 24.7;
   weighed_bmi 0 80.3 25.3].

(** The columns of a saved record that do not hold numbers: the timestamp,
    the notes and the BMI category (data processor lines 29-44 and 88-98).
    A frame of the model holds the numeric columns only, so what is said of
    the metrics of a request is said of requests that name none of these
    columns and no metric twice. *)
Definition non_numeric_columns : list string :=
  ["date"; "notes"; "bmi_category"].

Definition numeric_request (metrics : list string) : Prop :=
  forall metric, In metric metrics -> ~ In metric non_numeric_columns.

(** The state of the running sums when a column is paired with itself:
    the three sums of products agree. *)
Definition self_state (st : RefLib.CorrState) : Prop :=
  RefLib.meany st = RefLib.meanx st
  /\ RefLib.ssqdm_y st = RefLib.ssqdm_x st
  /\ RefLib.covxy st = RefLib.ssqdm_x st.

(* ================================================================== *)
(** ** Order facts on binary64 numbers *)
(* ================================================================== *)

Module FloatFacts.

(** The order of two specification floats, when they are ordered. *)
Definition SFlt (a b : spec_float) : Prop := SFcompare a b = Some Lt.
Definition SFle (a b : spec_float) : Prop :=
  SFcompare a b = Some Lt \/ SFcompare a b = Some Eq.

Ltac cmp_cases :=
  repeat match goal with
  | |- context [Z.compare ?a ?b] =>
      destruct (Z.compare_spec a b); subst
  | H : context [Z.compare ?a ?b] |- _ =>
      destruct (Z.compare_spec a b); subst
  | |- context [Pos.compare_cont Eq ?a ?b] =>
      change (Pos.compare_cont Eq a b) with (Pos.compare a b)
  | H : context [Pos.compare_cont Eq ?a ?b] |- _ =>
      change (Pos.compare_cont Eq a b) with (Pos.compare a b) in H
  | |- context [Pos.compare ?a ?b] =>
      destruct (Pos.compare_spec a b); subst
  | H : context [Pos.compare ?a ?b] |- _ =>
      destruct (Pos.compare_spec a b); subst
  end.

Ltac sf_order :=
  unfold SFlt, SFle; intros;
  repeat match goal with
  | x : spec_float |- _ => destruct x
  end;
  repeat match goal with
  | b : bool |- _ => destruct b
  end;
  cbn [SFcompare CompOpp] in *;
  repeat match goal with
  | H : _ \/ _ |- _ => destruct H
  end;
  try discriminate; try reflexivity; try (left; reflexivity);
  cmp_cases; cbn [CompOpp] in *;
  try discriminate; try reflexivity; try lia;
  try (left; reflexivity); try (right; reflexivity).

Lemma SFlt_trans a b c : SFlt a b -> SFlt b c -> SFlt a c.
Proof. sf_order. Qed.

Lemma SFle_lt_trans a b c : SFle a b -> SFlt b c -> SFlt a c.
Proof. sf_order. Qed.

Lemma SFlt_le_trans a b c : SFlt a b -> SFle b c -> SFlt a c.
Proof. sf_order. Qed.

Lemma SFlt_irrefl a : ~ SFlt a a.
Proof.
  unfold SFlt. destruct a as [s| s | |s m e]; cbn [SFcompare];
    try destruct s; try discriminate.
  - rewrite Z.compare_refl.
    change (Pos.compare_cont Eq m m) with (Pos.compare m m).
    rewrite Pos.compare_refl. discriminate.
  - rewrite Z.compare_refl.
    change (Pos.compare_cont Eq m m) with (Pos.compare m m).
    rewrite Pos.compare_refl. discriminate.
Qed.

Lemma ltb_SFlt x y : (x <? y) = true <-> SFlt (Prim2SF x) (Prim2SF y).
Proof.
  rewrite ltb_spec. unfold SFltb, SFlt.
  destruct (SFcompare (Prim2SF x) (Prim2SF y)) as [[]|];
    split; intro; try reflexivity; discriminate.
Qed.

Lemma leb_SFle x y : (x <=? y) = true <-> SFle (Prim2SF x) (Prim2SF y).
Proof.
  rewrite leb_spec. unfold SFleb, SFle.
  destruct (SFcompare (Prim2SF x) (Prim2SF y)) as [[]|];
    split; intro H; try reflexivity; try discriminate; auto;
    destruct H; discriminate.
Qed.

Lemma ltb_trans x y z :
  (x <? y) = true -> (y <? z) = true -> (x <? z) = true.
Proof. rewrite !ltb_SFlt. apply SFlt_trans. Qed.

Lemma leb_ltb_trans x y z :
  (x <=? y) = true -> (y <? z) = true -> (x <? z) = true.
Proof. rewrite leb_SFle, !ltb_SFlt. apply SFle_lt_trans. Qed.

Lemma ltb_leb_trans x y z :
  (x <? y) = true -> (y <=? z) = true -> (x <? z) = true.
Proof. rewrite leb_SFle, !ltb_SFlt. apply SFlt_le_trans. Qed.

Lemma ltb_irrefl x : (x <? x) = false.
Proof.
  destruct (x <? x) eqn:E; [|reflexivity].
  apply ltb_SFlt in E. destruct (SFlt_irrefl _ E).
Qed.

(** Two comparisons against constants [a] and [b] with [b <= a] cannot both
    hold: [a < x] and [x < b]. *)
Lemma ltb_between_false a b x :
  (a <? b) = false -> (a <? x) = true -> (x <? b) = false.
Proof.
  intros Hab Hax. destruct (x <? b) eqn:E; [|reflexivity].
  rewrite (ltb_trans _ _ _ Hax E) in Hab. discriminate.
Qed.

Lemma leb_between_false a b x :
  (a <? b) = false -> (a <=? x) = true -> (x <? b) = false.
Proof.
  intros Hab Hax. destruct (x <? b) eqn:E; [|reflexivity].
  rewrite (leb_ltb_trans _ _ _ Hax E) in Hab. discriminate.
Qed.

(** The absolute value of a negative number exceeds [c] exactly when the
    number is below [-c]. *)
Lemma abs_gtb_neg (x c : float) :
  (x <? 0) = true -> gtb (abs x) c = (x <? - c).
Proof.
  unfold gtb. rewrite !ltb_spec, abs_spec, opp_spec.
  change (Prim2SF 0) with (S754_zero false).
  unfold SFltb.
  destruct (Prim2SF x) as [sx|sx| |sx mx ex], (Prim2SF c) as [sc|sc| |sc mc ec];
    try destruct sx; try destruct sc;
    cbn [SFcompare SFabs SFopp negb CompOpp]; intros Hneg;
    try discriminate; try reflexivity;
    destruct (Z.compare_spec ec ex), (Z.compare_spec ex ec);
    try lia; try reflexivity;
    change (Pos.compare_cont Eq mc mx) with (Pos.compare mc mx);
    change (Pos.compare_cont Eq mx mc) with (Pos.compare mx mc);
    rewrite (Pos.compare_antisym mc mx);
    destruct (Pos.compare mc mx); reflexivity.
Qed.

(** A number equal to zero is one of the two zeros. *)
Lemma eqb_zero_cases (x : float) : (x =? 0) = true -> x = 0 \/ x = -0.
Proof.
  rewrite eqb_spec. change (Prim2SF 0) with (S754_zero false).
  intros H.
  destruct (Prim2SF x) as [s|s| |s m e] eqn:Hx;
    try (destruct s; discriminate); try discriminate.
  destruct s; [right|left]; apply Prim2SF_inj; rewrite Hx; reflexivity.
Qed.

(** A product with a zero is a zero or NaN. *)
Lemma mul_zero_cases (x y : float) :
  x = 0 \/ x = -0 -> x * y = nan \/ x * y = 0 \/ x * y = -0.
Proof.
  intros Hx.
  assert (H : exists s, Prim2SF x = S754_zero s).
  { destruct Hx as [->| ->]; eexists; reflexivity. }
  destruct H as [s Hs].
  pose proof (mul_spec x y) as Hm. rewrite Hs in Hm.
  destruct (Prim2SF y) as [sy|sy| |sy my ey]; cbn in Hm.
  - destruct (xorb s sy); [right; right|right; left];
      apply Prim2SF_inj; rewrite Hm; reflexivity.
  - left. apply Prim2SF_inj. rewrite Hm. reflexivity.
  - left. apply Prim2SF_inj. rewrite Hm. reflexivity.
  - destruct (xorb s sy); [right; right|right; left];
      apply Prim2SF_inj; rewrite Hm; reflexivity.
Qed.

Lemma div_nan (x : float) : x / nan = nan.
Proof.
  apply Prim2SF_inj. rewrite div_spec.
  change (Prim2SF nan) with S754_nan.
  destruct (Prim2SF x); reflexivity.
Qed.

(** A finite number other than zero divided by zero is infinite. *)
Lemma div_zero_not_finite (x : float) :
  is_finite x = true -> (x =? 0) = false -> is_finite (x / 0) = false.
Proof.
  intros Hfin Hnz.
  pose proof (div_spec x 0) as H.
  change (Prim2SF 0) with (S754_zero false) in H.
  rewrite eqb_spec in Hnz. change (Prim2SF 0) with (S754_zero false) in Hnz.
  unfold is_finite in Hfin.
  destruct (Prim2SF x) as [s|s| |s m e] eqn:Hx.
  - discriminate.
  - rewrite <- (SF2Prim_Prim2SF x), Hx in Hfin. destruct s; discriminate.
  - rewrite <- (SF2Prim_Prim2SF x), Hx in Hfin. discriminate.
  - cbn in H. rewrite <- (SF2Prim_Prim2SF (x / 0)), H.
    destruct s; reflexivity.
Qed.

End FloatFacts.

Import FloatFacts.

(** The order of binary64 numbers is total away from NaN. *)
Module FloatTotal.

Lemma SFcompare_swap (a b : spec_float) :
  SFcompare b a = option_map CompOpp (SFcompare a b).
Proof.
  destruct a as [sa|sa| |sa ma ea], b as [sb|sb| |sb mb eb];
    try destruct sa; try destruct sb; try reflexivity;
    cbn [SFcompare option_map];
    rewrite (Z.compare_antisym ea eb);
    destruct (Z.compare ea eb); cbn [CompOpp]; try reflexivity;
    change (Pos.compare_cont Eq mb ma) with (Pos.compare mb ma);
    change (Pos.compare_cont Eq ma mb) with (Pos.compare ma mb);
    rewrite (Pos.compare_antisym ma mb);
    destruct (Pos.compare ma mb); reflexivity.
Qed.

Lemma SFcompare_refl (a : spec_float) :
  a <> S754_nan -> SFcompare a a = Some Eq.
Proof.
  destruct a as [s|s| |s m e]; intros Ha; try congruence;
    destruct s; cbn [SFcompare]; try reflexivity;
    rewrite Z.compare_refl;
    change (Pos.compare_cont Eq m m) with (Pos.compare m m);
    rewrite Pos.compare_refl; reflexivity.
Qed.

Lemma SFcompare_none (a b : spec_float) :
  SFcompare a b = None -> a = S754_nan \/ b = S754_nan.
Proof.
  destruct a as [sa|sa| |sa ma ea], b as [sb|sb| |sb mb eb];
    cbn [SFcompare]; intros H; try discriminate; auto.
Qed.

Lemma is_nan_spec (x : float) :
  is_nan x = true <-> Prim2SF x = S754_nan.
Proof.
  unfold is_nan. rewrite eqb_spec. unfold SFeqb. split.
  - intros H. destruct (Prim2SF x) eqn:E; try reflexivity;
      rewrite SFcompare_refl in H by discriminate; discriminate.
  - intros ->. reflexivity.
Qed.

Lemma compare_ordered (x y : float) :
  is_nan x = false -> is_nan y = false ->
  SFcompare (Prim2SF x) (Prim2SF y) <> None.
Proof.
  intros Hx Hy H. apply SFcompare_none in H.
  destruct H as [H|H]; apply is_nan_spec in H; congruence.
Qed.

(** Not below means at least. *)
Lemma ltb_false_leb (x y : float) :
  is_nan x = false -> is_nan y = false ->
  (x <? y) = false -> (y <=? x) = true.
Proof.
  intros Hx Hy. pose proof (compare_ordered x y Hx Hy) as Hord.
  rewrite ltb_spec, leb_spec. unfold SFltb, SFleb.
  rewrite (SFcompare_swap (Prim2SF x) (Prim2SF y)).
  destruct (SFcompare (Prim2SF x) (Prim2SF y)) as [[]|];
    cbn; congruence.
Qed.

(** Not at most means above. *)
Lemma leb_false_ltb (x y : float) :
  is_nan x = false -> is_nan y = false ->
  (x <=? y) = false -> (y <? x) = true.
Proof.
  intros Hx Hy. pose proof (compare_ordered x y Hx Hy) as Hord.
  rewrite ltb_spec, leb_spec. unfold SFltb, SFleb.
  rewrite (SFcompare_swap (Prim2SF x) (Prim2SF y)).
  destruct (SFcompare (Prim2SF x) (Prim2SF y)) as [[]|];
    cbn; congruence.
Qed.

Lemma ltb_leb_false (x y : float) :
  (x <? y) = true -> (y <=? x) = false.
Proof.
  rewrite ltb_spec, leb_spec. unfold SFltb, SFleb.
  rewrite (SFcompare_swap (Prim2SF x) (Prim2SF y)).
  destruct (SFcompare (Prim2SF x) (Prim2SF y)) as [[]|];
    cbn; congruence.
Qed.

Lemma leb_ltb_false (x y : float) :
  (x <=? y) = true -> (y <? x) = false.
Proof.
  rewrite ltb_spec, leb_spec. unfold SFltb, SFleb.
  rewrite (SFcompare_swap (Prim2SF x) (Prim2SF y)).
  destruct (SFcompare (Prim2SF x) (Prim2SF y)) as [[]|];
    cbn; congruence.
Qed.

(** NaN compares false with everything. *)
Lemma nan_ltb_l (x y : float) : is_nan x = true -> (x <? y) = false.
Proof.
  intros H. apply is_nan_spec in H. rewrite ltb_spec, H. reflexivity.
Qed.

Lemma nan_ltb_r (x y : float) : is_nan x = true -> (y <? x) = false.
Proof.
  intros H. apply is_nan_spec in H. rewrite ltb_spec, H.
  unfold SFltb. destruct (Prim2SF y); reflexivity.
Qed.

Lemma nan_leb_l (x y : float) : is_nan x = true -> (x <=? y) = false.
Proof.
  intros H. apply is_nan_spec in H. rewrite leb_spec, H. reflexivity.
Qed.

Lemma nan_leb_r (x y : float) : is_nan x = true -> (y <=? x) = false.
Proof.
  intros H. apply is_nan_spec in H. rewrite leb_spec, H.
  unfold SFleb. destruct (Prim2SF y); reflexivity.
Qed.

Lemma ltb_not_nan_l (x y : float) : (x <? y) = true -> is_nan x = false.
Proof.
  intros H. destruct (is_nan x) eqn:N; [|reflexivity].
  rewrite (nan_ltb_l x y N) in H. discriminate.
Qed.

Lemma ltb_not_nan_r (x y : float) : (y <? x) = true -> is_nan x = false.
Proof.
  intros H. destruct (is_nan x) eqn:N; [|reflexivity].
  rewrite (nan_ltb_r x y N) in H. discriminate.
Qed.

End FloatTotal.

Import FloatTotal.

(** The square root of a square and the quotient of a number by itself,
    from the specification of binary64 arithmetic. *)
Module FloatSquare.

Local Open Scope Z_scope.

Lemma iter_pos_nat {A : Type} (f : A -> A) (p : positive) (x : A) :
  iter_pos f p x = Nat.iter (Pos.to_nat p) f x.
Proof.
  revert x. induction p as [p IH|p IH|]; intros x; cbn [iter_pos].
  - rewrite !IH, Pos2Nat.inj_xI, <- Nat.iter_add.
    replace (S (2 * Pos.to_nat p)) with (Pos.to_nat p + Pos.to_nat p + 1)%nat
      by lia.
    rewrite (Nat.iter_add (Pos.to_nat p + Pos.to_nat p) 1). reflexivity.
  - rewrite !IH, Pos2Nat.inj_xO, <- Nat.iter_add.
    replace (2 * Pos.to_nat p)%nat with (Pos.to_nat p + Pos.to_nat p)%nat
      by lia.
    reflexivity.
  - reflexivity.
Qed.

Lemma shr_1_spec (m : Z) (r s : bool) :
  0 <= m ->
  shr_1 {| shr_m := m; shr_r := r; shr_s := s |}
  = {| shr_m := m / 2; shr_r := Z.odd m; shr_s := r || s |}.
Proof.
  intros Hm. rewrite <- Z.div2_div.
  destruct m as [|p|p]; [reflexivity| |lia].
  destruct p; reflexivity.
Qed.

(** [S k] shifts of [N]: the quotient, the last bit shifted out and
    whether anything was shifted out before it. *)
Lemma shr_steps (N : Z) (k : nat) :
  0 <= N ->
  let st := Nat.iter (S k) shr_1 {| shr_m := N; shr_r := false; shr_s := false |} in
  shr_m st = N / 2 ^ Z.of_nat (S k)
  /\ shr_r st = Z.odd (N / 2 ^ Z.of_nat k)
  /\ (shr_s st = true <-> N mod 2 ^ Z.of_nat k <> 0).
Proof.
  intros HN. induction k as [|k IH].
  - cbn [Nat.iter]. rewrite shr_1_spec by exact HN. cbn [shr_m shr_r shr_s].
    change (2 ^ Z.of_nat 1) with 2. change (2 ^ Z.of_nat 0) with 1.
    rewrite Z.div_1_r, Z.mod_1_r. repeat split; try discriminate.
    intros H. now destruct H.
  - cbv zeta in IH |- *.
    set (st := Nat.iter (S k) shr_1 _) in *.
    change (Nat.iter (S (S k)) shr_1 ?x) with (shr_1 (Nat.iter (S k) shr_1 x)).
    fold st. destruct st as [m r s]. cbn [shr_m shr_r shr_s] in IH.
    destruct IH as [Hm [Hr Hs]].
    assert (Hpow : 0 < 2 ^ Z.of_nat k) by (apply Z.pow_pos_nonneg; lia).
    assert (Hm0 : 0 <= m).
    { rewrite Hm. apply Z.div_pos; [exact HN|apply Z.pow_pos_nonneg; lia]. }
    rewrite shr_1_spec by exact Hm0. cbn [shr_m shr_r shr_s].
    assert (Hsucc : forall j : nat, 2 ^ Z.of_nat (S j) = 2 ^ Z.of_nat j * 2).
    { intros j. rewrite Nat2Z.inj_succ, Z.pow_succ_r by lia. lia. }
    split; [|split].
    + rewrite Hm, (Hsucc (S k)), Z.div_div by lia. reflexivity.
    + rewrite Hm. reflexivity.
    + rewrite (Hsucc k), Z.rem_mul_r by lia.
      rewrite Hr, Zmod_odd.
      pose proof (Z.mod_pos_bound N (2 ^ Z.of_nat k) Hpow) as Hc.
      destruct (Z.odd (N / 2 ^ Z.of_nat k)); cbn [orb].
      * split; [intros _; lia|reflexivity].
      * rewrite Hs. split; intros H; lia.
Qed.

(** Rounding to nearest after [S k] shifts is within half a unit. *)
Lemma round_shift (N : Z) (k : nat) :
  0 <= N ->
  let st := Nat.iter (S k) shr_1 {| shr_m := N; shr_r := false; shr_s := false |} in
  let M := round_nearest_even (shr_m st) (loc_of_shr_record st) in
  - 2 ^ Z.of_nat k <= 2 * 2 ^ Z.of_nat k * M - N <= 2 ^ Z.of_nat k.
Proof.
  intros HN st M. subst M.
  destruct (shr_steps N k HN) as [Hm [Hr Hs]]. fold st in Hm, Hr, Hs.
  destruct st as [m r s]. cbn [shr_m shr_r shr_s] in *.
  assert (Hpow : 0 < 2 ^ Z.of_nat k) by (apply Z.pow_pos_nonneg; lia).
  set (P := 2 ^ Z.of_nat k) in *.
  assert (Hm' : m = N / P / 2).
  { rewrite Hm, Nat2Z.inj_succ, Z.pow_succ_r by lia.
    fold P. rewrite (Z.mul_comm 2 P), Z.div_div by lia. reflexivity. }
  pose proof (Z.div_mod N P ltac:(lia)) as HNP.
  pose proof (Z.mod_pos_bound N P Hpow) as Hc.
  pose proof (Z.div_mod (N / P) 2 ltac:(lia)) as Ha.
  rewrite Zmod_odd, <- Hr, <- Hm' in Ha.
  destruct r, s; cbn [loc_of_shr_record round_nearest_even].
  - nia.
  - assert (N mod P = 0).
    { destruct (Z.eq_dec (N mod P) 0) as [E|E]; [exact E|].
      apply Hs in E. discriminate. }
    destruct (Z.even m); nia.
  - nia.
  - assert (N mod P = 0).
    { destruct (Z.eq_dec (N mod P) 0) as [E|E]; [exact E|].
      apply Hs in E. discriminate. }
    nia.
Qed.

Lemma digits2_pos_bounds (m : positive) :
  2 ^ (Zpos (digits2_pos m) - 1) <= Zpos m < 2 ^ Zpos (digits2_pos m).
Proof.
  induction m as [m IH|m IH|]; cbn [digits2_pos]; [| |cbn; lia];
    rewrite Pos2Z.inj_succ;
    replace (Z.succ (Zpos (digits2_pos m)) - 1)
      with (Z.succ (Zpos (digits2_pos m) - 1)) by lia;
    rewrite !Z.pow_succ_r by lia; lia.
Qed.

Lemma digits2_pos_unique (m : positive) (k : Z) :
  2 ^ (k - 1) <= Zpos m < 2 ^ k -> Zpos (digits2_pos m) = k.
Proof.
  intros Hk. pose proof (digits2_pos_bounds m) as Hd.
  assert (0 < k).
  { destruct (Z.lt_ge_cases 0 k) as [H|H]; [exact H|].
    assert (2 ^ k <= 1).
    { destruct (Z.eq_dec k 0) as [->|Hne]; [cbn; lia|].
      rewrite Z.pow_neg_r by lia. lia. }
    lia. }
  assert (Zpos (digits2_pos m) - 1 < k).
  { apply (Z.pow_lt_mono_r_iff 2); lia. }
  assert (k - 1 < Zpos (digits2_pos m)).
  { apply (Z.pow_lt_mono_r_iff 2); lia. }
  lia.
Qed.

Lemma fexp_normal (x : Z) :
  -1074 <= x - 53 -> fexp prec emax x = x - 53.
Proof. unfold fexp, emin, prec, emax. lia. Qed.

(** A mantissa of 53 bits is not shifted. *)
Lemma shr_fexp_noshift (q : positive) (e : Z) (l : location) :
  2 ^ 52 <= Zpos q < 2 ^ 53 -> -1074 <= e ->
  shr_fexp prec emax (Zpos q) e l = (shr_record_of_loc (Zpos q) l, e).
Proof.
  intros Hq He. unfold shr_fexp. cbn [Zdigits2].
  rewrite (digits2_pos_unique q 53) by exact Hq.
  rewrite fexp_normal by lia.
  replace (53 + e - 53 - e) with 0 by lia. reflexivity.
Qed.

Lemma loc_of_shr_record_of_loc (m : Z) (l : location) :
  loc_of_shr_record (shr_record_of_loc m l) = l.
Proof. destruct l as [|[]]; reflexivity. Qed.

(** Rounding a mantissa of 53 bits: down when exact or below the middle,
    up when above it. *)
Lemma binary_round_aux_53 (sx : bool) (q : positive) (e : Z) (l : location) :
  2 ^ 52 <= Zpos q < 2 ^ 53 -> -1074 <= e <= 971 ->
  (l = loc_Exact \/ l = loc_Inexact Lt ->
   binary_round_aux prec emax sx (Zpos q) e l = S754_finite sx q e)
  /\ (l = loc_Inexact Gt -> Zpos q + 1 < 2 ^ 53 ->
      binary_round_aux prec emax sx (Zpos q) e l
      = S754_finite sx (q + 1) e).
Proof.
  intros Hq He. unfold binary_round_aux.
  rewrite shr_fexp_noshift by (try exact Hq; lia).
  cbn [shr_m]. rewrite loc_of_shr_record_of_loc.
  assert (Hle : (e <=? emax - prec) = true).
  { apply Z.leb_le. unfold emax, prec. lia. }
  split.
  - intros Hl.
    assert (Hr : round_nearest_even
                   (shr_m (shr_record_of_loc (Zpos q) l)) l = Zpos q).
    { destruct Hl as [->| ->]; reflexivity. }
    rewrite Hr, shr_fexp_noshift by (try exact Hq; lia).
    cbn [shr_m shr_record_of_loc]. rewrite Hle. reflexivity.
  - intros -> Hq1. cbn [shr_record_of_loc shr_m round_nearest_even].
    change (Zpos q + 1) with (Zpos (q + 1)).
    rewrite shr_fexp_noshift by (rewrite ?Pos2Z.inj_add; lia).
    cbn [shr_m shr_record_of_loc]. rewrite Hle. reflexivity.
Qed.

(** Rounding a mantissa of [53 + S k] bits: [S k] bits are shifted out. *)
Lemma binary_round_aux_shift (sx : bool) (n : positive) (e : Z) (k : nat) :
  2 ^ (52 + Z.of_nat (S k)) <= Zpos n < 2 ^ (53 + Z.of_nat (S k)) ->
  -1074 <= e + Z.of_nat (S k) <= 971 ->
  let st := Nat.iter (S k) shr_1
              {| shr_m := Zpos n; shr_r := false; shr_s := false |} in
  let M := round_nearest_even (shr_m st) (loc_of_shr_record st) in
  2 ^ 52 <= M < 2 ^ 53 ->
  binary_round_aux prec emax sx (Zpos n) e loc_Exact
  = S754_finite sx (Z.to_pos M) (e + Z.of_nat (S k)).
Proof.
  intros Hn He st M HM. unfold binary_round_aux.
  assert (Hshift : shr_fexp prec emax (Zpos n) e loc_Exact
                   = (st, e + Z.of_nat (S k))).
  { unfold shr_fexp. cbn [Zdigits2].
    rewrite (digits2_pos_unique n (53 + Z.of_nat (S k)))
      by (replace (53 + Z.of_nat (S k) - 1) with (52 + Z.of_nat (S k))
            by lia; exact Hn).
    rewrite fexp_normal by lia.
    replace (53 + Z.of_nat (S k) + e - 53 - e) with (Z.of_nat (S k)) by lia.
    replace (Z.of_nat (S k)) with (Zpos (Pos.of_succ_nat k))
      by (rewrite Zpos_P_of_succ_nat, Nat2Z.inj_succ; reflexivity).
    cbn [shr shr_record_of_loc].
    rewrite iter_pos_nat, SuccNat2Pos.id_succ. reflexivity. }
  rewrite Hshift. fold M.
  destruct M as [|M'|M'] eqn:EM; try lia.
  rewrite shr_fexp_noshift by (try exact HM; lia).
  cbn [shr_m shr_record_of_loc Z.to_pos].
  assert (Hle : (e + Z.of_nat (S k) <=? emax - prec) = true).
  { apply Z.leb_le. unfold emax, prec. lia. }
  rewrite Hle. reflexivity.
Qed.

(** The square of a normal number away from overflow and underflow: its
    mantissa [M] and exponent [E], [n] bits having been shifted out. *)
Lemma mul_square_spec (m : positive) (e : Z) :
  2 ^ 52 <= Zpos m < 2 ^ 53 -> -563 <= e <= 459 ->
  exists (M : positive) (n : Z),
    (n = 52 \/ n = 53)
    /\ 2 ^ 52 <= Zpos M < 2 ^ 53
    /\ 2 ^ (n - 1) < Zpos m
    /\ - 2 ^ (n - 1) <= 2 ^ n * Zpos M - Zpos m * Zpos m <= 2 ^ (n - 1)
    /\ SF64mul (S754_finite false m e) (S754_finite false m e)
       = S754_finite false M (e + e + n).
Proof.
  intros Hm He. unfold SF64mul, SFmul. cbn [xorb].
  assert (HN : Zpos (m * m) = Zpos m * Zpos m) by apply Pos2Z.inj_mul.
  change (2 ^ 52) with 4503599627370496 in Hm.
  change (2 ^ 53) with 9007199254740992 in Hm.
  destruct (Z.lt_ge_cases (Zpos (m * m)) (2 ^ 105)) as [Hlow|Hhigh].
  - pose proof (round_shift (Zpos (m * m)) 51 ltac:(lia)) as Hround.
    cbv zeta in Hround.
    set (M := round_nearest_even _ _) in Hround.
    assert (Hmax : Zpos m <= 6369051672525772).
    { change (2 ^ 105) with 40564819207303340847894502572032 in Hlow.
      nia. }
    assert (HM : 2 ^ 52 <= M < 2 ^ 53).
    { change (2 ^ Z.of_nat 51) with 2251799813685248 in Hround.
      change (2 ^ 52) with 4503599627370496.
      change (2 ^ 53) with 9007199254740992.
      nia. }
    exists (Z.to_pos M), 52.
    assert (HMpos : Zpos (Z.to_pos M) = M) by (apply Z2Pos.id; lia).
    rewrite HMpos.
    split; [left; reflexivity|]. split; [exact HM|].
    split; [change (2 ^ (52 - 1)) with 2251799813685248; lia|].
    split.
    { change (2 ^ (52 - 1)) with (2 ^ Z.of_nat 51).
      change (2 ^ 52) with (2 * 2 ^ Z.of_nat 51). rewrite <- HN. exact Hround. }
    apply (binary_round_aux_shift false (m * m) (e + e) 51).
    + change (Z.of_nat 52) with 52. cbn [Z.add].
      change (2 ^ 104) with 20282409603651670423947251286016.
      change (2 ^ 105) with 40564819207303340847894502572032 in *.
      nia.
    + change (Z.of_nat 52) with 52. lia.
    + exact HM.
  - pose proof (round_shift (Zpos (m * m)) 52 ltac:(lia)) as Hround.
    cbv zeta in Hround.
    set (M := round_nearest_even _ _) in Hround.
    change (2 ^ 105) with 40564819207303340847894502572032 in Hhigh.
    assert (HM : 2 ^ 52 <= M < 2 ^ 53).
    { change (2 ^ Z.of_nat 52) with 4503599627370496 in Hround.
      change (2 ^ 52) with 4503599627370496.
      change (2 ^ 53) with 9007199254740992.
      nia. }
    exists (Z.to_pos M), 53.
    assert (HMpos : Zpos (Z.to_pos M) = M) by (apply Z2Pos.id; lia).
    rewrite HMpos.
    split; [right; reflexivity|]. split; [exact HM|].
    split; [change (2 ^ (53 - 1)) with 4503599627370496; nia|].
    split.
    { change (2 ^ (53 - 1)) with (2 ^ Z.of_nat 52).
      change (2 ^ 53) with (2 * 2 ^ Z.of_nat 52). rewrite <- HN. exact Hround. }
    apply (binary_round_aux_shift false (m * m) (e + e) 52).
    + change (Z.of_nat 53) with 53. cbn [Z.add].
      change (2 ^ 105) with 40564819207303340847894502572032.
      change (2 ^ 106) with 81129638414606681695789005144064.
      nia.
    + change (Z.of_nat 53) with 53. lia.
    + exact HM.
Qed.

(** The square root of such a rounded square is the number again. *)
Lemma sqrt_rounded_square (m M : positive) (e n : Z) :
  2 ^ 52 <= Zpos m < 2 ^ 53 -> -563 <= e <= 459 ->
  (n = 52 \/ n = 53) ->
  2 ^ 52 <= Zpos M < 2 ^ 53 ->
  2 ^ (n - 1) < Zpos m ->
  - 2 ^ (n - 1) <= 2 ^ n * Zpos M - Zpos m * Zpos m <= 2 ^ (n - 1) ->
  SF64sqrt (S754_finite false M (e + e + n)) = S754_finite false m e.
Proof.
  intros Hm He Hn HM Hhalf Hnear.
  unfold SF64sqrt, SFsqrt, SFsqrt_core_binary. cbn [Zdigits2].
  rewrite (digits2_pos_unique M 53) by exact HM.
  rewrite !Z.div2_div.
  assert (Hmid : (53 + (e + e + n) + 1) / 2 = e + 53).
  { clear - Hn. destruct Hn as [->| ->].
    - replace (53 + (e + e + 52) + 1) with ((e + 53) * 2) by lia.
      apply Z.div_mul. lia.
    - replace (53 + (e + e + 53) + 1) with (1 + (e + 53) * 2) by lia.
      rewrite Z.div_add by lia. reflexivity. }
  assert (Hhalf_e : (e + e + n) / 2 = e + 26).
  { clear - Hn. destruct Hn as [->| ->].
    - replace (e + e + 52) with ((e + 26) * 2) by lia.
      apply Z.div_mul. lia.
    - replace (e + e + 53) with (1 + (e + 26) * 2) by lia.
      rewrite Z.div_add by lia. reflexivity. }
  rewrite Hmid, Hhalf_e, fexp_normal by lia.
  replace (Z.min (e + 53 - 53) (e + 26)) with e by lia.
  replace (e + e + n - 2 * e) with n by lia.
  assert (Hshift :
            match n with
            | 0 => Zpos M
            | Zpos _ => Z.shiftl (Zpos M) n
            | Zneg _ => 0
            end = 2 ^ n * Zpos M).
  { destruct Hn as [->| ->]; rewrite Z.shiftl_mul_pow2 by lia; lia. }
  rewrite Hshift.
  assert (Hpos : 0 <= 2 ^ n * Zpos M)
    by (destruct Hn as [->| ->]; lia).
  pose proof (Z.sqrtrem_spec (2 ^ n * Zpos M) Hpos) as Hsqrt.
  destruct (Z.sqrtrem (2 ^ n * Zpos M)) as [q r].
  destruct Hsqrt as [Hsq Hr].
  change (2 ^ 52) with 4503599627370496 in *.
  change (2 ^ 53) with 9007199254740992 in *.
  assert (Hcases :
            (q = Zpos m /\ r <= q)
            \/ (q = Zpos m - 1 /\ q < r /\ 4503599627370496 <= q)).
  { destruct Hn as [->| ->].
    - change (2 ^ (52 - 1)) with 2251799813685248 in *.
      change (2 ^ 52) with 4503599627370496 in *.
      destruct (Z.le_gt_cases (Zpos m * Zpos m)
                              (4503599627370496 * Zpos M)) as [Hge|Hlt].
      + left. assert (q = Zpos m) by nia. split; [assumption|nia].
      + right. assert (q = Zpos m - 1) by nia. repeat split; nia.
    - change (2 ^ (53 - 1)) with 4503599627370496 in *.
      change (2 ^ 53) with 9007199254740992 in *.
      destruct (Z.le_gt_cases (Zpos m * Zpos m)
                              (9007199254740992 * Zpos M)) as [Hge|Hlt].
      + left. assert (q = Zpos m) by nia. split; [assumption|nia].
      + right. assert (q = Zpos m - 1) by nia. repeat split; nia. }
  destruct Hcases as [[-> Hrq]|[Hq [Hrq Hq52]]].
  - assert (Hloc : (if r =? 0 then loc_Exact
                    else loc_Inexact (if r <=? Zpos m then Lt else Gt))
                   = loc_Exact
                   \/ (if r =? 0 then loc_Exact
                       else loc_Inexact (if r <=? Zpos m then Lt else Gt))
                      = loc_Inexact Lt).
    { destruct (r =? 0); [left; reflexivity|right].
      destruct (Z.leb_spec r (Zpos m)); [reflexivity|lia]. }
    apply (proj1 (binary_round_aux_53 false m e _ ltac:(lia) ltac:(lia))).
    exact Hloc.
  - destruct q as [|q'|q']; try lia.
    assert (Hloc : (if r =? 0 then loc_Exact
                    else loc_Inexact (if r <=? Zpos q' then Lt else Gt))
                   = loc_Inexact Gt).
    { destruct (Z.eqb_spec r 0); [lia|].
      destruct (Z.leb_spec r (Zpos q')); [lia|reflexivity]. }
    rewrite Hloc.
    rewrite (proj2 (binary_round_aux_53 false q' e (loc_Inexact Gt)
                      ltac:(lia) ltac:(lia)) eq_refl ltac:(lia)).
    f_equal. apply Pos2Z.inj. rewrite Pos2Z.inj_add. lia.
Qed.

Lemma sqrt_square_spec (m : positive) (e : Z) :
  2 ^ 52 <= Zpos m < 2 ^ 53 -> -563 <= e <= 459 ->
  SF64sqrt (SF64mul (S754_finite false m e) (S754_finite false m e))
  = S754_finite false m e.
Proof.
  intros Hm He.
  destruct (mul_square_spec m e Hm He) as [M [n [Hn [HM [Hhalf [Hnear ->]]]]]].
  apply (sqrt_rounded_square m M e n); assumption.
Qed.

(** A finite number divided by itself is one. *)
Lemma div_self_spec (s : bool) (m : positive) (e : Z) :
  SF64div (S754_finite s m e) (S754_finite s m e)
  = S754_finite false 4503599627370496 (-52).
Proof.
  unfold SF64div, SFdiv, SFdiv_core_binary. cbn [Zdigits2].
  replace (Zpos (digits2_pos m) + e - (Zpos (digits2_pos m) + e)) with 0
    by lia.
  replace (e - e) with 0 by lia.
  change (Z.min (fexp prec emax 0) 0) with (-53).
  change (0 - -53) with 53.
  cbv iota. rewrite Z.shiftl_mul_pow2 by lia.
  assert (Hdiv : Z.div_eucl (Zpos m * 2 ^ 53) (Zpos m) = (2 ^ 53, 0)).
  { rewrite (Z.mul_comm (Zpos m) (2 ^ 53)).
    pose proof (Z.div_mul (2 ^ 53) (Zpos m) ltac:(lia)) as Hq.
    pose proof (Z.mod_mul (2 ^ 53) (Zpos m) ltac:(lia)) as Hr.
    unfold Z.div in Hq. unfold Z.modulo in Hr.
    destruct (Z.div_eucl (2 ^ 53 * Zpos m) (Zpos m)) as [q r].
    rewrite Hq, Hr. reflexivity. }
  rewrite Hdiv.
  assert (Hloc : new_location (Zpos m) 0 = loc_Exact).
  { unfold new_location. destruct (Z.even (Zpos m)); reflexivity. }
  rewrite Hloc. destruct s; vm_compute; reflexivity.
Qed.

Local Open Scope float_scope.

(** The numbers from [2^-511] to [2^511]: normal, with a square that
    neither overflows nor underflows. *)
Lemma mid_range_finite (v : float) :
  (0x1p-511 <=? v) = true -> (v <=? 0x1p511) = true ->
  exists (m : positive) (e : Z),
    Prim2SF v = S754_finite false m e
    /\ (2 ^ 52 <= Zpos m < 2 ^ 53)%Z /\ (-563 <= e <= 459)%Z.
Proof.
  intros Hlow Hhigh. pose proof (Prim2SF_valid v) as Hvalid.
  rewrite leb_spec in Hlow, Hhigh.
  change (Prim2SF 0x1p-511)
    with (S754_finite false 4503599627370496 (-563)) in Hlow.
  change (Prim2SF 0x1p511)
    with (S754_finite false 4503599627370496 459) in Hhigh.
  unfold SFleb in Hlow, Hhigh.
  destruct (Prim2SF v) as [s|s| |s m e]; try discriminate;
    try (destruct s; discriminate).
  destruct s; [discriminate|].
  cbn [SFcompare] in Hlow, Hhigh.
  assert (He : (-563 <= e <= 459)%Z).
  { destruct (Z.compare_spec (-563) e), (Z.compare_spec e 459);
      try discriminate; lia. }
  exists m, e. split; [reflexivity|]. split; [|exact He].
  cbn [valid_binary] in Hvalid. unfold bounded, canonical_mantissa in Hvalid.
  apply andb_true_iff in Hvalid. destruct Hvalid as [Hcanon _].
  apply Z.eqb_eq in Hcanon. unfold fexp, emin, prec, emax in Hcanon.
  pose proof (digits2_pos_bounds m) as Hd.
  replace (Zpos (digits2_pos m)) with 53%Z in Hd by lia.
  exact Hd.
Qed.

Lemma sqrt_square (v : float) :
  (0x1p-511 <=? v) = true -> (v <=? 0x1p511) = true ->
  sqrt (v * v) = v.
Proof.
  intros Hlow Hhigh.
  destruct (mid_range_finite v Hlow Hhigh) as [m [e [Hv [Hm He]]]].
  apply Prim2SF_inj. rewrite sqrt_spec, mul_spec, Hv.
  apply sqrt_square_spec; assumption.
Qed.

Lemma div_self (v : float) :
  (0x1p-511 <=? v) = true -> (v <=? 0x1p511) = true ->
  v / v = 1.
Proof.
  intros Hlow Hhigh.
  destruct (mid_range_finite v Hlow Hhigh) as [m [e [Hv _]]].
  apply Prim2SF_inj. rewrite div_spec, Hv. apply div_self_spec.
Qed.

End FloatSquare.

Import FloatSquare.

(* ================================================================== *)
(** ** Properties of the engine *)
(* ================================================================== *)

(** *** Goal feasibility (lines 226-283) *)

Section GoalFeasibility.

Context {L : PyLib}.

Lemma latest_of_store (latest : Measurement) (rest : Store) :
  get_latest_measurement (latest :: rest) = Some latest.
Proof. reflexivity. Qed.

Lemma latest_is_head (store : Store) (latest : Measurement) :
  get_latest_measurement store = Some latest ->
  exists rest, store = latest :: rest.
Proof.
  destruct store as [|r rest]; [discriminate|].
  rewrite latest_of_store. intros [= ->]. now exists rest.
Qed.

(** What [check_goal_progress] returns once a latest measurement with a
    weight exists: the invalid-goal error when no whole day remains, an
    assessment otherwise. *)
Lemma check_goal_progress_unfold
    (latest : Measurement) (rest : Store) (current target : float)
    (target_date : Z) :
  lookup "weight_kg" (fields latest) = Some current ->
  let days := ((86400 * target_date - date latest) / 86400)%Z in
  let weeks := Z2F days / 7 in
  let rate := if gtb weeks 0 then (current - target) / weeks else 0 in
  check_goal_progress (latest :: rest) target target_date =
    if (days <=? 0)%Z then Error "Target date must be in the future"
    else
      let trend :=
        _calculate_trend
          (sort_values
             (get_body_composition_data (latest :: rest) None None
                                        (Some 30%nat)))
          "weight_kg" 30 in
      Value {|
        current_weight := current;
        target_weight := target;
        weight_to_change := py_round (current - target) 2;
        days_remaining := days;
        weeks_remaining := py_round weeks 1;
        required_weekly_rate := py_round rate 2;
        current_trend := trend;
        feasibility := assess_feasibility rate;
        recommendation :=
          _get_goal_recommendation rate trend (assess_feasibility rate)
      |}.
Proof.
  intros Hw days weeks rate.
  unfold check_goal_progress, goal_progress_of.
  rewrite latest_of_store, Hw. reflexivity.
Qed.

(** C1.  Once a goal is accepted, its feasibility label follows the required
    weekly rate through strict comparisons taken in order: above 1.0
    "aggressive", else above 0.5 "challenging", else below 0.2
    "conservative", else "realistic"; at 80 kg now, 75 kg wanted and 70 days
    (ten weeks) left the rate is exactly 0.5 and the label is "realistic",
    not "aggressive". *)
Theorem check_goal_progress_feasibility
    (latest : Measurement) (rest : Store) (current target : float)
    (target_date : Z) :
  lookup "weight_kg" (fields latest) = Some current ->
  (0 < (86400 * target_date - date latest) / 86400)%Z ->
  let days := ((86400 * target_date - date latest) / 86400)%Z in
  let weeks := Z2F days / 7 in
  let rate := if gtb weeks 0 then (current - target) / weeks else 0 in
  exists a,
    check_goal_progress (latest :: rest) target target_date = Value a /\
    (gtb (abs rate) 1.0 = true -> feasibility a = "aggressive") /\
    (gtb (abs rate) 1.0 = false -> gtb (abs rate) 0.5 = true ->
     feasibility a = "challenging") /\
    (gtb (abs rate) 1.0 = false -> gtb (abs rate) 0.5 = false ->
     (abs rate <? 0.2) = true -> feasibility a = "conservative") /\
    (gtb (abs rate) 1.0 = false -> gtb (abs rate) 0.5 = false ->
     (abs rate <? 0.2) = false -> feasibility a = "realistic") /\
    (current = 80 -> target = 75 -> days = 70%Z ->
     rate = 0.5 /\ feasibility a = "realistic" /\
     feasibility a <> "aggressive").
Proof.
  intros Hw Hdays days weeks rate.
  rewrite (check_goal_progress_unfold latest rest current target target_date Hw).
  fold days weeks rate.
  destruct (Z.leb_spec days 0) as [Hle|_]; [unfold days in Hle; lia|].
  eexists. split; [reflexivity|].
  cbn [feasibility]. unfold assess_feasibility.
  repeat split.
  - intros ->. reflexivity.
  - intros -> ->. reflexivity.
  - intros -> -> ->. reflexivity.
  - intros -> -> ->. reflexivity.
  - subst rate weeks. rewrite H1, H, H0. reflexivity.
  - subst rate weeks. rewrite H1, H, H0. reflexivity.
  - subst rate weeks. rewrite H1, H, H0. discriminate.
Qed.

End GoalFeasibility.

Lemma check_goal_progress_feasibility_witness :
  exists a,
    check_goal_progress (L := RefLib.lib) [weighed 0 80] 75 70 = Value a /\
    feasibility a = "realistic".
Proof.
  destruct (check_goal_progress_feasibility (L := RefLib.lib)
              (weighed 0 80) [] 80 75 70 eq_refl eq_refl)
    as [a [Ha [_ [_ [_ [_ Hc]]]]]].
  exists a. split; [exact Ha|].
  apply (Hc eq_refl eq_refl eq_refl).
Defined.

(** *** Achievements (lines 515-562) *)

Section Achievements.

Context {L : PyLib}.

Lemma weight_achievement_In (c : float) (a : Achievement) :
  In a (weight_achievement c) ->
  (ach_type a = "weight_loss" /\ (c <? -5) = true /\ ach_value a = abs c /\
   ach_category a = (if c <? -10 then "major" else "significant"))
  \/
  (ach_type a = "weight_gain" /\ (c <? -5) = false /\ gtb c 2 = true /\
   ach_value a = c /\ ach_category a = "muscle_building").
Proof.
  unfold weight_achievement.
  destruct (c <? -5) eqn:Hloss.
  - intros [<-|[]]. left. cbn [ach_type ach_value ach_category].
    rewrite abs_gtb_neg
      by (apply (ltb_trans c (-5) 0 Hloss); reflexivity).
    auto.
  - destruct (gtb c 2) eqn:Hgain; [|intros []].
    intros [<-|[]]. right. cbn [ach_type ach_value ach_category]. auto.
Qed.

Lemma fat_achievement_In (c : float) (a : Achievement) :
  In a (fat_achievement c) ->
  ach_type a = "fat_loss" /\ (c <? -2) = true /\ ach_value a = abs c /\
  ach_category a = (if c <? -5 then "major" else "significant").
Proof.
  unfold fat_achievement.
  destruct (c <? -2) eqn:Hloss; [|intros []].
  intros [<-|[]]. cbn [ach_type ach_value ach_category].
  rewrite abs_gtb_neg by (apply (ltb_trans c (-2) 0 Hloss); reflexivity).
  auto.
Qed.

Lemma muscle_achievement_In (c : float) (a : Achievement) :
  In a (muscle_achievement c) ->
  ach_type a = "muscle_gain" /\ gtb c 1 = true /\ ach_value a = c /\
  ach_category a = "muscle_building".
Proof.
  unfold muscle_achievement.
  destruct (gtb c 1) eqn:Hgain; [|intros []].
  intros [<-|[]]. cbn [ach_type ach_value ach_category]. auto.
Qed.

Lemma weight_loss_awarded (c : float) :
  (c <? -5) = true ->
  awarded (weight_achievement c) "weight_loss"
          (if c <? -10 then "major" else "significant") (abs c).
Proof.
  intros Hloss. unfold weight_achievement. rewrite Hloss.
  eexists. split; [left; reflexivity|]. cbn [ach_type ach_value ach_category].
  rewrite abs_gtb_neg by (apply (ltb_trans c (-5) 0 Hloss); reflexivity).
  auto.
Qed.

Lemma weight_gain_awarded (c : float) :
  gtb c 2 = true ->
  awarded (weight_achievement c) "weight_gain" "muscle_building" c.
Proof.
  intros Hgain. unfold weight_achievement.
  rewrite (ltb_between_false 2 (-5) c eq_refl Hgain), Hgain.
  eexists. split; [left; reflexivity|]. cbn [ach_type ach_value ach_category]. auto.
Qed.

Lemma fat_loss_awarded (c : float) :
  (c <? -2) = true ->
  awarded (fat_achievement c) "fat_loss"
          (if c <? -5 then "major" else "significant") (abs c).
Proof.
  intros Hloss. unfold fat_achievement. rewrite Hloss.
  eexists. split; [left; reflexivity|]. cbn [ach_type ach_value ach_category].
  rewrite abs_gtb_neg by (apply (ltb_trans c (-2) 0 Hloss); reflexivity).
  auto.
Qed.

Lemma muscle_gain_awarded (c : float) :
  gtb c 1 = true ->
  awarded (muscle_achievement c) "muscle_gain" "muscle_building" c.
Proof.
  intros Hgain. unfold muscle_achievement. rewrite Hgain.
  eexists. split; [left; reflexivity|]. cbn [ach_type ach_value ach_category]. auto.
Qed.

Lemma awarded_app_l (xs ys : list Achievement) type category value :
  awarded xs type category value -> awarded (xs ++ ys) type category value.
Proof.
  intros [a [Hin H]]. exists a. split; [apply in_or_app; now left|exact H].
Qed.

Lemma awarded_app_r (xs ys : list Achievement) type category value :
  awarded ys type category value -> awarded (xs ++ ys) type category value.
Proof.
  intros [a [Hin H]]. exists a. split; [apply in_or_app; now right|exact H].
Qed.

(** Every achievement of the result comes from one of the four rules. *)
Lemma _identify_achievements_origin (df : DataFrame) (a : Achievement) :
  In a (_identify_achievements df) ->
  (ach_type a = "weight_loss"
   /\ (period_change df "weight_kg" <? -5) = true)
  \/ (ach_type a = "weight_gain"
      /\ gtb (period_change df "weight_kg") 2 = true)
  \/ (ach_type a = "fat_loss"
      /\ (period_change df "body_fat_percent" <? -2) = true)
  \/ (ach_type a = "muscle_gain"
      /\ gtb (period_change df "muscle_mass_kg") 1 = true).
Proof.
  unfold _identify_achievements.
  destruct (List.length df <? 2)%nat; [intros []|].
  intros H. apply in_app_or in H. destruct H as [H|H].
  - destruct (has_column df "weight_kg"); [|destruct H].
    apply weight_achievement_In in H. tauto.
  - apply in_app_or in H. destruct H as [H|H].
    + destruct (has_column df "body_fat_percent"); [|destruct H].
      apply fat_achievement_In in H. tauto.
    + destruct (has_column df "muscle_mass_kg"); [|destruct H].
      apply muscle_achievement_In in H. tauto.
Qed.

(** No achievement of a type whose rule did not fire. *)
Ltac rule_did_not_fire df :=
  let a := fresh "a" in
  let Hin := fresh "Hin" in
  let Htype := fresh "Htype" in
  intros a Hin Htype;
  destruct (_identify_achievements_origin df a Hin)
    as [[? ?]|[[? ?]|[[? ?]|[? ?]]]];
  congruence.

(** C2.  Over a period of at least two records the first and the last
    record are compared with strict inequalities.  A weight change of exactly
    -5.0 kg gives no weight_loss; one below -5 gives weight_loss, "major"
    below -10 and "significant" otherwise, so -5.01 is "significant" and
    -10.01 is "major"; a weight change above 2 gives weight_gain; a body-fat
    change below -2 gives fat_loss, "major" only below -5; a muscle-mass
    change above 1 gives muscle_gain. *)
Theorem achievement_thresholds (df : DataFrame) :
  (2 <= List.length df)%nat ->
  let result := _identify_achievements df in
  let weight_change := period_change df "weight_kg" in
  let fat_change := period_change df "body_fat_percent" in
  let muscle_change := period_change df "muscle_mass_kg" in
  (has_column df "weight_kg" = true ->
     ((weight_change <? -5) = false -> not_awarded result "weight_loss") /\
     (weight_change = -5 -> not_awarded result "weight_loss") /\
     ((weight_change <? -5) = true ->
        awarded result "weight_loss"
                (if weight_change <? -10 then "major" else "significant")
                (abs weight_change)) /\
     (weight_change = -5.01 ->
        awarded result "weight_loss" "significant" 5.01) /\
     (weight_change = -10.01 ->
        awarded result "weight_loss" "major" 10.01) /\
     (gtb weight_change 2 = true ->
        awarded result "weight_gain" "muscle_building" weight_change) /\
     (gtb weight_change 2 = false -> not_awarded result "weight_gain"))
  /\
  (has_column df "body_fat_percent" = true ->
     ((fat_change <? -2) = true ->
        awarded result "fat_loss"
                (if fat_change <? -5 then "major" else "significant")
                (abs fat_change)) /\
     ((fat_change <? -2) = false -> not_awarded result "fat_loss"))
  /\
  (has_column df "muscle_mass_kg" = true ->
     (gtb muscle_change 1 = true ->
        awarded result "muscle_gain" "muscle_building" muscle_change) /\
     (gtb muscle_change 1 = false -> not_awarded result "muscle_gain")).
Proof.
  intros Hlen result weight_change fat_change muscle_change.
  assert (Hresult :
            result =
            (if has_column df "weight_kg"
             then weight_achievement weight_change else [])
            ++ (if has_column df "body_fat_percent"
                then fat_achievement fat_change else [])
            ++ (if has_column df "muscle_mass_kg"
                then muscle_achievement muscle_change else [])).
  { unfold result, _identify_achievements.
    destruct (Nat.ltb_spec (List.length df) 2); [lia|reflexivity]. }
  assert (Hnot_loss :
            (weight_change <? -5) = false -> not_awarded result "weight_loss").
  { intros Hno. subst weight_change. rule_did_not_fire df. }
  assert (Hloss :
            has_column df "weight_kg" = true ->
            (weight_change <? -5) = true ->
            awarded result "weight_loss"
                    (if weight_change <? -10 then "major" else "significant")
                    (abs weight_change)).
  { intros Hcol Hlt. rewrite Hresult, Hcol.
    apply awarded_app_l, weight_loss_awarded, Hlt. }
  split; [|split].
  - intros Hcol. repeat split.
    + exact Hnot_loss.
    + intros Heq. apply Hnot_loss. rewrite Heq. reflexivity.
    + apply Hloss, Hcol.
    + intros Heq.
      generalize (Hloss Hcol). rewrite Heq. intros H. apply (H eq_refl).
    + intros Heq.
      generalize (Hloss Hcol). rewrite Heq. intros H. apply (H eq_refl).
    + intros Hgain. rewrite Hresult, Hcol.
      apply awarded_app_l, weight_gain_awarded, Hgain.
    + intros Hno. subst weight_change. rule_did_not_fire df.
  - intros Hcol. split.
    + intros Hlt. rewrite Hresult, Hcol.
      apply awarded_app_r, awarded_app_l, fat_loss_awarded, Hlt.
    + intros Hno. subst fat_change. rule_did_not_fire df.
  - intros Hcol. split.
    + intros Hgt. rewrite Hresult, Hcol.
      apply awarded_app_r, awarded_app_r, muscle_gain_awarded, Hgt.
    + intros Hno. subst muscle_change. rule_did_not_fire df.
Qed.

End Achievements.

(** From 80 kg to 74.99 kg: a "significant" weight loss. *)
Lemma achievement_thresholds_witness :
  awarded (_identify_achievements (L := RefLib.lib)
             [weighed 0 80; weighed 86400 74.99])
          "weight_loss" "significant" (abs (74.99 - 80)).
Proof.
  destruct (achievement_thresholds (L := RefLib.lib)
              [weighed 0 80; weighed 86400 74.99] (le_n 2))
    as [Hweight _].
  destruct (Hweight eq_refl) as [_ [_ [Hloss _]]].
  exact (Hloss eq_refl).
Defined.

(** The three boundary cases on concrete two-record periods. *)
Example achievements_at_boundaries :
  _identify_achievements (L := RefLib.lib) [weighed 0 80; weighed 86400 75]
    = []
  /\ map (fun a => (ach_type a, ach_category a, ach_description a))
         (_identify_achievements (L := RefLib.lib)
            [weighed 0 80; weighed 86400 74.99])
     = [("weight_loss", "significant", "Lost 5.0 kg")]
  /\ map (fun a => (ach_type a, ach_category a, ach_description a))
         (_identify_achievements (L := RefLib.lib)
            [weighed 0 80; weighed 86400 69.99])
     = [("weight_loss", "major", "Lost 10.0 kg")].
Proof. repeat split; vm_compute; reflexivity. Qed.

(** *** Predictions (lines 190-224 and 484-513) *)

Section PredictionBatch.

Context {L : PyLib}.

(** The predictor itself answers from five present values on. *)
Lemma _predict_metric_some (df : DataFrame) (metric : string) (days_ahead : Z) :
  (0 < days_ahead)%Z ->
  (exists p, _predict_metric df metric days_ahead = Some p)
  <-> (5 <= notna_count df metric)%nat.
Proof.
  intros Hdays. unfold _predict_metric, notna_count.
  destruct (Nat.ltb_spec (List.length (dropna (column df metric))) 5)
    as [Hlt|Hge].
  - split; [intros [p Hp]; discriminate|lia].
  - destruct (Z.leb_spec days_ahead 0) as [Hle|_]; [lia|].
    split; [intros _; exact Hge|intros _; eexists; reflexivity].
Qed.

Lemma batch_predictions_In (df : DataFrame) (days_ahead : Z)
    (metric : string) (p : Prediction) :
  In (metric, p) (batch_predictions df days_ahead)
  <-> In metric metrics_to_predict
      /\ has_column df metric = true
      /\ (5 < notna_count df metric)%nat
      /\ _predict_metric df metric days_ahead = Some p.
Proof.
  unfold batch_predictions. rewrite in_flat_map. split.
  - intros [m [Hm Hin]].
    destruct (has_column df m) eqn:Hcol; [|destruct Hin].
    destruct (Nat.ltb_spec 5 (notna_count df m)) as [Hcount|_];
      [|destruct Hin].
    cbn [andb] in Hin.
    destruct (_predict_metric df m days_ahead) as [q|] eqn:Hq;
      [|destruct Hin].
    destruct Hin as [[= <- <-]|[]]. auto.
  - intros [Hm [Hcol [Hcount Hp]]]. exists metric. split; [exact Hm|].
    rewrite Hcol, Hp.
    destruct (Nat.ltb_spec 5 (notna_count df metric)); [|lia].
    left. reflexivity.
Qed.

(** C3.  For a metric of the batch that is a column of the frame, the
    predictor answers from five present values on, but the batch lists a
    prediction only from six on: with exactly five the metric is left out
    although the predictor would have answered.  A metric below the minimum
    is left out and the others are kept. *)
Theorem prediction_batch_threshold (df : DataFrame) (days_ahead : Z)
    (metric : string) :
  In metric metrics_to_predict ->
  has_column df metric = true ->
  (0 < days_ahead)%Z ->
  ((exists p, _predict_metric df metric days_ahead = Some p)
   <-> (5 <= notna_count df metric)%nat)
  /\
  ((exists p, In (metric, p) (batch_predictions df days_ahead))
   <-> (6 <= notna_count df metric)%nat).
Proof.
  intros Hm Hcol Hdays. split; [apply _predict_metric_some, Hdays|].
  split.
  - intros [p Hp]. apply batch_predictions_In in Hp. lia.
  - intros Hcount.
    destruct (proj2 (_predict_metric_some df metric days_ahead Hdays))
      as [p Hp]; [lia|].
    exists p. apply batch_predictions_In. repeat split; auto.
Qed.

End PredictionBatch.

(** On that batch the predictor answers for the weight, and the batch
    leaves the weight out. *)
Lemma prediction_batch_threshold_witness :
  notna_count (sort_values five_weights_of_ten) "weight_kg" = 5%nat
  /\ (exists p,
        _predict_metric (L := RefLib.lib) (sort_values five_weights_of_ten)
                        "weight_kg" 30 = Some p)
  /\ (forall p,
        ~ In ("weight_kg", p)
             (batch_predictions (L := RefLib.lib)
                                (sort_values five_weights_of_ten) 30)).
Proof.
  destruct (prediction_batch_threshold (L := RefLib.lib)
              (sort_values five_weights_of_ten) 30 "weight_kg"
              (or_introl eq_refl) eq_refl eq_refl)
    as [Hpred Hbatch].
  split; [reflexivity|]. split.
  - apply Hpred. vm_compute. lia.
  - intros p Hin.
    assert (H : (6 <= 5)%nat) by (apply Hbatch; exists p; exact Hin).
    lia.
Defined.

(** The whole entry point on that batch: no error, a prediction for the
    BMI, none for the weight. *)
Example progress_predictions_five_of_ten :
  exists r,
    progress_predictions_of (L := RefLib.lib) five_weights_of_ten 30 = Value r
    /\ map fst (predictions r) = ["bmi"]
    /\ base_data_points r = 10%nat.
Proof. eexists. split; [reflexivity|]. split; vm_compute; reflexivity. Qed.

(** Three present values for the weight and twenty for the BMI in one
    batch: the BMI is predicted, the weight is left out, no error. *)
Example progress_predictions_three_and_twenty :
  notna_count (sort_values three_and_twenty) "weight_kg" = 3%nat
  /\ notna_count (sort_values three_and_twenty) "bmi" = 20%nat
  /\ exists r,
       progress_predictions_of (L := RefLib.lib) three_and_twenty 30 = Value r
       /\ map fst (predictions r) = ["bmi"].
Proof.
  split; [vm_compute; reflexivity|]. split; [vm_compute; reflexivity|].
  eexists. split; [reflexivity|]. vm_compute. reflexivity.
Qed.

(** *** The zero baseline of a percentage (lines 400, 427-428, 641) *)

Section DivisionGuard.

Context {L : PyLib}.

Lemma percent_or_zero_zero (change start : float) :
  (start =? 0) = true -> percent_or_zero change start = PyInt 0.
Proof. intros H. unfold percent_or_zero, neb. rewrite H. reflexivity. Qed.

(** With every division checked, the guarded percentage never raises and
    is the unchecked one. *)
Lemma percent_or_zero_checked_total (change start : float) :
  percent_or_zero_checked change start = Some (percent_or_zero change start).
Proof.
  unfold percent_or_zero_checked, percent_or_zero, truediv, neb.
  destruct (start =? 0); reflexivity.
Qed.

Lemma _calculate_trend_result (df : DataFrame) (metric : string) (days : Z)
    (t : Trend) :
  _calculate_trend df metric days = trend_result t ->
  let values := dropna (column (trend_window df days) metric) in
  let slope := coef_ (linreg_fit (arange (List.length values)) values) in
  (2 <= List.length values)%nat /\
  t = {| tr_trend := trend_direction slope (series_std values);
         tr_slope := np_round slope 4;
         tr_change := np_round (iloc_last values - iloc_first values) 2;
         tr_percent_change :=
           round_num (percent_or_zero (iloc_last values - iloc_first values)
                                      (iloc_first values)) 2;
         tr_data_points := List.length values;
         tr_period_days := days |}.
Proof.
  unfold _calculate_trend. fold (trend_window df days).
  destruct (List.length (trend_window df days) <? 2)%nat; [discriminate|].
  destruct (Nat.ltb_spec
              (List.length (dropna (column (trend_window df days) metric))) 2)
    as [|Hlen]; [discriminate|].
  intros [= <-]. split; [exact Hlen|reflexivity].
Qed.

(** C4.  Each percentage of change is guarded: with every division checked
    the computation never raises, and when the baseline (the start value)
    equals 0 the percentage is the integer 0, in the windowed trend, in the
    full-series analysis and in the changes of a period. *)
Theorem percent_change_zero_baseline
    (df : DataFrame) (metric : string) (days : Z) :
  (forall change start,
      percent_or_zero_checked change start
      = Some (percent_or_zero change start))
  /\
  (forall change start,
      (start =? 0) = true -> percent_or_zero change start = PyInt 0)
  /\
  (forall t,
      _calculate_trend df metric days = trend_result t ->
      (iloc_first (dropna (column (trend_window df days) metric)) =? 0) = true ->
      tr_percent_change t = PyInt 0)
  /\
  (forall a,
      _analyze_metric_trend df metric = Value a ->
      (iloc_first (dropna (column df metric)) =? 0) = true ->
      ma_total_change_percent a = PyInt 0)
  /\
  (forall c,
      In (metric, c) (_calculate_period_changes df) ->
      (iloc_first (column df metric) =? 0) = true ->
      pc_percent c = PyInt 0).
Proof.
  split; [exact percent_or_zero_checked_total|].
  split; [exact percent_or_zero_zero|].
  split; [|split].
  - intros t Ht Hzero.
    destruct (_calculate_trend_result df metric days t Ht) as [_ ->].
    cbn [tr_percent_change].
    rewrite percent_or_zero_zero by exact Hzero. reflexivity.
  - intros a. unfold _analyze_metric_trend.
    destruct (List.length (dropna (column df metric)) <? 2)%nat;
      [discriminate|].
    intros [= <-] Hzero. cbn [ma_total_change_percent].
    rewrite percent_or_zero_zero by exact Hzero. reflexivity.
  - intros c. unfold _calculate_period_changes.
    destruct (List.length df <? 2)%nat; [intros []|].
    rewrite in_map_iff. intros [m [[= -> <-] _]] Hzero.
    cbn [pc_percent].
    rewrite percent_or_zero_zero by exact Hzero. reflexivity.
Qed.

End DivisionGuard.

(** A weight series that starts at 0: the trend, the analysis and the
    period change all report the integer 0 as percentage. *)
Lemma percent_change_zero_baseline_witness :
  (exists t,
      _calculate_trend (L := RefLib.lib)
                       [weighed 0 0; weighed 86400 5] "weight_kg" 30
      = trend_result t
      /\ tr_percent_change t = PyInt 0)
  /\ (exists a,
        _analyze_metric_trend (L := RefLib.lib)
                              [weighed 0 0; weighed 86400 5] "weight_kg"
        = Value a
        /\ ma_total_change_percent a = PyInt 0)
  /\ (exists c,
        In ("weight_kg", c)
           (_calculate_period_changes (L := RefLib.lib)
                                      [weighed 0 0; weighed 86400 5])
        /\ pc_percent c = PyInt 0).
Proof.
  destruct (percent_change_zero_baseline (L := RefLib.lib)
              [weighed 0 0; weighed 86400 5] "weight_kg" 30)
    as [_ [_ [Htrend [Hanalysis Hperiod]]]].
  split; [|split].
  - eexists. split; [reflexivity|]. apply Htrend; reflexivity.
  - eexists. split; [reflexivity|]. apply Hanalysis; reflexivity.
  - eexists. split; [left; reflexivity|].
    apply Hperiod; [left; reflexivity|reflexivity].
Defined.

(** *** Trend direction (lines 370-409) *)

Section TrendDirection.

Context {L : PyLib}.

Lemma dropna_column_length (df : DataFrame) (metric : string) :
  (List.length (dropna (column df metric)) <= List.length df)%nat.
Proof.
  unfold dropna, column.
  rewrite <- (length_map (cell metric) df). apply filter_length_le.
Qed.

(** With two present values in the window a trend is reported, and its
    direction follows the slope of the line fitted against the positions
    [0, 1, 2, ...] and the standard deviation of the values. *)
Lemma _calculate_trend_direction
    (df : DataFrame) (metric : string) (days : Z) :
  let values := dropna (column (trend_window df days) metric) in
  (2 <= List.length values)%nat ->
  let slope := coef_ (linreg_fit (arange (List.length values)) values) in
  let std := series_std values in
  exists t,
    _calculate_trend df metric days = trend_result t /\
    ((abs slope <? std * 0.1) = true -> tr_trend t = "stable") /\
    ((abs slope <? std * 0.1) = false -> gtb slope 0 = true ->
     tr_trend t = "increasing") /\
    ((abs slope <? std * 0.1) = false -> (slope <? 0) = true ->
     tr_trend t = "decreasing") /\
    ((abs slope <? std * 0.1) = false -> gtb slope 0 = false ->
     tr_trend t = "decreasing") /\
    tr_percent_change t
    = round_num (percent_or_zero (iloc_last values - iloc_first values)
                                 (iloc_first values)) 2.
Proof.
  intros values Hlen slope std.
  unfold _calculate_trend. fold (trend_window df days). fold values.
  assert (Hrows : (2 <= List.length (trend_window df days))%nat).
  { pose proof (dropna_column_length (trend_window df days) metric).
    fold values in H. lia. }
  destruct (Nat.ltb_spec (List.length (trend_window df days)) 2); [lia|].
  destruct (Nat.ltb_spec (List.length values) 2); [lia|].
  eexists. split; [reflexivity|].
  cbn [tr_trend tr_percent_change]. fold slope std.
  unfold trend_direction.
  repeat split.
  - intros ->. reflexivity.
  - intros -> ->. reflexivity.
  - intros -> Hneg.
    assert (Hpos : gtb slope 0 = false).
    { unfold gtb. apply (ltb_between_false slope slope);
        [apply ltb_irrefl|exact Hneg]. }
    rewrite Hpos. reflexivity.
  - intros -> ->. reflexivity.
Qed.

End TrendDirection.

(** C5.  For every window with at least two present values the direction
    is "stable" when the absolute slope of the least-squares line over the
    positions 0, 1, 2, ... is below a tenth of the standard deviation of the
    values; otherwise it is "increasing" for a positive slope and
    "decreasing" for every other one: a negative slope, and also a slope of
    zero or NaN.  For the weights 80, 79, 78, 77 the slope is -1, the
    direction is "decreasing" and the percentage of change is -3.75; for
    the constant weights 80, 80, 80 slope and deviation are 0, the band is
    empty and the direction is "decreasing". *)
Theorem trend_direction_policy :
  (forall (L : PyLib) (df : DataFrame) (metric : string) (days : Z),
      let values := dropna (column (trend_window df days) metric) in
      (2 <= List.length values)%nat ->
      let slope := coef_ (linreg_fit (arange (List.length values)) values) in
      let std := series_std values in
      exists t,
        _calculate_trend df metric days = trend_result t /\
        ((abs slope <? std * 0.1) = true -> tr_trend t = "stable") /\
        ((abs slope <? std * 0.1) = false -> gtb slope 0 = true ->
         tr_trend t = "increasing") /\
        ((abs slope <? std * 0.1) = false -> (slope <? 0) = true ->
         tr_trend t = "decreasing") /\
        ((abs slope <? std * 0.1) = false -> gtb slope 0 = false ->
         tr_trend t = "decreasing"))
  /\
  coef_ (RefLib.linreg_fit (arange 4) (column four_weights "weight_kg")) = -1
  /\
  _calculate_trend (L := RefLib.lib) four_weights "weight_kg" 30
  = trend_result {| tr_trend := "decreasing";
                    tr_slope := -1;
                    tr_change := -3;
                    tr_percent_change := PyFloat (-3.75);
                    tr_data_points := 4;
                    tr_period_days := 30 |}
  /\
  coef_ (RefLib.linreg_fit (arange 3) (column constant_weights "weight_kg"))
  = 0
  /\
  RefLib.series_std (column constant_weights "weight_kg") = 0
  /\
  _calculate_trend (L := RefLib.lib) constant_weights "weight_kg" 30
  = trend_result {| tr_trend := "decreasing";
                    tr_slope := 0;
                    tr_change := 0;
                    tr_percent_change := PyFloat 0;
                    tr_data_points := 3;
                    tr_period_days := 30 |}.
Proof.
  split; [|repeat split; vm_compute; reflexivity].
  intros L df metric days values Hlen slope std.
  destruct (_calculate_trend_direction df metric days Hlen)
    as [t [Ht [Hstable [Hup [Hdown [Hrest _]]]]]].
  exists t. auto.
Qed.

(** The general policy at the four weights, whose slope is negative and
    not within the stable band, and at the constant weights, whose slope is
    zero and the band empty: "decreasing" both times. *)
Lemma trend_direction_policy_witness :
  (exists t,
      _calculate_trend (L := RefLib.lib) four_weights "weight_kg" 30
      = trend_result t
      /\ tr_trend t = "decreasing")
  /\
  (exists t,
      _calculate_trend (L := RefLib.lib) constant_weights "weight_kg" 30
      = trend_result t
      /\ tr_trend t = "decreasing").
Proof.
  split.
  - destruct (proj1 trend_direction_policy RefLib.lib four_weights
                    "weight_kg" 30%Z) as [t [Ht [_ [_ [Hdown _]]]]].
    + vm_compute. lia.
    + exists t. split; [exact Ht|].
      apply Hdown; vm_compute; reflexivity.
  - destruct (proj1 trend_direction_policy RefLib.lib constant_weights
                    "weight_kg" 30%Z) as [t [Ht [_ [_ [_ Hzero]]]]].
    + vm_compute. lia.
    + exists t. split; [exact Ht|].
      apply Hzero; vm_compute; reflexivity.
Defined.

(** *** The invalid goal (lines 237-245) *)

Section InvalidGoal.

Context {L : PyLib}.

Lemma whole_days_nonpositive (seconds : Z) :
  (seconds / 86400 <= 0 <-> seconds < 86400)%Z.
Proof.
  pose proof (Z.div_mod seconds 86400 ltac:(lia)) as Hdm.
  pose proof (Z.mod_pos_bound seconds 86400 ltac:(lia)) as Hmod.
  lia.
Qed.

(** C6, as the code has it.  With a latest measurement that carries a
    weight, the invalid-goal error is returned exactly when fewer than 24
    hours lie between the timestamp of the latest measurement and midnight
    of the target date.  So a target date at or before that timestamp is
    always refused, and one whose midnight is at least a day after it is
    always assessed. *)
Theorem invalid_goal_whole_days
    (store : Store) (latest : Measurement) (current target : float)
    (target_date : Z) :
  get_latest_measurement store = Some latest ->
  lookup "weight_kg" (fields latest) = Some current ->
  (check_goal_progress store target target_date
   = Error "Target date must be in the future"
   <-> (86400 * target_date - date latest < 86400)%Z)
  /\
  ((86400 * target_date <= date latest)%Z ->
   check_goal_progress store target target_date
   = Error "Target date must be in the future")
  /\
  ((date latest + 86400 <= 86400 * target_date)%Z ->
   exists a, check_goal_progress store target target_date = Value a).
Proof.
  intros Hlatest Hweight.
  destruct (latest_is_head store latest Hlatest) as [rest ->].
  rewrite (check_goal_progress_unfold latest rest current target target_date
                                      Hweight).
  cbv zeta.
  pose proof (whole_days_nonpositive (86400 * target_date - date latest))
    as Hdays.
  destruct (Z.leb_spec ((86400 * target_date - date latest) / 86400) 0)
    as [Hle|Hgt].
  - split; [|split].
    + split; [intros _; apply Hdays, Hle|reflexivity].
    + reflexivity.
    + intros Hfar. lia.
  - split; [|split].
    + split; [discriminate|intros Hnear; lia].
    + intros Hpast. lia.
    + intros _. eexists. reflexivity.
Qed.

End InvalidGoal.

(** A goal set seventy days after the latest measurement is assessed. *)
Lemma invalid_goal_whole_days_witness :
  exists a,
    check_goal_progress (L := RefLib.lib) [weighed 0 80] 75 70 = Value a.
Proof.
  destruct (invalid_goal_whole_days (L := RefLib.lib)
              [weighed 0 80] (weighed 0 80) 80 75 70 eq_refl eq_refl)
    as [_ [_ Hfar]].
  apply Hfar. vm_compute. discriminate.
Defined.

(** The latest measurement was taken at 10:00 on day 0 and the target date
    is day 1: the target lies 14 hours in the future, and the goal is
    refused as not being in the future. *)
Lemma invalid_goal_for_tomorrow :
  (date (weighed 36000 80) < 86400 * 1)%Z
  /\ check_goal_progress (L := RefLib.lib) [weighed 36000 80] 75 1
     = Error "Target date must be in the future".
Proof. split; [reflexivity|vm_compute; reflexivity]. Qed.

(** *** Correlations (lines 137-188) *)

Section Correlations.

Context {L : PyLib}.

Lemma numeric_metrics_NoDup : NoDup numeric_metrics.
Proof.
  unfold numeric_metrics.
  repeat (constructor; [cbn; intuition discriminate|]). constructor.
Qed.

Lemma index_pairs_In (n i j : nat) :
  In (i, j) (index_pairs n) <-> (i < j < n)%nat.
Proof.
  unfold index_pairs. rewrite in_flat_map. split.
  - intros [k [Hk Hin]]. rewrite in_map_iff in Hin.
    destruct Hin as [m [[= -> ->] Hm]].
    rewrite in_seq in Hk, Hm. lia.
  - intros Hij. exists i. split; [apply in_seq; lia|].
    apply in_map_iff. exists j. split; [reflexivity|apply in_seq; lia].
Qed.

(** Reading a dictionary built over distinct keys. *)
Lemma find_keyed {A : Type} (key : nat -> string) (val : nat -> A)
    (l : list nat) (i : nat) :
  In i l ->
  (forall j, In j l -> key j = key i -> j = i) ->
  find (fun e => String.eqb (fst e) (key i))
       (map (fun j => (key j, val j)) l)
  = Some (key i, val i).
Proof.
  induction l as [|j l IH]; intros Hin Hinj; [destruct Hin|].
  cbn [map find fst].
  destruct (String.eqb_spec (key j) (key i)) as [Heq|Hne].
  - rewrite (Hinj j (or_introl eq_refl) Heq). reflexivity.
  - apply IH.
    + destruct Hin as [->|Hin]; [congruence|exact Hin].
    + intros k Hk. apply Hinj. now right.
Qed.

Lemma lookup_keyed (key : nat -> string) (val : nat -> float)
    (l : list nat) (i : nat) :
  In i l ->
  (forall j, In j l -> key j = key i -> j = i) ->
  lookup (key i) (map (fun j => (key j, val j)) l) = Some (val i).
Proof.
  induction l as [|j l IH]; intros Hin Hinj; [destruct Hin|].
  cbn [map lookup].
  destruct (String.eqb_spec (key j) (key i)) as [Heq|Hne].
  - rewrite (Hinj j (or_introl eq_refl) Heq). reflexivity.
  - apply IH.
    + destruct Hin as [->|Hin]; [congruence|exact Hin].
    + intros k Hk. apply Hinj. now right.
Qed.

Lemma corr_entry_sym (df : DataFrame) (metrics : list string) (i j : nat) :
  corr_entry df metrics i j = corr_entry df metrics j i.
Proof.
  unfold corr_entry. rewrite (Nat.max_comm i j), (Nat.min_comm i j).
  reflexivity.
Qed.

Lemma corr_entry_diag (df : DataFrame) (metrics : list string) (i : nat) :
  corr_entry df metrics i i
  = pearson (column df (nth i metrics "")) (column df (nth i metrics "")).
Proof.
  unfold corr_entry. rewrite Nat.max_id, Nat.min_id. reflexivity.
Qed.

Lemma strong_entry_In (metric1 metric2 : string) (correlation : float)
    (s : StrongCorrelation) :
  In s (strong_entry metric1 metric2 correlation)
  <-> gtb (abs correlation) 0.7 = true
      /\ s = {| sc_metric1 := metric1;
                sc_metric2 := metric2;
                sc_correlation := np_round correlation 3;
                sc_strength :=
                  if gtb (abs correlation) 0.8 then "strong" else "moderate";
                sc_direction :=
                  if gtb correlation 0 then "positive" else "negative" |}.
Proof.
  unfold strong_entry.
  destruct (gtb (abs correlation) 0.7); split.
  - intros [<-|[]]. auto.
  - intros [_ ->]. left. reflexivity.
  - intros [].
  - intros [H _]. discriminate.
Qed.

(** The structure of the returned matrix and of the list of strong
    correlations, for every implementation of the library. *)
Lemma correlation_matrix_of_entries (data : list Measurement)
    (c : Correlations) :
  metric_correlations_of data = Value c ->
  let metrics := filter (has_column data) numeric_metrics in
  let n := List.length metrics in
  let r := corr_entry data metrics in
  (forall i j, (i < n)%nat -> (j < n)%nat ->
      matrix_entry (correlation_matrix c) (nth j metrics "") (nth i metrics "")
      = Some (np_round (r i j) 3))
  /\
  (forall a b, In a metrics -> In b metrics ->
      matrix_entry (correlation_matrix c) a b
      = matrix_entry (correlation_matrix c) b a)
  /\
  (forall i, (i < n)%nat ->
      matrix_entry (correlation_matrix c) (nth i metrics "") (nth i metrics "")
      = Some (np_round (pearson (column data (nth i metrics ""))
                                (column data (nth i metrics ""))) 3))
  /\
  (forall s,
      In s (strong_correlations c)
      <-> exists i j, (i < j < n)%nat
                      /\ gtb (abs (r i j)) 0.7 = true
                      /\ s = strong_pair metrics r i j).
Proof.
  intros Hc metrics n r.
  assert (Hvalue :
            c = {| correlation_matrix :=
                     map (fun j =>
                            (nth j metrics "",
                             map (fun i =>
                                    (nth i metrics "", np_round (r i j) 3))
                                 (seq 0 n)))
                         (seq 0 n);
                   strong_correlations :=
                     flat_map (fun ij =>
                                 strong_entry (nth (fst ij) metrics "")
                                              (nth (snd ij) metrics "")
                                              (r (fst ij) (snd ij)))
                              (index_pairs n);
                   insights :=
                     _interpret_correlations
                       (flat_map (fun ij =>
                                    strong_entry (nth (fst ij) metrics "")
                                                 (nth (snd ij) metrics "")
                                                 (r (fst ij) (snd ij)))
                                 (index_pairs n)) |}).
  { unfold metric_correlations_of in Hc.
    destruct data as [|first_record data']; [discriminate|].
    injection Hc as <-. reflexivity. }
  assert (Hinj : forall i j, In j (seq 0 n) -> In i (seq 0 n) ->
                             nth j metrics "" = nth i metrics "" -> j = i).
  { intros i j Hj Hi Heq. rewrite in_seq in Hi, Hj.
    apply (proj1 (NoDup_nth metrics "")); try lia; try exact Heq.
    apply NoDup_filter, numeric_metrics_NoDup. }
  assert (Hentry : forall i j, (i < n)%nat -> (j < n)%nat ->
            matrix_entry (correlation_matrix c)
                         (nth j metrics "") (nth i metrics "")
            = Some (np_round (r i j) 3)).
  { intros i j Hi Hj. rewrite Hvalue. cbn [correlation_matrix].
    unfold matrix_entry.
    rewrite (find_keyed (fun j => nth j metrics "")
               (fun j => map (fun i => (nth i metrics "", np_round (r i j) 3))
                             (seq 0 n))).
    - apply (lookup_keyed (fun i => nth i metrics "")
                          (fun i => np_round (r i j) 3)).
      + apply in_seq. lia.
      + intros k Hk. apply Hinj; [exact Hk|apply in_seq; lia].
    - apply in_seq. lia.
    - intros k Hk. apply Hinj; [exact Hk|apply in_seq; lia]. }
  split; [exact Hentry|]. split; [|split].
  - intros a b Ha Hb.
    destruct (In_nth metrics a "" Ha) as [i [Hi <-]].
    destruct (In_nth metrics b "" Hb) as [j [Hj <-]].
    rewrite (Hentry j i Hj Hi), (Hentry i j Hi Hj).
    unfold r. rewrite corr_entry_sym. reflexivity.
  - intros i Hi. rewrite (Hentry i i Hi Hi).
    unfold r. rewrite corr_entry_diag. reflexivity.
  - intros s. rewrite Hvalue. cbn [strong_correlations].
    rewrite in_flat_map. split.
    + intros [[i j] [Hij Hs]]. apply index_pairs_In in Hij.
      cbn [fst snd] in Hs. apply strong_entry_In in Hs.
      exists i, j. destruct Hs as [Hr ->]. auto.
    + intros [i [j [Hij [Hr ->]]]]. exists (i, j).
      split; [apply index_pairs_In, Hij|].
      cbn [fst snd]. apply strong_entry_In. auto.
Qed.

End Correlations.

(** Pearson's r of the reference library is NaN when the running sum of
    squared deviations of its first column is zero. *)
Lemma pearson_without_spread (xs ys : list float) :
  (RefLib.ssqdm_x (RefLib.corr_loop RefLib.corr_init xs ys) =? 0) = true ->
  RefLib.pearson xs ys = nan.
Proof.
  intros Hzero. unfold RefLib.pearson.
  destruct (RefLib.nobs (RefLib.corr_loop RefLib.corr_init xs ys) <? 1);
    [reflexivity|].
  destruct (mul_zero_cases
              _ (RefLib.ssqdm_y (RefLib.corr_loop RefLib.corr_init xs ys))
              (eqb_zero_cases _ Hzero)) as [Hm|[Hm|Hm]];
    rewrite Hm.
  - change (sqrt nan) with nan. change (neb nan 0) with true.
    rewrite div_nan. reflexivity.
  - reflexivity.
  - reflexivity.
Qed.

(** *** The diagonal of the matrix *)

Section SelfCorrelation.

Import RefLib.

Lemma corr_loop_self (xs : list float) (st : CorrState) :
  self_state st -> self_state (corr_loop st xs xs).
Proof.
  revert st. induction xs as [|x xs IH]; intros st Hst; [exact Hst|].
  cbn [corr_loop]. apply IH.
  destruct (is_finite x && is_finite x); [|exact Hst].
  destruct Hst as [Hm [Hs Hc]]. unfold self_state, corr_step.
  cbn [meanx meany ssqdm_x ssqdm_y covxy]. rewrite Hm, Hs, Hc.
  repeat split.
Qed.

Lemma count_step :
  forall k, (k < 100)%nat -> N2F k + 1 = N2F (S k).
Proof.
  assert (H : Forall (fun k => N2F k + 1 = N2F (S k)) (seq 0 100)).
  { repeat (constructor; [vm_compute; reflexivity|]). constructor. }
  intros k Hk. rewrite Forall_forall in H. apply H, in_seq. lia.
Qed.

Lemma count_at_least_one :
  forall k, (1 <= k <= 100)%nat -> (N2F k <? 1) = false.
Proof.
  assert (H : Forall (fun k => (N2F k <? 1) = false) (seq 1 100)).
  { repeat (constructor; [vm_compute; reflexivity|]). constructor. }
  intros k Hk. rewrite Forall_forall in H. apply H, in_seq. lia.
Qed.

(** Up to a hundred rows the number of observations is counted exactly,
    and without an observation there is no spread. *)
Lemma corr_loop_count (xs ys : list float) (st : CorrState) (k : nat) :
  nobs st = N2F k -> (k + List.length xs <= 100)%nat ->
  (k = 0%nat -> ssqdm_x st = 0) ->
  exists k',
    nobs (corr_loop st xs ys) = N2F k' /\ (k' <= 100)%nat
    /\ (k' = 0%nat -> ssqdm_x (corr_loop st xs ys) = 0).
Proof.
  revert ys st k. induction xs as [|x xs IH]; intros ys st k Hn Hk Hz.
  - exists k. cbn [corr_loop]. cbn [List.length] in Hk.
    repeat split; [exact Hn|lia|exact Hz].
  - cbn [List.length] in Hk. destruct ys as [|y ys].
    + exists k. cbn [corr_loop]. repeat split; [exact Hn|lia|exact Hz].
    + cbn [corr_loop]. destruct (is_finite x && is_finite y).
      * apply (IH ys _ (S k)); [|lia|discriminate].
        unfold corr_step. cbn [nobs]. rewrite Hn. apply count_step. lia.
      * apply (IH ys st k); [exact Hn|lia|exact Hz].
Qed.

Lemma mid_range_nonzero (v : float) :
  (0x1p-511 <=? v) = true -> (v <=? 0x1p511) = true -> neb v 0 = true.
Proof.
  intros Hlow Hhigh.
  destruct (mid_range_finite v Hlow Hhigh) as [m [e [Hv _]]].
  unfold neb. rewrite eqb_spec, Hv. reflexivity.
Qed.

(** The self-correlation of a column of at most a hundred rows is 1 when
    its sum of squared deviations lies between [2^-511] and [2^511]. *)
Lemma pearson_self (xs : list float) :
  (List.length xs <= 100)%nat ->
  let spread := ssqdm_x (corr_loop corr_init xs xs) in
  (0x1p-511 <=? spread) = true -> (spread <=? 0x1p511) = true ->
  pearson xs xs = 1.
Proof.
  intros Hlen spread Hlow Hhigh. unfold pearson. cbv zeta.
  destruct (corr_loop_self xs corr_init) as [_ [Hy Hc]];
    [repeat split|].
  destruct (corr_loop_count xs xs corr_init 0 eq_refl Hlen (fun _ => eq_refl))
    as [k [Hk [Hk100 Hzero]]].
  rewrite Hy, Hc, Hk. fold spread. fold spread in Hzero.
  destruct k as [|k].
  - rewrite (Hzero eq_refl) in Hlow. discriminate Hlow.
  - rewrite (count_at_least_one (S k)) by lia.
    rewrite (sqrt_square spread Hlow Hhigh).
    rewrite (mid_range_nonzero spread Hlow Hhigh).
    rewrite (div_self spread Hlow Hhigh). reflexivity.
Qed.

End SelfCorrelation.

(** The order of the two columns matters to the last bits of the
    coefficient: the matrix is symmetric because each coefficient is
    computed once and stored in both positions. *)
Example pearson_argument_order :
  RefLib.pearson [1; 2; 4] [0.1; 0.7; 0.3] = 0.14285714285714274
  /\ RefLib.pearson [0.1; 0.7; 0.3] [1; 2; 4] = 0.14285714285714265.
Proof. split; vm_compute; reflexivity. Qed.

(** C7, as the code has it.  The returned matrix holds, under column [b]
    and row [a], the rounded coefficient of the two metrics, computed once
    for the pair and stored in both positions, so the matrix is symmetric,
    NaN included.  With the reference library a diagonal entry is NaN when
    the metric's sum of squared deviations is zero, and it is 1.0 when that
    sum lies between [2^-511] and [2^511], as it does for every metric with
    spread on measurements of ordinary size (the entry point reads at most a
    hundred records).  The strong correlations are exactly the pairs
    [i < j] of available metrics whose coefficient has an absolute value
    above 0.7, labelled "strong" above 0.8 and "moderate" otherwise,
    "positive" for [r > 0] and "negative" otherwise. *)
Theorem correlation_matrix_structure :
  (forall (L : PyLib) (data : list Measurement) (c : Correlations),
      metric_correlations_of data = Value c ->
      let metrics := filter (has_column data) numeric_metrics in
      let n := List.length metrics in
      let r := corr_entry data metrics in
      (forall a b, In a metrics -> In b metrics ->
          matrix_entry (correlation_matrix c) a b
          = matrix_entry (correlation_matrix c) b a)
      /\
      (forall i j, (i < n)%nat -> (j < n)%nat ->
          matrix_entry (correlation_matrix c)
                       (nth j metrics "") (nth i metrics "")
          = Some (np_round (r i j) 3))
      /\
      (forall s,
          In s (strong_correlations c)
          <-> exists i j, (i < j < n)%nat
                          /\ gtb (abs (r i j)) 0.7 = true
                          /\ s = strong_pair metrics r i j))
  /\
  (forall (data : list Measurement) (c : Correlations) (i : nat),
      metric_correlations_of (L := RefLib.lib) data = Value c ->
      let metrics := filter (has_column data) numeric_metrics in
      let values := column data (nth i metrics "") in
      (i < List.length metrics)%nat ->
      (RefLib.ssqdm_x (RefLib.corr_loop RefLib.corr_init values values) =? 0)
      = true ->
      matrix_entry (correlation_matrix c) (nth i metrics "") (nth i metrics "")
      = Some nan)
  /\
  (forall (store : Store) (c : Correlations) (i : nat),
      get_metric_correlations (L := RefLib.lib) store = Value c ->
      let data := get_body_composition_data store None None (Some 100%nat) in
      let metrics := filter (has_column data) numeric_metrics in
      let values := column data (nth i metrics "") in
      let spread :=
        RefLib.ssqdm_x (RefLib.corr_loop RefLib.corr_init values values) in
      (i < List.length metrics)%nat ->
      (0x1p-511 <=? spread) = true -> (spread <=? 0x1p511) = true ->
      matrix_entry (correlation_matrix c) (nth i metrics "") (nth i metrics "")
      = Some 1).
Proof.
  split; [|split].
  - intros L data c Hc metrics n r.
    destruct (correlation_matrix_of_entries data c Hc)
      as [Hentry [Hsym [Hdiag Hstrong]]].
    auto.
  - intros data c i Hc metrics values Hi Hzero.
    destruct (correlation_matrix_of_entries (L := RefLib.lib) data c Hc)
      as [_ [_ [Hdiag _]]].
    subst metrics values. rewrite (Hdiag i Hi). f_equal.
    cbv zeta in Hzero.
    set (values := column data _) in *.
    change (RefLib.np_round (RefLib.pearson values values) 3 = nan).
    rewrite (pearson_without_spread values values Hzero). reflexivity.
  - intros store c i Hc data metrics values spread Hi Hlow Hhigh.
    unfold get_metric_correlations in Hc. fold data in Hc.
    destruct (correlation_matrix_of_entries (L := RefLib.lib) data c Hc)
      as [_ [_ [Hdiag _]]].
    fold metrics in Hdiag. rewrite (Hdiag i Hi). f_equal. fold values.
    change (RefLib.np_round (RefLib.pearson values values) 3 = 1).
    rewrite pearson_self; [reflexivity| |exact Hlow|exact Hhigh].
    unfold values, column. rewrite length_map.
    unfold data, get_body_composition_data. apply firstn_le_length.
Qed.

(** Four weighings whose BMI falls with the weight: the two entries of the
    pair are the same 0.973, the weight's diagonal entry is 1.0, and the
    pair is listed as strong and positive. *)
Lemma correlation_matrix_structure_witness :
  exists c,
    get_metric_correlations (L := RefLib.lib) weight_with_bmi = Value c
    /\ matrix_entry (correlation_matrix c) "weight_kg" "bmi"
       = matrix_entry (correlation_matrix c) "bmi" "weight_kg"
    /\ matrix_entry (correlation_matrix c) "bmi" "weight_kg" = Some 0.973
    /\ matrix_entry (correlation_matrix c) "weight_kg" "weight_kg" = Some 1
    /\ In {| sc_metric1 := "weight_kg"; sc_metric2 := "bmi";
             sc_correlation := 0.973; sc_strength := "strong";
             sc_direction := "positive" |}
          (strong_correlations c).
Proof.
  eexists. split; [reflexivity|].
  destruct correlation_matrix_structure as [Hgeneral [_ Hone]].
  destruct (Hgeneral RefLib.lib weight_with_bmi _ eq_refl)
    as [Hsym [Hentry Hstrong]].
  split; [|split; [|split]].
  - apply Hsym; [left; reflexivity|right; left; reflexivity].
  - etransitivity.
    + exact (Hentry 0%nat 1%nat ltac:(vm_compute; lia) ltac:(vm_compute; lia)).
    + vm_compute. reflexivity.
  - apply (Hone weight_with_bmi _ 0%nat eq_refl).
    + vm_compute. lia.
    + vm_compute. reflexivity.
    + vm_compute. reflexivity.
  - apply Hstrong. exists 0%nat, 1%nat.
    split; [vm_compute; lia|]. split; vm_compute; reflexivity.
Defined.

(** With a weight that varies and a metabolic age that does not, the
    weight's diagonal entry is 1.0 and the metabolic age's is NaN. *)
Lemma correlation_diagonal_nan :
  exists c,
    metric_correlations_of (L := RefLib.lib) constant_age = Value c
    /\ matrix_entry (correlation_matrix c) "weight_kg" "weight_kg" = Some 1
    /\ matrix_entry (correlation_matrix c) "metabolic_age" "metabolic_age"
       = Some nan
    /\ (nan =? 1) = false.
Proof.
  eexists. split; [reflexivity|]. repeat split; vm_compute; reflexivity.
Qed.

(** *** The order of the records (lines 34-36 and the like) *)

Section RecordOrder.

Context {L : PyLib}.

Lemma DateOrder_leb_trans : Transitive (fun a b => is_true (DateOrder.leb a b)).
Proof.
  intros a b c. unfold DateOrder.leb, is_true. rewrite !Z.leb_le. lia.
Qed.

Lemma sort_values_sorted (df : DataFrame) :
  StronglySorted (fun a b => is_true (DateOrder.leb a b)) (sort_values df).
Proof. apply DateSort.StronglySorted_sort, DateOrder_leb_trans. Qed.

Lemma sort_values_perm (df : DataFrame) : Permutation df (sort_values df).
Proof. apply DateSort.Permuted_sort. Qed.

(** Two sorted arrangements of the same records with distinct timestamps
    are the same list. *)
Lemma sorted_arrangement_unique (s1 s2 : list Measurement) :
  StronglySorted (fun a b => is_true (DateOrder.leb a b)) s1 ->
  StronglySorted (fun a b => is_true (DateOrder.leb a b)) s2 ->
  Permutation s1 s2 ->
  NoDup (map date s1) ->
  s1 = s2.
Proof.
  revert s2. induction s1 as [|a1 t1 IH]; intros s2 Hs1 Hs2 Hperm Hnd.
  - apply Permutation_nil in Hperm. now subst.
  - destruct s2 as [|a2 t2].
    + apply Permutation_sym, Permutation_nil in Hperm. discriminate.
    + apply StronglySorted_inv in Hs1. destruct Hs1 as [Ht1 Ha1].
      apply StronglySorted_inv in Hs2. destruct Hs2 as [Ht2 Ha2].
      rewrite Forall_forall in Ha1, Ha2.
      inversion Hnd as [|d ds Hnotin Hnd']; subst.
      assert (Heq : a1 = a2).
      { assert (Hin1 : In a1 (a2 :: t2))
          by (apply (Permutation_in _ Hperm); now left).
        assert (Hin2 : In a2 (a1 :: t1))
          by (apply (Permutation_in _ (Permutation_sym Hperm)); now left).
        destruct Hin1 as [Hin1|Hin1]; [now symmetry|].
        destruct Hin2 as [Hin2|Hin2]; [exact Hin2|].
        exfalso. apply Hnotin.
        pose proof (Ha1 a2 Hin2) as H12. pose proof (Ha2 a1 Hin1) as H21.
        unfold DateOrder.leb, is_true in H12, H21.
        rewrite Z.leb_le in H12, H21.
        replace (date a1) with (date a2) by lia.
        apply in_map, Hin2. }
      subst a2. f_equal.
      apply IH; try assumption.
      apply (Permutation_cons_inv Hperm).
Qed.

Lemma sort_values_permutation (d1 d2 : list Measurement) :
  Permutation d1 d2 ->
  NoDup (map date d1) ->
  sort_values d1 = sort_values d2.
Proof.
  intros Hperm Hnd.
  apply sorted_arrangement_unique; try apply sort_values_sorted.
  - rewrite <- (sort_values_perm d1), <- (sort_values_perm d2). exact Hperm.
  - apply (Permutation_NoDup (l := map date d1)); [|exact Hnd].
    apply Permutation_map, sort_values_perm.
Qed.

(** C8, as the code has it.  When the timestamps of a snapshot are pairwise
    distinct, the entry points that sort give the same result for every
    order in which the records are returned: the trend analysis, the
    prediction batch, the goal assessment for a given latest measurement and
    the progress report as a whole, and of the metrics summary every field
    other than [latest_measurement]. *)
Theorem sorted_entry_points_order_independent (d1 d2 : list Measurement) :
  Permutation d1 d2 ->
  NoDup (map date d1) ->
  (forall s1,
      metrics_summary_of d1 = Value s1 ->
      exists s2,
        metrics_summary_of d2 = Value s2
        /\ total_measurements (overview s1) = total_measurements (overview s2)
        /\ date_range (overview s1) = date_range (overview s2)
        /\ measurement_frequency (overview s1)
           = measurement_frequency (overview s2)
        /\ current_stats s1 = current_stats s2
        /\ trends s1 = trends s2
        /\ achievements s1 = achievements s2
        /\ health_insights s1 = health_insights s2)
  /\
  (forall e, metrics_summary_of d1 = Error e -> metrics_summary_of d2 = Error e)
  /\
  (forall start_date end_date metrics,
      trend_analysis_of d1 start_date end_date metrics
      = trend_analysis_of d2 start_date end_date metrics)
  /\
  (forall days_ahead,
      progress_predictions_of d1 days_ahead
      = progress_predictions_of d2 days_ahead)
  /\
  (forall latest target target_date,
      goal_progress_of latest d1 target target_date
      = goal_progress_of latest d2 target target_date)
  /\
  (forall (Photo : Type) (photos : list Photo) now start_date end_date
          include_photos,
      progress_report_of d1 photos now start_date end_date include_photos
      = progress_report_of d2 photos now start_date end_date include_photos).
Proof.
  intros Hperm Hnd.
  pose proof (sort_values_permutation d1 d2 Hperm Hnd) as Hsort.
  pose proof (Permutation_length Hperm) as Hlen.
  split; [|split; [|split; [|split; [|split]]]].
  - intros s1. unfold metrics_summary_of.
    destruct d1 as [|r1 d1']; [discriminate|].
    destruct d2 as [|r2 d2']; [discriminate|].
    rewrite <- Hsort.
    intros [= <-]. eexists. split; [reflexivity|].
    cbn [overview total_measurements date_range measurement_frequency
         current_stats trends achievements health_insights].
    repeat split. exact Hlen.
  - intros e. unfold metrics_summary_of.
    destruct d1 as [|r1 d1']; [|discriminate].
    apply Permutation_nil in Hperm. subst d2. auto.
  - intros start_date end_date metrics. unfold trend_analysis_of.
    rewrite Hsort, Hlen. reflexivity.
  - intros days_ahead. unfold progress_predictions_of.
    rewrite Hsort, Hlen. reflexivity.
  - intros latest target target_date. unfold goal_progress_of.
    rewrite Hsort. reflexivity.
  - intros Photo photos now start_date end_date include_photos.
    unfold progress_report_of.
    destruct d1 as [|r1 d1'].
    + apply Permutation_nil in Hperm. subst d2. reflexivity.
    + destruct d2 as [|r2 d2'].
      * apply Permutation_sym, Permutation_nil in Hperm. discriminate.
      * rewrite Hsort, Hlen. reflexivity.
Qed.

End RecordOrder.

(** The same two records in both orders: the trend of the weight over the
    week is the same. *)
Lemma sorted_entry_points_order_independent_witness :
  trend_analysis_of (L := RefLib.lib) newest_first 0 1 ["weight_kg"]
  = trend_analysis_of (L := RefLib.lib) oldest_first 0 1 ["weight_kg"].
Proof.
  refine (proj1 (proj2 (proj2 (sorted_entry_points_order_independent
                                 (L := RefLib.lib) newest_first oldest_first
                                 _ _)))
                0%Z 1%Z ["weight_kg"]).
  - apply perm_swap.
  - repeat constructor; cbn; intuition discriminate.
Defined.

(** The same two records in both orders: the summary reports the date of
    whichever record came first as the latest measurement, while the range
    of dates ends on day 1 in both. *)
Lemma latest_measurement_follows_order :
  Permutation newest_first oldest_first
  /\ exists s1 s2,
       metrics_summary_of (L := RefLib.lib) newest_first = Value s1
       /\ metrics_summary_of (L := RefLib.lib) oldest_first = Value s2
       /\ latest_measurement (overview s1) = 86400%Z
       /\ latest_measurement (overview s2) = 0%Z
       /\ dr_end (date_range (overview s1)) = 1%Z
       /\ dr_end (date_range (overview s2)) = 1%Z.
Proof.
  split; [apply perm_swap|].
  eexists. eexists. split; [reflexivity|]. split; [reflexivity|].
  repeat split.
Qed.

(** *** Health insights (lines 564-605) *)

Lemma has_column_last (history : list Measurement) (latest : Measurement)
    (key : string) :
  carries_columns (history ++ [latest]) latest ->
  has_column (history ++ [latest]) key = has_column [latest] key.
Proof.
  intros Hcarries. unfold has_column at 2. cbn [existsb].
  rewrite orb_false_r.
  destruct (has_key key latest) eqn:Hkey.
  - unfold has_column. apply existsb_exists. exists latest.
    split; [apply in_or_app; right; now left|exact Hkey].
  - destruct (has_column (history ++ [latest]) key) eqn:Hcol;
      [|reflexivity].
    rewrite (Hcarries key Hcol) in Hkey. discriminate.
Qed.

Lemma bmi_insight_bands (bmi : float) :
  ((bmi <? 18.5) = true ->
   bmi_insight bmi
   = "Your BMI indicates you're underweight. Consider consulting a nutritionist.")
  /\
  ((18.5 <=? bmi) = true -> (bmi <? 25) = true ->
   bmi_insight bmi
   = "Your BMI is in the healthy range. Great job maintaining a healthy weight!")
  /\
  ((25 <=? bmi) = true -> (bmi <? 30) = true ->
   bmi_insight bmi
   = "Your BMI indicates you're overweight. Focus on creating a caloric deficit.")
  /\
  ((30 <=? bmi) = true ->
   bmi_insight bmi
   = "Your BMI indicates obesity. Consider consulting a healthcare professional.").
Proof.
  unfold bmi_insight. repeat split.
  - intros ->. reflexivity.
  - intros Hlo Hhi.
    rewrite (leb_between_false 18.5 18.5 bmi eq_refl Hlo), Hlo, Hhi.
    reflexivity.
  - intros Hlo Hhi.
    rewrite (leb_between_false 25 18.5 bmi eq_refl Hlo).
    rewrite (leb_between_false 25 25 bmi eq_refl Hlo), andb_false_r.
    rewrite Hlo, Hhi. reflexivity.
  - intros Hlo.
    rewrite (leb_between_false 30 18.5 bmi eq_refl Hlo).
    rewrite (leb_between_false 30 25 bmi eq_refl Hlo), andb_false_r.
    rewrite (leb_between_false 30 30 bmi eq_refl Hlo), andb_false_r.
    reflexivity.
Qed.

Lemma hydration_insight_bands (water_pct : float) :
  ((water_pct <? 50) = true ->
   hydration_insight water_pct
   = ["Your body water percentage seems low. Ensure adequate hydration."])
  /\
  (gtb water_pct 65 = true ->
   hydration_insight water_pct
   = ["Your body water percentage is high, which is generally positive."])
  /\
  ((water_pct <? 50) = false -> gtb water_pct 65 = false ->
   hydration_insight water_pct = []).
Proof.
  unfold hydration_insight. repeat split.
  - intros ->. reflexivity.
  - intros Hhigh.
    rewrite (ltb_between_false 65 50 water_pct eq_refl Hhigh), Hhigh.
    reflexivity.
  - intros -> ->. reflexivity.
Qed.

(** C9, as the code has it.  For a series of at least two measurements whose
    latest record carries every column, the insights are those of the latest
    record alone, whatever the history; for a single measurement there is no
    insight.  The BMI is banded below 18.5 as underweight, from 18.5 and
    below 25 as healthy, from 25 and below 30 as overweight and from 30 as
    obese; the body water below 50 as low and above 65 as high. *)
Theorem health_insights_of_latest
    (history : list Measurement) (latest : Measurement) :
  (1 <= List.length history)%nat ->
  carries_columns (history ++ [latest]) latest ->
  _generate_health_insights (history ++ [latest])
  = insights_of_row [latest] latest
  /\
  _generate_health_insights [latest] = []
  /\
  (has_key "bmi" latest = true ->
   In (bmi_insight (cell "bmi" latest))
      (_generate_health_insights (history ++ [latest])))
  /\
  (forall bmi,
      ((bmi <? 18.5) = true ->
       bmi_insight bmi
       = "Your BMI indicates you're underweight. Consider consulting a nutritionist.")
      /\
      ((18.5 <=? bmi) = true -> (bmi <? 25) = true ->
       bmi_insight bmi
       = "Your BMI is in the healthy range. Great job maintaining a healthy weight!")
      /\
      ((25 <=? bmi) = true -> (bmi <? 30) = true ->
       bmi_insight bmi
       = "Your BMI indicates you're overweight. Focus on creating a caloric deficit.")
      /\
      ((30 <=? bmi) = true ->
       bmi_insight bmi
       = "Your BMI indicates obesity. Consider consulting a healthcare professional."))
  /\
  (has_key "body_water_percent" latest = true ->
   forall insight,
     In insight (hydration_insight (cell "body_water_percent" latest)) ->
     In insight (_generate_health_insights (history ++ [latest])))
  /\
  (forall water_pct,
      ((water_pct <? 50) = true ->
       hydration_insight water_pct
       = ["Your body water percentage seems low. Ensure adequate hydration."])
      /\
      (gtb water_pct 65 = true ->
       hydration_insight water_pct
       = ["Your body water percentage is high, which is generally positive."])
      /\
      ((water_pct <? 50) = false -> gtb water_pct 65 = false ->
       hydration_insight water_pct = [])).
Proof.
  intros Hlen Hcarries.
  assert (Hlatest :
            _generate_health_insights (history ++ [latest])
            = insights_of_row [latest] latest).
  { unfold _generate_health_insights.
    destruct (Nat.ltb_spec (List.length (history ++ [latest])) 2) as [Hlt|_].
    - rewrite length_app in Hlt. cbn [List.length] in Hlt. lia.
    - rewrite rev_app_distr. cbn [rev app].
      unfold insights_of_row.
      rewrite !(has_column_last history latest _ Hcarries). reflexivity. }
  split; [exact Hlatest|]. split; [reflexivity|].
  split; [|split; [exact bmi_insight_bands|split;
                                            [|exact hydration_insight_bands]]].
  - intros Hkey. rewrite Hlatest. unfold insights_of_row, has_column.
    cbn [existsb]. rewrite Hkey. cbn [orb]. left. reflexivity.
  - intros Hkey insight Hin. rewrite Hlatest.
    unfold insights_of_row, has_column. cbn [existsb].
    rewrite Hkey. cbn [orb].
    apply in_or_app. right. apply in_or_app. right. exact Hin.
Qed.

(** The insights of a two-record series are those of its latest record. *)
Lemma health_insights_of_latest_witness :
  _generate_health_insights [bmi_water 0 22 55; bmi_water 86400 17 48]
  = insights_of_row [bmi_water 86400 17 48] (bmi_water 86400 17 48).
Proof.
  refine (proj1 (health_insights_of_latest
                   [bmi_water 0 22 55] (bmi_water 86400 17 48) (le_n 1) _)).
  intros key Hcol. unfold has_column in Hcol. cbn [app existsb] in Hcol.
  rewrite orb_false_r in Hcol.
  apply orb_true_iff in Hcol. destruct Hcol as [Hcol|Hcol]; [|exact Hcol].
  unfold has_key in *. cbn [fields bmi_water lookup] in *.
  destruct (String.eqb "bmi" key); [reflexivity|].
  destruct (String.eqb "body_water_percent" key); [reflexivity|].
  exact Hcol.
Defined.

(** A single measurement with a BMI of 17 and 48 % body water yields no
    insight; the same measurement after an earlier one yields two. *)
Lemma single_measurement_has_no_insights :
  _generate_health_insights [bmi_water 86400 17 48] = []
  /\ _generate_health_insights [bmi_water 0 22 55; bmi_water 86400 17 48]
     = ["Your BMI indicates you're underweight. Consider consulting a nutritionist.";
        "Your body water percentage seems low. Ensure adequate hydration."].
Proof. split; vm_compute; reflexivity. Qed.

(** *** Change velocity (lines 462-482) *)

Section ZeroDayGap.

Lemma div_zero_positive (x : float) :
  is_finite x = true -> (0 <? x) = true -> x / 0 = infinity.
Proof.
  intros Hfin Hpos. apply Prim2SF_inj. rewrite div_spec.
  rewrite ltb_spec in Hpos.
  change (Prim2SF 0) with (S754_zero false) in *.
  change (Prim2SF infinity) with (S754_infinity false).
  unfold SFltb in Hpos.
  destruct (Prim2SF x) as [s|s| |s m e] eqn:Hx;
    cbn [SFcompare] in Hpos; try destruct s; try discriminate Hpos.
  - rewrite <- (SF2Prim_Prim2SF x), Hx in Hfin. discriminate Hfin.
  - reflexivity.
Qed.

Lemma div_zero_negative (x : float) :
  is_finite x = true -> (x <? 0) = true -> x / 0 = neg_infinity.
Proof.
  intros Hfin Hneg. apply Prim2SF_inj. rewrite div_spec.
  rewrite ltb_spec in Hneg.
  change (Prim2SF 0) with (S754_zero false) in *.
  change (Prim2SF neg_infinity) with (S754_infinity true).
  unfold SFltb in Hneg.
  destruct (Prim2SF x) as [s|s| |s m e] eqn:Hx;
    cbn [SFcompare] in Hneg; try destruct s; try discriminate Hneg.
  - rewrite <- (SF2Prim_Prim2SF x), Hx in Hfin. discriminate Hfin.
  - reflexivity.
Qed.

Lemma ltb_infinity_false (v : float) : (infinity <? v) = false.
Proof.
  rewrite ltb_spec. change (Prim2SF infinity) with (S754_infinity false).
  unfold SFltb. destruct (Prim2SF v) as [s|s| |s m e];
    try destruct s; reflexivity.
Qed.

Lemma ltb_neg_infinity_false (v : float) : (v <? neg_infinity) = false.
Proof.
  rewrite ltb_spec. change (Prim2SF neg_infinity) with (S754_infinity true).
  unfold SFltb. destruct (Prim2SF v) as [s|s| |s m e];
    try destruct s; reflexivity.
Qed.

Lemma not_below_infinity (x : float) :
  is_nan x = false -> (x <? infinity) = false -> x = infinity.
Proof.
  intros Hnan Hlt. apply Prim2SF_inj.
  assert (Hx : Prim2SF x <> S754_nan).
  { intros E. apply is_nan_spec in E. congruence. }
  rewrite ltb_spec in Hlt.
  change (Prim2SF infinity) with (S754_infinity false) in *.
  unfold SFltb in Hlt.
  destruct (Prim2SF x) as [s|s| |s m e]; try congruence;
    destruct s; try discriminate; reflexivity.
Qed.

Lemma not_above_neg_infinity (x : float) :
  is_nan x = false -> (neg_infinity <? x) = false -> x = neg_infinity.
Proof.
  intros Hnan Hlt. apply Prim2SF_inj.
  assert (Hx : Prim2SF x <> S754_nan).
  { intros E. apply is_nan_spec in E. congruence. }
  rewrite ltb_spec in Hlt.
  change (Prim2SF neg_infinity) with (S754_infinity true) in *.
  unfold SFltb in Hlt.
  destruct (Prim2SF x) as [s|s| |s m e]; try congruence;
    destruct s; try discriminate; reflexivity.
Qed.

(** A series that holds [+inf] has it as maximum, and one that holds
    [-inf] has it as minimum. *)
Lemma series_max_infinity (s : list float) :
  In infinity s -> series_max s = infinity.
Proof.
  intros Hin. unfold series_max.
  assert (Hd : In infinity (dropna s)).
  { apply filter_In. split; [exact Hin|reflexivity]. }
  assert (Hna : forall x, In x (dropna s) -> is_nan x = false).
  { intros x Hx. apply filter_In in Hx. destruct Hx as [_ Hx].
    apply negb_true_iff in Hx. exact Hx. }
  destruct (dropna s) as [|x rest]; [destruct Hd|].
  assert (Hfixed : forall l,
             fold_left (fun acc v => if acc <? v then v else acc) l infinity
             = infinity).
  { induction l as [|v l IH]; [reflexivity|].
    cbn [fold_left]. rewrite ltb_infinity_false. exact IH. }
  assert (Hreach : forall l acc,
             In infinity l -> is_nan acc = false ->
             (forall v, In v l -> is_nan v = false) ->
             fold_left (fun acc v => if acc <? v then v else acc) l acc
             = infinity).
  { induction l as [|v l IH]; intros acc Hl Hacc Hall; [destruct Hl|].
    cbn [fold_left]. destruct Hl as [->|Hl].
    - destruct (acc <? infinity) eqn:E; [apply Hfixed|].
      rewrite (not_below_infinity acc Hacc E). apply Hfixed.
    - apply IH; [exact Hl| |intros w Hw; apply Hall; now right].
      destruct (acc <? v); [apply Hall; now left|exact Hacc]. }
  destruct Hd as [->|Hd]; [apply Hfixed|].
  apply Hreach; [exact Hd|apply Hna; now left|].
  intros v Hv. apply Hna. now right.
Qed.

Lemma series_min_neg_infinity (s : list float) :
  In neg_infinity s -> series_min s = neg_infinity.
Proof.
  intros Hin. unfold series_min.
  assert (Hd : In neg_infinity (dropna s)).
  { apply filter_In. split; [exact Hin|reflexivity]. }
  assert (Hna : forall x, In x (dropna s) -> is_nan x = false).
  { intros x Hx. apply filter_In in Hx. destruct Hx as [_ Hx].
    apply negb_true_iff in Hx. exact Hx. }
  destruct (dropna s) as [|x rest]; [destruct Hd|].
  assert (Hfixed : forall l,
             fold_left (fun acc v => if v <? acc then v else acc) l
                       neg_infinity
             = neg_infinity).
  { induction l as [|v l IH]; [reflexivity|].
    cbn [fold_left]. rewrite ltb_neg_infinity_false. exact IH. }
  assert (Hreach : forall l acc,
             In neg_infinity l -> is_nan acc = false ->
             (forall v, In v l -> is_nan v = false) ->
             fold_left (fun acc v => if v <? acc then v else acc) l acc
             = neg_infinity).
  { induction l as [|v l IH]; intros acc Hl Hacc Hall; [destruct Hl|].
    cbn [fold_left]. destruct Hl as [->|Hl].
    - destruct (neg_infinity <? acc) eqn:E; [apply Hfixed|].
      rewrite (not_above_neg_infinity acc Hacc E). apply Hfixed.
    - apply IH; [exact Hl| |intros w Hw; apply Hall; now right].
      destruct (v <? acc); [apply Hall; now left|exact Hacc]. }
  destruct Hd as [->|Hd]; [apply Hfixed|].
  apply Hreach; [exact Hd|apply Hna; now left|].
  intros v Hv. apply Hna. now right.
Qed.

(** The present values are the values of the present rows. *)
Lemma dropna_column_present (df : DataFrame) (metric : string) :
  dropna (column df metric) = column (present_rows df metric) metric.
Proof.
  unfold dropna, column, present_rows.
  induction df as [|r df IH]; [reflexivity|].
  cbn [map filter]. destruct (notna (cell metric r)); cbn [map];
    rewrite IH; reflexivity.
Qed.

(** The rate of every step of a series is among its rates. *)
Lemma step_rate_In (metric : string) (before after : list Measurement)
    (a b : Measurement) :
  In ((cell metric b - cell metric a) / Z2F ((date b - date a) / 86400))
     (series_div (diffs (column (before ++ a :: b :: after) metric))
                 (day_gaps (map date (before ++ a :: b :: after)))).
Proof.
  induction before as [|r before IH].
  - left. reflexivity.
  - destruct before as [|r' before].
    + right. exact IH.
    + right. exact IH.
Qed.

End ZeroDayGap.

(** C10.  The daily rates divide each change by the whole days since the
    previous measurement, without a guard.  Whenever two consecutive
    present measurements are less than a day apart and the value changes
    between them by a finite amount, the velocity is still reported, with
    the infinite rate in it: for every library the maximum daily change is
    the rounded [+inf] when the value rises, and the minimum the rounded
    [-inf] when it falls.  For three weighings within two hours (80, 81,
    80) the reported average is NaN, the maximum [+inf], the minimum and the
    acceleration [-inf]: none of average, maximum and minimum is a finite
    number. *)
Theorem velocity_zero_day_gap :
  (forall (L : PyLib) (df : DataFrame) (metric : string)
          (before after : list Measurement) (a b : Measurement),
      present_rows df metric = before ++ a :: b :: after ->
      (3 <= notna_count df metric)%nat ->
      ((date b - date a) / 86400 = 0)%Z ->
      let change := cell metric b - cell metric a in
      is_finite change = true ->
      exists v,
        _calculate_change_velocity df metric = Value v
        /\ ((0 <? change) = true ->
            max_daily_change v = np_round infinity 4)
        /\ ((change <? 0) = true ->
            min_daily_change v = np_round neg_infinity 4))
  /\
  (3 <= notna_count same_day_weights "weight_kg")%nat
  /\
  _calculate_change_velocity (L := RefLib.lib) same_day_weights "weight_kg"
  = Value {| avg_daily_change := nan;
             max_daily_change := infinity;
             min_daily_change := neg_infinity;
             acceleration := neg_infinity |}
  /\
  is_finite nan = false /\ is_finite infinity = false
  /\ is_finite neg_infinity = false.
Proof.
  split; [|split; [vm_compute; lia|repeat split; vm_compute; reflexivity]].
  intros L df metric before after a b Hrows Hcount Hgap change Hfin.
  unfold _calculate_change_velocity.
  unfold notna_count in Hcount.
  destruct (Nat.ltb_spec (List.length (dropna (column df metric))) 3);
    [lia|].
  eexists. split; [reflexivity|].
  cbn [max_daily_change min_daily_change].
  rewrite dropna_column_present, Hrows.
  assert (Hne : forall A (x : A) l1 l2, l1 ++ x :: l2 <> [])
    by (intros A x l1 l2; destruct l1; discriminate).
  assert (Hrate :
            In (change / 0)
               (series_div
                  (series_diff (column (before ++ a :: b :: after) metric))
                  (date_diff_days (map date (before ++ a :: b :: after))))).
  { pose proof (step_rate_In metric before after a b) as Hstep.
    rewrite Hgap in Hstep. change (Z2F 0) with 0 in Hstep. fold change in Hstep.
    unfold series_diff, date_diff_days, column.
    destruct (before ++ a :: b :: after) as [|r rows] eqn:E;
      [destruct (Hne _ _ _ _ E)|].
    cbn [map series_div]. right. exact Hstep. }
  split.
  - intros Hpos. f_equal. apply series_max_infinity.
    apply filter_In. split; [|reflexivity].
    rewrite <- (div_zero_positive change Hfin Hpos). exact Hrate.
  - intros Hneg. f_equal. apply series_min_neg_infinity.
    apply filter_In. split; [|reflexivity].
    rewrite <- (div_zero_negative change Hfin Hneg). exact Hrate.
Qed.

(** The second weighing of the day, an hour after the first and a
    kilogram above it. *)
Lemma velocity_zero_day_gap_witness :
  exists v,
    _calculate_change_velocity (L := RefLib.lib) same_day_weights "weight_kg"
    = Value v
    /\ max_daily_change v = infinity.
Proof.
  destruct (proj1 velocity_zero_day_gap RefLib.lib same_day_weights
                  "weight_kg" [] [weighed 7200 80]
                  (weighed 0 80) (weighed 3600 81))
    as [v [Hv [Hmax _]]].
  - reflexivity.
  - vm_compute. lia.
  - reflexivity.
  - vm_compute. reflexivity.
  - exists v. split; [exact Hv|].
    rewrite Hmax; vm_compute; reflexivity.
Defined.

(** The values reported for the three weighings. *)
Example velocity_same_day :
  _calculate_change_velocity (L := RefLib.lib) same_day_weights "weight_kg"
  = Value {| avg_daily_change := nan;
             max_daily_change := infinity;
             min_daily_change := neg_infinity;
             acceleration := neg_infinity |}.
Proof. vm_compute. reflexivity. Qed.

(* ================================================================== *)
(** ** Further properties of the engine *)
(* ================================================================== *)

(** *** The trend window (lines 370-380) *)

Section TrendWindows.

Context {L : PyLib}.

Lemma filter_length_mono {A : Type} (f g : A -> bool) (l : list A) :
  (forall x, f x = true -> g x = true) ->
  (List.length (filter f l) <= List.length (filter g l))%nat.
Proof.
  intros Himp. induction l as [|x l IH]; [reflexivity|].
  cbn [filter]. destruct (f x) eqn:Hf.
  - rewrite (Himp x Hf). cbn [List.length]. lia.
  - destruct (g x); cbn [List.length]; lia.
Qed.

(** The present values of a filtered frame are counted by one filter. *)
Lemma present_in_window_length (keep : Measurement -> bool) (df : DataFrame)
    (metric : string) :
  List.length (dropna (column (filter keep df) metric))
  = List.length (filter (fun r => keep r && notna (cell metric r)) df).
Proof.
  unfold dropna, column.
  induction df as [|r df IH]; [reflexivity|].
  cbn [filter]. destruct (keep r); cbn [andb map filter].
  - destruct (notna (cell metric r)); cbn [List.length]; rewrite IH;
      reflexivity.
  - exact IH.
Qed.

(** X1.  A trend is reported exactly when the window holds at least two
    present values of the metric; the reported number of data points is
    that count, at least 2 and at most the number of rows. *)
Theorem _calculate_trend_sufficient
    (df : DataFrame) (metric : string) (days : Z) :
  let values := dropna (column (trend_window df days) metric) in
  (_calculate_trend df metric days = insufficient_data
   <-> (List.length values < 2)%nat)
  /\
  (forall t,
      _calculate_trend df metric days = trend_result t ->
      tr_data_points t = List.length values
      /\ (2 <= tr_data_points t <= List.length df)%nat
      /\ tr_period_days t = days).
Proof.
  intros values. split.
  - split.
    + intros Hnone.
      destruct (Nat.lt_ge_cases (List.length values) 2) as [Hlt|Hge];
        [exact Hlt|].
      destruct (_calculate_trend_direction df metric days Hge)
        as [t [Ht _]].
      congruence.
    + intros Hlt. unfold _calculate_trend.
      fold (trend_window df days). fold values.
      destruct (List.length (trend_window df days) <? 2)%nat; [reflexivity|].
      destruct (Nat.ltb_spec (List.length values) 2); [reflexivity|lia].
  - intros t Ht.
    destruct (_calculate_trend_result df metric days t Ht) as [Hlen ->].
    cbn [tr_data_points tr_period_days]. subst values.
    repeat split; try lia.
    unfold trend_window. rewrite present_in_window_length.
    apply filter_length_le.
Qed.

(** X2.  The windows nest: when a trend is reported for a window of
    [days1] days, one is reported for every longer window, over at least
    as many data points. *)
Theorem trend_windows_nest
    (df : DataFrame) (metric : string) (days1 days2 : Z) (t1 : Trend) :
  (days1 <= days2)%Z ->
  _calculate_trend df metric days1 = trend_result t1 ->
  exists t2,
    _calculate_trend df metric days2 = trend_result t2
    /\ (tr_data_points t1 <= tr_data_points t2)%nat.
Proof.
  intros Hdays Ht1.
  destruct (_calculate_trend_result df metric days1 t1 Ht1) as [Hlen1 Heq1].
  assert (Hmono :
            (List.length (dropna (column (trend_window df days1) metric))
             <= List.length (dropna (column (trend_window df days2) metric)))%nat).
  { unfold trend_window. rewrite !present_in_window_length.
    apply filter_length_mono. intros r Hr.
    apply andb_true_iff in Hr. destruct Hr as [Hin Hna].
    apply andb_true_iff. split; [|exact Hna].
    apply Z.leb_le. apply Z.leb_le in Hin. lia. }
  destruct (_calculate_trend_direction df metric days2) as [t2 [Ht2 _]];
    [lia|].
  exists t2. split; [exact Ht2|].
  destruct (_calculate_trend_result df metric days2 t2 Ht2) as [_ Heq2].
  rewrite Heq1, Heq2. cbn [tr_data_points]. exact Hmono.
Qed.

End TrendWindows.

(** Of the four daily weights three lie in a window of two days. *)
Lemma _calculate_trend_sufficient_witness :
  exists t,
    _calculate_trend (L := RefLib.lib) four_weights "weight_kg" 2
    = trend_result t
    /\ tr_data_points t = 3%nat.
Proof.
  eexists. split; [reflexivity|].
  apply (proj2 (_calculate_trend_sufficient (L := RefLib.lib)
                  four_weights "weight_kg" 2%Z)).
  reflexivity.
Defined.

(** The trend over two days of the four daily weights extends to a week. *)
Lemma trend_windows_nest_witness :
  exists t2,
    _calculate_trend (L := RefLib.lib) four_weights "weight_kg" 7
    = trend_result t2
    /\ (3 <= tr_data_points t2)%nat.
Proof.
  exact (trend_windows_nest (L := RefLib.lib) four_weights "weight_kg" 2 7
           {| tr_trend := "decreasing"; tr_slope := -1; tr_change := -2;
              tr_percent_change := PyFloat (-2.53); tr_data_points := 3;
              tr_period_days := 2 |}
           ltac:(lia) eq_refl).
Defined.

(** *** The predictor and the staged minima (lines 121-130, 411-416,
        462-468, 484-513) *)

Section Predictor.

Context {L : PyLib}.

Lemma last_skipn {A : Type} (k : nat) (l : list A) (d : A) :
  (k < List.length l)%nat -> last (skipn k l) d = last l d.
Proof.
  revert l. induction k as [|k IH]; intros l Hk; [reflexivity|].
  destruct l as [|x l]; [cbn in Hk; lia|].
  cbn [skipn]. cbn [List.length] in Hk.
  rewrite IH by lia.
  destruct l as [|y l]; [cbn in Hk; lia|reflexivity].
Qed.

Lemma iloc_last_tail (n : nat) (s : list float) :
  (0 < n)%nat -> s <> [] -> iloc_last (tail n s) = iloc_last s.
Proof.
  intros Hn Hs. unfold iloc_last, tail. apply last_skipn.
  destruct s; [congruence|]. cbn [List.length]. lia.
Qed.

(** X3.  A prediction rests on the last thirty present values only: two
    frames with at least five present values that agree on their last
    thirty give the same prediction. *)
Theorem _predict_metric_last_thirty
    (df1 df2 : DataFrame) (metric : string) (days_ahead : Z) :
  (5 <= notna_count df1 metric)%nat ->
  (5 <= notna_count df2 metric)%nat ->
  tail 30 (dropna (column df1 metric)) = tail 30 (dropna (column df2 metric)) ->
  _predict_metric df1 metric days_ahead = _predict_metric df2 metric days_ahead.
Proof.
  unfold notna_count. intros H1 H2 Htail. unfold _predict_metric.
  destruct (Nat.ltb_spec (List.length (dropna (column df1 metric))) 5);
    [lia|].
  destruct (Nat.ltb_spec (List.length (dropna (column df2 metric))) 5);
    [lia|].
  destruct (days_ahead <=? 0)%Z; [reflexivity|].
  assert (Hlast :
            iloc_last (dropna (column df1 metric))
            = iloc_last (dropna (column df2 metric))).
  { rewrite <- (iloc_last_tail 30 (dropna (column df1 metric))),
            <- (iloc_last_tail 30 (dropna (column df2 metric))).
    - rewrite Htail. reflexivity.
    - lia.
    - intros E. rewrite E in H2. cbn in H2. lia.
    - lia.
    - intros E. rewrite E in H1. cbn in H1. lia. }
  rewrite Htail, Hlast. reflexivity.
Qed.

(** The keys of a dictionary built over a list of metrics. *)
Lemma keyed_In {A : Type} (f : string -> A) (metrics : list string)
    (metric : string) (x : A) :
  In (metric, x) (map (fun m => (m, f m)) metrics)
  <-> In metric metrics /\ x = f metric.
Proof.
  rewrite in_map_iff. split.
  - intros [m [[= -> <-] Hm]]. auto.
  - intros [Hm ->]. exists metric. auto.
Qed.

(** X4.  In a trend analysis of pairwise distinct numeric metrics a
    requested metric is analysed exactly when it is a column with at least
    two present values; a metric that is no column is skipped.  For an
    analysed metric the analysis succeeds, the change velocity succeeds
    exactly from three present values on, and the prediction is present
    exactly from five on. *)
Theorem trend_analysis_staged_minima
    (data : list Measurement) (start_date end_date : Z)
    (metrics : list string) (a : TrendAnalysis) :
  NoDup metrics -> numeric_request metrics ->
  trend_analysis_of data start_date end_date metrics = Value a ->
  let df := sort_values data in
  forall metric,
    let analysed :=
      In metric metrics /\ has_column df metric = true
      /\ (2 <= notna_count df metric)%nat in
    (forall x, In (metric, x) (ta_metrics_analysis a) ->
               analysed /\ exists v, x = Value v)
    /\
    (forall x, In (metric, x) (ta_change_velocity a) ->
               analysed
               /\ ((exists v, x = Value v) <-> (3 <= notna_count df metric)%nat))
    /\
    (forall x, In (metric, x) (ta_predictions a) ->
               analysed
               /\ ((exists p, x = Some p) <-> (5 <= notna_count df metric)%nat))
    /\
    (analysed ->
     (exists x, In (metric, x) (ta_metrics_analysis a))
     /\ (exists x, In (metric, x) (ta_change_velocity a))
     /\ (exists x, In (metric, x) (ta_predictions a))).
Proof.
  intros _ _ Ha df metric analysed.
  unfold trend_analysis_of in Ha.
  destruct (List.length data <? 2)%nat; [discriminate|].
  injection Ha as <-.
  cbn [ta_metrics_analysis ta_change_velocity ta_predictions].
  fold df.
  set (chosen := filter (fun metric =>
                           has_column df metric
                           && (1 <? notna_count df metric)%nat) metrics).
  assert (Hchosen : In metric chosen <-> analysed).
  { unfold chosen, analysed. rewrite filter_In, andb_true_iff, Nat.ltb_lt.
    intuition lia. }
  split; [|split; [|split]].
  - intros x Hx. apply keyed_In in Hx. destruct Hx as [Hm ->].
    apply Hchosen in Hm. split; [exact Hm|].
    destruct Hm as [_ [_ Hcount]].
    unfold _analyze_metric_trend. unfold notna_count in Hcount.
    destruct (Nat.ltb_spec (List.length (dropna (column df metric))) 2);
      [lia|].
    eexists. reflexivity.
  - intros x Hx. apply keyed_In in Hx. destruct Hx as [Hm ->].
    apply Hchosen in Hm. split; [exact Hm|].
    unfold _calculate_change_velocity, notna_count.
    destruct (Nat.ltb_spec (List.length (dropna (column df metric))) 3).
    + split; [intros [v Hv]; discriminate|lia].
    + split; [intros _; assumption|intros _; eexists; reflexivity].
  - intros x Hx. apply keyed_In in Hx. destruct Hx as [Hm ->].
    apply Hchosen in Hm. split; [exact Hm|].
    apply (_predict_metric_some df metric 30). lia.
  - intros Hm. apply Hchosen in Hm.
    repeat split; eexists; apply keyed_In; split; try exact Hm; reflexivity.
Qed.

End Predictor.

(** Forty daily weights and their last thirty-two: the same prediction. *)
Lemma _predict_metric_last_thirty_witness :
  _predict_metric (L := RefLib.lib) (weights_from 0 40) "weight_kg" 30
  = _predict_metric (L := RefLib.lib) (weights_from 8 32) "weight_kg" 30.
Proof.
  apply _predict_metric_last_thirty.
  - vm_compute. lia.
  - vm_compute. lia.
  - vm_compute. reflexivity.
Defined.

(** The four daily weights: analysed and given a velocity, but no
    prediction. *)
Lemma trend_analysis_staged_minima_witness :
  exists a,
    trend_analysis_of (L := RefLib.lib) four_weights 0 3 ["weight_kg"]
    = Value a
    /\ exists x, In ("weight_kg", x) (ta_predictions a).
Proof.
  eexists. split; [reflexivity|].
  assert (Hnodup : NoDup ["weight_kg"]).
  { constructor; [intros []|constructor]. }
  assert (Hnumeric : numeric_request ["weight_kg"]).
  { intros m Hm Hnon. cbn in Hm, Hnon. intuition (subst; discriminate). }
  apply (trend_analysis_staged_minima (L := RefLib.lib) four_weights 0 3
           ["weight_kg"] _ Hnodup Hnumeric eq_refl "weight_kg").
  split; [left; reflexivity|].
  split; [reflexivity|]. vm_compute. lia.
Defined.

(** *** The bands of the body-fat insight and of the stored BMI category
        (analytics lines 574-595, data processor lines 88-98) *)

(** X5.  The body-fat bands leave gaps: no body-fat insight is given
    exactly when the percentage lies strictly between 15 and 16, or above
    20 and up to 25, or is NaN. *)
Theorem body_fat_insight_gaps (body_fat : float) :
  body_fat_insight body_fat = []
  <-> is_nan body_fat = true
      \/ ((15 <? body_fat) = true /\ (body_fat <? 16) = true)
      \/ ((20 <? body_fat) = true /\ (body_fat <=? 25) = true).
Proof.
  unfold body_fat_insight, gtb. split.
  - destruct (body_fat <? 10) eqn:E1; [discriminate|].
    destruct ((10 <=? body_fat) && (body_fat <=? 15)) eqn:E2; [discriminate|].
    destruct ((16 <=? body_fat) && (body_fat <=? 20)) eqn:E3; [discriminate|].
    destruct (25 <? body_fat) eqn:E4; [discriminate|].
    intros _.
    destruct (is_nan body_fat) eqn:N; [left; reflexivity|right].
    rewrite (ltb_false_leb body_fat 10 N eq_refl E1) in E2.
    cbn [andb] in E2.
    pose proof (leb_false_ltb body_fat 15 N eq_refl E2) as H15.
    destruct (body_fat <? 16) eqn:E5; [left; split; [exact H15|reflexivity]|].
    right.
    rewrite (ltb_false_leb body_fat 16 N eq_refl E5) in E3.
    cbn [andb] in E3.
    split.
    + apply (leb_false_ltb body_fat 20 N eq_refl E3).
    + apply (ltb_false_leb 25 body_fat eq_refl N E4).
  - intros [N|[[Hlo Hhi]|[Hlo Hhi]]].
    + rewrite (nan_ltb_l _ _ N), (nan_ltb_r _ _ N), !(nan_leb_r _ _ N).
      reflexivity.
    + rewrite (ltb_between_false 15 10 body_fat eq_refl Hlo).
      rewrite (ltb_leb_false _ _ Hlo), andb_false_r.
      rewrite (ltb_leb_false _ _ Hhi). cbn [andb].
      destruct (25 <? body_fat) eqn:E; [|reflexivity].
      pose proof (ltb_trans _ _ _ E Hhi) as Habs. discriminate Habs.
    + rewrite (ltb_between_false 20 10 body_fat eq_refl Hlo).
      destruct (body_fat <=? 15) eqn:E15.
      { pose proof (ltb_leb_trans _ _ _ Hlo E15) as Habs. discriminate Habs. }
      rewrite andb_false_r.
      rewrite (ltb_leb_false _ _ Hlo), andb_false_r.
      rewrite (leb_ltb_false _ _ Hhi). reflexivity.
Qed.

Import DataProcessorQueries.

(** X6.  The category stored with a record and the insight of the engine
    name the same band for every BMI; a BMI that is NaN (an empty cell of
    the sheet) is stored as "obese". *)
Theorem bmi_category_matches_insight (bmi : float) :
  ((bmi_category_of bmi = "underweight"
    /\ bmi_insight bmi
       = "Your BMI indicates you're underweight. Consider consulting a nutritionist.")
   \/ (bmi_category_of bmi = "normal"
       /\ bmi_insight bmi
          = "Your BMI is in the healthy range. Great job maintaining a healthy weight!")
   \/ (bmi_category_of bmi = "overweight"
       /\ bmi_insight bmi
          = "Your BMI indicates you're overweight. Focus on creating a caloric deficit.")
   \/ (bmi_category_of bmi = "obese"
       /\ bmi_insight bmi
          = "Your BMI indicates obesity. Consider consulting a healthcare professional."))
  /\ (bmi_category_of bmi = "obese"
      <-> is_nan bmi = true \/ (30 <=? bmi) = true).
Proof.
  unfold bmi_category_of, bmi_insight. split.
  - destruct (bmi <? 18.5) eqn:E1; [left; split; reflexivity|].
    destruct (bmi <? 25) eqn:E2.
    { right; left.
      rewrite (ltb_false_leb bmi 18.5 (ltb_not_nan_l _ _ E2) eq_refl E1).
      split; reflexivity. }
    destruct (bmi <? 30) eqn:E3.
    { right; right; left.
      pose proof (ltb_not_nan_l _ _ E3) as N.
      rewrite (ltb_false_leb bmi 25 N eq_refl E2), andb_false_r.
      split; reflexivity. }
    right; right; right. rewrite !andb_false_r. split; reflexivity.
  - destruct (bmi <? 18.5) eqn:E1.
    { split; [discriminate|].
      intros [N|H30].
      - rewrite (nan_ltb_l _ _ N) in E1. discriminate.
      - pose proof (leb_ltb_trans _ _ _ H30 E1) as Habs. discriminate Habs. }
    destruct (bmi <? 25) eqn:E2.
    { split; [discriminate|].
      intros [N|H30].
      - rewrite (nan_ltb_l _ _ N) in E2. discriminate.
      - pose proof (leb_ltb_trans _ _ _ H30 E2) as Habs. discriminate Habs. }
    destruct (bmi <? 30) eqn:E3.
    { split; [discriminate|].
      intros [N|H30].
      - rewrite (nan_ltb_l _ _ N) in E3. discriminate.
      - rewrite (leb_ltb_false _ _ H30) in E3. discriminate. }
    split; [|reflexivity]. intros _.
    destruct (is_nan bmi) eqn:N; [left; reflexivity|right].
    apply (ltb_false_leb bmi 30 N eq_refl E3).
Qed.

(** *** Derived metrics (data processor lines 71-112) *)

Section DerivedMetrics.

Context {L : PyLib}.

Lemma truthy_cell (key : string) (record : Measurement) :
  truthy (lookup key (fields record)) = true ->
  (cell key record =? 0) = false.
Proof.
  unfold truthy, cell, neb.
  destruct (lookup key (fields record)); [|discriminate].
  intros H. apply negb_true_iff in H. exact H.
Qed.

(** X7.  The guards of the derived metrics make their exception path
    unreachable: a weight or muscle share that is missing or zero leaves
    the ratio out and nothing else, so the BMI category and the fitness
    score are always those of the record. *)
Theorem derived_metrics_keys (record : Measurement) :
  let derived := _calculate_derived_metrics record in
  let nonzero key := truthy (lookup key (fields record)) in
  muscle_to_weight_ratio derived
  = (if nonzero "weight_kg" && nonzero "muscle_mass_kg"
     then Some (py_round (cell "muscle_mass_kg" record
                          / cell "weight_kg" record * 100) 2)
     else None)
  /\ fat_muscle_ratio derived
     = (if nonzero "body_fat_percent" && nonzero "skeletal_muscle_percent"
        then Some (py_round (cell "body_fat_percent" record
                             / cell "skeletal_muscle_percent" record) 2)
        else None)
  /\ bmi_category derived
     = (if nonzero "bmi" then Some (bmi_category_of (cell "bmi" record))
        else None)
  /\ (fitness_score derived = None
      <-> has_key "skeletal_muscle_percent" record = false
          \/ has_key "body_fat_percent" record = false
          \/ has_key "body_water_percent" record = false).
Proof.
  cbv zeta. unfold _calculate_derived_metrics.
  assert (Hratio :
            muscle_to_weight_step record
            = Some (if truthy (lookup "weight_kg" (fields record))
                       && truthy (lookup "muscle_mass_kg" (fields record))
                    then Some (py_round (cell "muscle_mass_kg" record
                                         / cell "weight_kg" record * 100) 2)
                    else None)).
  { unfold muscle_to_weight_step.
    destruct (truthy (lookup "weight_kg" (fields record))) eqn:Hw;
      [|reflexivity].
    destruct (truthy (lookup "muscle_mass_kg" (fields record)));
      [|reflexivity].
    cbn [andb]. unfold truediv. rewrite (truthy_cell _ _ Hw). reflexivity. }
  assert (Hfat :
            fat_muscle_step record
            = Some (if truthy (lookup "body_fat_percent" (fields record))
                       && truthy (lookup "skeletal_muscle_percent"
                                         (fields record))
                    then Some (py_round (cell "body_fat_percent" record
                                         / cell "skeletal_muscle_percent"
                                                record) 2)
                    else None)).
  { unfold fat_muscle_step.
    destruct (truthy (lookup "body_fat_percent" (fields record)));
      [|reflexivity].
    destruct (truthy (lookup "skeletal_muscle_percent" (fields record)))
      eqn:Hs; [|reflexivity].
    cbn [andb]. unfold truediv. rewrite (truthy_cell _ _ Hs). reflexivity. }
  rewrite Hratio, Hfat.
  cbn [muscle_to_weight_ratio fat_muscle_ratio bmi_category fitness_score].
  repeat split.
  - unfold fitness_score_step.
    destruct (has_key "skeletal_muscle_percent" record); [|auto].
    destruct (has_key "body_fat_percent" record); [|auto].
    destruct (has_key "body_water_percent" record); [|auto].
    discriminate.
  - unfold fitness_score_step.
    intros [ -> | [ -> | -> ] ]; rewrite ?andb_false_r; reflexivity.
Qed.

End DerivedMetrics.

(** *** Goal assessment: the order of the checks (analytics lines 233-246) *)

Section GoalOutcomes.

Context {L : PyLib}.

Lemma filter_all {A : Type} (f : A -> bool) (l : list A) :
  (forall x, In x l -> f x = true) -> filter f l = l.
Proof.
  induction l as [|a l IH]; intros H; [reflexivity|].
  cbn [filter]. rewrite (H a (or_introl eq_refl)). f_equal.
  apply IH. intros x Hx. apply H. now right.
Qed.

(** Without dates the read returns the first [limit] records of the file. *)
Lemma get_body_composition_data_all (store : Store) (n : nat) :
  get_body_composition_data store None None (Some (S n))
  = firstn (S n) store.
Proof.
  unfold get_body_composition_data. rewrite filter_all; [reflexivity|].
  intros x _. reflexivity.
Qed.

(** X8.  The checks of a goal assessment are made in a fixed order: an
    empty store is reported first, then a first record without a weight,
    then a target date less than a whole day after that record.  An
    assessment always has at least one day remaining, its current weight is
    that of the first record of the store, its trend is read off the first
    thirty records, and its recommendation is the text of its feasibility
    label. *)
Theorem check_goal_progress_outcomes
    (store : Store) (target : float) (target_date : Z) :
  match check_goal_progress store target target_date with
  | Error msg =>
      (store = [] /\ msg = "No measurement data available")
      \/ (exists latest rest,
             store = latest :: rest
             /\ lookup "weight_kg" (fields latest) = None
             /\ msg = "Error checking goal progress: 'weight_kg'")
      \/ (exists latest rest weight,
             store = latest :: rest
             /\ lookup "weight_kg" (fields latest) = Some weight
             /\ (86400 * target_date - date latest < 86400)%Z
             /\ msg = "Target date must be in the future")
  | Value a =>
      exists latest rest,
        store = latest :: rest
        /\ lookup "weight_kg" (fields latest) = Some (current_weight a)
        /\ target_weight a = target
        /\ (1 <= days_remaining a)%Z
        /\ (86400 * days_remaining a <= 86400 * target_date - date latest
            < 86400 * (days_remaining a + 1))%Z
        /\ current_trend a
           = _calculate_trend (sort_values (firstn 30 store)) "weight_kg" 30
        /\ ((feasibility a = "aggressive"
             /\ recommendation a
                = "This goal requires aggressive changes. Consider extending timeline or consulting a professional.")
            \/ (feasibility a = "challenging"
                /\ recommendation a
                   = "This goal is challenging but achievable with consistent effort and proper planning.")
            \/ (feasibility a = "conservative"
                /\ recommendation a
                   = "This goal is very achievable. Stay consistent with your current approach.")
            \/ (feasibility a = "realistic"
                /\ recommendation a
                   = "This goal appears realistic. Monitor progress and adjust as needed."))
  end.
Proof.
  destruct store as [|latest rest].
  - left. split; reflexivity.
  - destruct (lookup "weight_kg" (fields latest)) as [weight|] eqn:Hw.
    + rewrite (check_goal_progress_unfold latest rest weight target
                 target_date Hw).
      cbv zeta.
      pose proof (Z.div_mod (86400 * target_date - date latest) 86400
                    ltac:(lia)) as Hdm.
      pose proof (Z.mod_pos_bound (86400 * target_date - date latest) 86400
                    ltac:(lia)) as Hmod.
      destruct (Z.leb_spec
                  ((86400 * target_date - date latest) / 86400) 0)
        as [Hle|Hgt].
      * right; right. exists latest, rest, weight.
        repeat split; try assumption. lia.
      * exists latest, rest.
        cbn [current_weight target_weight days_remaining current_trend
             feasibility recommendation].
        split; [reflexivity|]. split; [exact Hw|]. split; [reflexivity|].
        split; [lia|]. split; [lia|].
        split; [rewrite get_body_composition_data_all; reflexivity|].
        unfold assess_feasibility.
        destruct (gtb _ 1.0); [left; split; reflexivity|].
        destruct (gtb _ 0.5); [right; left; split; reflexivity|].
        destruct (_ <? 0.2);
          [right; right; left|right; right; right]; split; reflexivity.
    + unfold check_goal_progress, goal_progress_of.
      rewrite latest_of_store, Hw.
      right; left. exists latest, rest. repeat split. exact Hw.
Qed.

End GoalOutcomes.

(** *** The oldest and the newest record of a frame *)

Section FrameEnds.

Context {L : PyLib}.

Lemma last_In_cons {A : Type} (a : A) (l : list A) (d : A) :
  In (last (a :: l) d) (a :: l).
Proof.
  revert a. induction l as [|b l IH]; intros a; [now left|].
  right. apply (IH b).
Qed.

Lemma last_map_cell {A B : Type} (f : A -> B) (l : list A) (d1 : B) (d2 : A) :
  l <> [] -> last (map f l) d1 = f (last l d2).
Proof.
  induction l as [|a l IH]; [congruence|]. intros _.
  destruct l as [|b l]; [reflexivity|].
  change (last (map f (b :: l)) d1 = f (last (b :: l) d2)).
  apply IH. discriminate.
Qed.

Lemma sorted_last_newest (l : list Measurement) (d : Measurement) :
  StronglySorted (fun a b => is_true (DateOrder.leb a b)) l ->
  forall r, In r l -> (date r <= date (last l d))%Z.
Proof.
  induction l as [|a l IH]; intros Hs r Hr; [destruct Hr|].
  apply StronglySorted_inv in Hs. destruct Hs as [Hl Ha].
  destruct l as [|b l].
  - destruct Hr as [->|[]]. cbn. lia.
  - change (last (a :: b :: l) d) with (last (b :: l) d).
    destruct Hr as [->|Hr].
    + rewrite Forall_forall in Ha.
      pose proof (Ha _ (last_In_cons b l d)) as H.
      unfold DateOrder.leb, is_true in H. rewrite Z.leb_le in H. exact H.
    + apply IH; assumption.
Qed.

Lemma sorted_first_oldest (a : Measurement) (l : list Measurement) :
  StronglySorted (fun a b => is_true (DateOrder.leb a b)) (a :: l) ->
  forall r, In r (a :: l) -> (date a <= date r)%Z.
Proof.
  intros Hs r [->|Hr]; [lia|].
  apply StronglySorted_inv in Hs. destruct Hs as [_ Ha].
  rewrite Forall_forall in Ha. pose proof (Ha _ Hr) as H.
  unfold DateOrder.leb, is_true in H. rewrite Z.leb_le in H. exact H.
Qed.

Lemma date_max_fold (l : list Measurement) (acc : Z) :
  (acc <= fold_left (fun acc r' => Z.max acc (date r')) l acc)%Z
  /\ (forall r, In r l ->
        (date r <= fold_left (fun acc r' => Z.max acc (date r')) l acc)%Z)
  /\ (fold_left (fun acc r' => Z.max acc (date r')) l acc = acc
      \/ exists r, In r l
           /\ fold_left (fun acc r' => Z.max acc (date r')) l acc = date r).
Proof.
  revert acc. induction l as [|a l IH]; intros acc.
  - cbn. repeat split; [lia|intros r []|now left].
  - cbn [fold_left]. destruct (IH (Z.max acc (date a))) as [H1 [H2 H3]].
    repeat split.
    + lia.
    + intros r [->|Hr]; [lia|apply H2, Hr].
    + destruct H3 as [H3|[r [Hr H3]]].
      * destruct (Z.max_spec acc (date a)) as [[_ E]|[_ E]].
        -- right. exists a. split; [now left|]. rewrite H3, E. reflexivity.
        -- left. rewrite H3, E. reflexivity.
      * right. exists r. split; [now right|exact H3].
Qed.

(** [date_max] is the timestamp of a newest row. *)
Lemma date_max_newest (df : DataFrame) (newest : Measurement) :
  In newest df -> (forall r, In r df -> (date r <= date newest)%Z) ->
  date_max df = date newest.
Proof.
  intros Hin Hmax. destruct df as [|a l]; [destruct Hin|].
  unfold date_max.
  destruct (date_max_fold l (date a)) as [H1 [H2 H3]].
  assert (Hle : (date newest
                 <= fold_left (fun acc r' => Z.max acc (date r')) l (date a))%Z).
  { destruct Hin as [<-|Hin]; [exact H1|apply H2, Hin]. }
  destruct H3 as [H3|[r [Hr H3]]].
  - pose proof (Hmax a (or_introl eq_refl)). lia.
  - pose proof (Hmax r (or_intror Hr)). lia.
Qed.

(** The newest row of a non-empty series, as the sorted frame ends. *)
Lemma sort_values_newest (data : list Measurement) (d : Measurement) :
  data <> [] ->
  In (last (sort_values data) d) data
  /\ (forall r, In r data -> (date r <= date (last (sort_values data) d))%Z).
Proof.
  intros Hne.
  assert (Hsne : sort_values data <> []).
  { intros E. pose proof (sort_values_perm data) as Hp. rewrite E in Hp.
    apply Permutation_sym, Permutation_nil in Hp. contradiction. }
  split.
  - apply (Permutation_in _ (Permutation_sym (sort_values_perm data))).
    destruct (sort_values data) as [|a l]; [congruence|].
    apply last_In_cons.
  - intros r Hr. apply sorted_last_newest; [apply sort_values_sorted|].
    apply (Permutation_in _ (sort_values_perm data)), Hr.
Qed.

(** X9.  The "current" value of every metric of the summary, and the end of
    its date range, are those of a record with the newest timestamp among
    the records read, wherever that record stands in the file. *)
Theorem metrics_summary_current_is_newest
    (data : list Measurement) (s : MetricsSummary) :
  metrics_summary_of data = Value s ->
  exists newest,
    In newest data
    /\ (forall r, In r data -> (date r <= date newest)%Z)
    /\ dr_end (date_range (overview s)) = (date newest / 86400)%Z
    /\ (forall metric stats,
          In (metric, stats) (current_stats s) ->
          cs_current stats = np_round (cell metric newest) 2)
    /\ total_measurements (overview s) = List.length data.
Proof.
  intros Hs. destruct data as [|first_record rest]; [discriminate|].
  set (data := first_record :: rest) in *.
  assert (Hne : data <> []) by discriminate.
  destruct (sort_values_newest data first_record Hne) as [Hin Hmax].
  assert (Hsne : sort_values data <> []).
  { intros E. pose proof (sort_values_perm data) as Hp. rewrite E in Hp.
    apply Permutation_sym, Permutation_nil in Hp. contradiction. }
  exists (last (sort_values data) first_record).
  unfold metrics_summary_of in Hs. subst data. injection Hs as <-.
  cbn [overview date_range dr_end current_stats total_measurements].
  split; [exact Hin|]. split; [exact Hmax|]. split; [|split].
  - f_equal. apply date_max_newest.
    + apply (Permutation_in _ (sort_values_perm _)), Hin.
    + intros r Hr. apply Hmax.
      apply (Permutation_in _ (Permutation_sym (sort_values_perm _))), Hr.
  - intros metric stats Hstats. apply in_map_iff in Hstats.
    destruct Hstats as [m [[= <- <-] _]]. cbn [cs_current].
    unfold iloc_last, column.
    rewrite (last_map_cell (cell m) _ nan first_record Hsne). reflexivity.
  - reflexivity.
Qed.

(** X10.  A progress report opens with the statistics of an oldest record
    of the period and closes with those of a newest one, counts between one
    and a hundred measurements, and lists exactly the photos it counts:
    none when photos are not asked for. *)
Theorem generate_progress_report_summary {Photo : Type}
    (store : Store) (get_photos : Z -> Z -> list Photo) (now : Z)
    (start_date end_date : Z) (include_photos : bool)
    (report : ProgressReport Photo) :
  generate_progress_report store get_photos now start_date end_date
                           include_photos = Value report ->
  let data :=
    get_body_composition_data store (Some start_date) (Some end_date)
                              (Some 100%nat) in
  (1 <= measurements_count _ (summary _ report) <= 100)%nat
  /\ photos_count _ (summary _ report)
     = List.length (photos_timeline _ report)
  /\ photos_timeline _ report
     = (if include_photos then get_photos start_date end_date else [])
  /\ exists oldest newest,
       In oldest data /\ In newest data
       /\ (forall r, In r data -> (date oldest <= date r <= date newest)%Z)
       /\ start_stats _ (summary _ report)
          = Some (_get_period_stats (sort_values data) oldest)
       /\ end_stats _ (summary _ report)
          = Some (_get_period_stats (sort_values data) newest).
Proof.
  intros Hrep data. unfold generate_progress_report in Hrep. fold data in Hrep.
  assert (Hlen : (List.length data <= 100)%nat).
  { unfold data, get_body_composition_data. apply firstn_le_length. }
  destruct data as [|first_record rest] eqn:Hdata; [discriminate|].
  rewrite <- Hdata in *.
  assert (Hne : data <> []) by (rewrite Hdata; discriminate).
  unfold progress_report_of in Hrep. rewrite Hdata in Hrep.
  rewrite <- Hdata in Hrep. injection Hrep as <-.
  cbn [summary measurements_count photos_count photos_timeline start_stats
       end_stats].
  split; [rewrite Hdata in *; cbn [List.length] in *; lia|].
  split; [destruct include_photos; reflexivity|].
  split; [destruct include_photos; reflexivity|].
  pose proof (sort_values_perm data) as Hperm.
  pose proof (sort_values_sorted data) as Hsorted.
  destruct (sort_values_newest data first_record Hne) as [Hin Hmax].
  destruct (sort_values data) as [|oldest others] eqn:Hsort.
  { apply Permutation_sym, Permutation_nil in Hperm. contradiction. }
  exists oldest, (last (oldest :: others) first_record).
  split.
  { apply (Permutation_in _ (Permutation_sym Hperm)). now left. }
  split; [exact Hin|].
  split.
  { intros r Hr. split; [|apply Hmax, Hr].
    apply (sorted_first_oldest oldest others Hsorted).
    apply (Permutation_in _ Hperm), Hr. }
  split; [reflexivity|].
  cbn [option_map]. f_equal.
  destruct (rev (oldest :: others)) as [|x xs] eqn:Hrev.
  { apply (f_equal (@rev _)) in Hrev. rewrite rev_involutive in Hrev.
    discriminate. }
  cbn [hd_error option_map]. f_equal. f_equal.
  apply (f_equal (@rev _)) in Hrev. rewrite rev_involutive in Hrev.
  rewrite Hrev. cbn [rev]. rewrite last_last. reflexivity.
Qed.

End FrameEnds.

Lemma metrics_summary_current_is_newest_witness :
  exists s,
    metrics_summary_of (L := RefLib.lib) four_weights = Value s
    /\ exists newest,
         In newest four_weights
         /\ dr_end (date_range (overview s)) = (date newest / 86400)%Z.
Proof.
  eexists. split; [reflexivity|].
  destruct (metrics_summary_current_is_newest (L := RefLib.lib)
              four_weights _ eq_refl)
    as [newest [Hin [_ [Hend _]]]].
  exists newest. split; [exact Hin|exact Hend].
Defined.

Lemma generate_progress_report_summary_witness :
  exists report,
    generate_progress_report (L := RefLib.lib) (Photo := nat)
      four_weights (fun _ _ => [7%nat]) 0 0 5 true = Value report
    /\ photos_count _ (summary _ report) = 1%nat.
Proof.
  eexists. split; [reflexivity|].
  destruct (generate_progress_report_summary (L := RefLib.lib)
              four_weights (fun _ _ => [7%nat]) 0 0 5 true _ eq_refl)
    as [_ [Hcount _]].
  exact Hcount.
Defined.

(** *** Trends are anchored at the newest row (lines 372-373) *)

Section TrendAnchor.

Context {L : PyLib}.

Lemma column_shift_dates (seconds : Z) (df : DataFrame) (metric : string) :
  column (shift_dates seconds df) metric = column df metric.
Proof.
  unfold column, shift_dates. rewrite map_map. reflexivity.
Qed.

Lemma date_max_shift_fold (seconds : Z) (l : list Measurement) (acc : Z) :
  fold_left (fun acc r' => Z.max acc (date r')) (shift_dates seconds l)
            (acc + seconds)%Z
  = (fold_left (fun acc r' => Z.max acc (date r')) l acc + seconds)%Z.
Proof.
  revert acc. induction l as [|a l IH]; intros acc; [reflexivity|].
  cbn [shift_dates map fold_left date].
  rewrite Z.add_max_distr_r. apply IH.
Qed.

Lemma filter_shift_dates (seconds cutoff : Z) (l : list Measurement) :
  filter (fun r => (cutoff + seconds <=? date r)%Z) (shift_dates seconds l)
  = shift_dates seconds (filter (fun r => (cutoff <=? date r)%Z) l).
Proof.
  induction l as [|a l IH]; [reflexivity|].
  cbn [shift_dates map filter date].
  replace (cutoff + seconds <=? date a + seconds)%Z
    with (cutoff <=? date a)%Z
    by (destruct (Z.leb_spec cutoff (date a)),
                 (Z.leb_spec (cutoff + seconds) (date a + seconds));
        try reflexivity; lia).
  destruct (cutoff <=? date a)%Z; cbn [map]; [f_equal|]; exact IH.
Qed.

(** X11.  A trend looks back from the newest row of the frame, not from the
    clock: moving every timestamp by the same amount changes nothing. *)
Theorem _calculate_trend_anchored
    (df : DataFrame) (metric : string) (days seconds : Z) :
  _calculate_trend (shift_dates seconds df) metric days
  = _calculate_trend df metric days.
Proof.
  destruct df as [|a l]; [reflexivity|].
  unfold _calculate_trend.
  assert (Hmax : date_max (shift_dates seconds (a :: l))
                 = (date_max (a :: l) + seconds)%Z).
  { unfold date_max. cbn [shift_dates map date].
    apply date_max_shift_fold. }
  rewrite Hmax.
  replace (date_max (a :: l) + seconds - 86400 * days)%Z
    with (date_max (a :: l) - 86400 * days + seconds)%Z by lia.
  rewrite filter_shift_dates, column_shift_dates.
  unfold shift_dates at 1. rewrite length_map. reflexivity.
Qed.

End TrendAnchor.

(** *** Predictions read from the store (lines 190-224) *)

Section StorePredictions.

Context {L : PyLib}.

(** X12.  Predictions are refused exactly when the store holds fewer than
    ten records; otherwise they rest on its first ninety records at most,
    name only the four predicted metrics, and are empty, not an error, for
    a horizon that is not positive. *)
Theorem get_progress_predictions_store (store : Store) (days_ahead : Z) :
  match get_progress_predictions store days_ahead with
  | Error msg =>
      (List.length store < 10)%nat
      /\ msg = "Insufficient data for predictions"
  | Value p =>
      (10 <= List.length store)%nat
      /\ base_data_points p = Nat.min 90 (List.length store)
      /\ prediction_period p = days_ahead
      /\ (forall metric x,
            In (metric, x) (predictions p) -> In metric metrics_to_predict)
      /\ ((days_ahead <= 0)%Z -> predictions p = [])
  end.
Proof.
  unfold get_progress_predictions.
  rewrite get_body_composition_data_all.
  unfold progress_predictions_of.
  rewrite length_firstn.
  destruct (Nat.ltb_spec (Nat.min 90 (List.length store)) 10) as [Hlt|Hge].
  - split; [lia|reflexivity].
  - cbn [base_data_points prediction_period predictions].
    split; [lia|]. split; [reflexivity|]. split; [reflexivity|]. split.
    + intros metric x Hx. unfold batch_predictions in Hx.
      apply in_flat_map in Hx. destruct Hx as [m [Hm Hx]].
      destruct (has_column _ m && _); [|destruct Hx].
      destruct (_predict_metric _ m days_ahead); [|destruct Hx].
      destruct Hx as [[= <- _]|[]]. exact Hm.
    + intros Hdays. unfold batch_predictions.
      assert (Hnone : forall df metric,
                 _predict_metric df metric days_ahead = None).
      { intros df metric. unfold _predict_metric.
        destruct (_ <? 5)%nat; [reflexivity|].
        destruct (Z.leb_spec days_ahead 0); [reflexivity|lia]. }
      cbn [flat_map metrics_to_predict]. rewrite !Hnone.
      repeat match goal with
             | |- context [if ?c then _ else _] => destruct c
             end; reflexivity.
Qed.

End StorePredictions.

(** *** The pairs of a correlation table (lines 444-460) *)

Section CorrelationPairs.

Context {L : PyLib}.

Lemma index_pairs_from_length (n k : nat) :
  (k <= n)%nat ->
  (2 * List.length
         (flat_map (fun i => map (fun j => (i, j)) (seq (S i) (n - S i)))
                   (seq (n - k) k))
   = k * (k - 1))%nat.
Proof.
  induction k as [|k IH]; intros Hk; [reflexivity|].
  cbn [seq flat_map]. rewrite length_app, length_map, length_seq.
  replace (S (n - S k)) with (n - k)%nat by lia.
  specialize (IH ltac:(lia)).
  replace (n - (n - k))%nat with k by lia.
  nia.
Qed.

Lemma index_pairs_length (n : nat) :
  (2 * List.length (index_pairs n) = n * (n - 1))%nat.
Proof.
  unfold index_pairs.
  pose proof (index_pairs_from_length n n (le_n n)) as H.
  rewrite Nat.sub_diag in H. exact H.
Qed.

Lemma NoDup_flat_map_disjoint {A B : Type} (f : A -> list B) (l : list A) :
  NoDup l ->
  (forall x, In x l -> NoDup (f x)) ->
  (forall x y z, In x l -> In y l -> In z (f x) -> In z (f y) -> x = y) ->
  NoDup (flat_map f l).
Proof.
  induction 1 as [|a l Ha Hl IH]; intros Hf Hdis; [constructor|].
  cbn [flat_map]. apply NoDup_app.
  - apply Hf. now left.
  - apply IH.
    + intros x Hx. apply Hf. now right.
    + intros x y z Hx Hy. apply Hdis; now right.
  - intros z Hz Hz'. apply in_flat_map in Hz'. destruct Hz' as [y [Hy Hzy]].
    apply Ha.
    rewrite (Hdis a y z (or_introl eq_refl) (or_intror Hy) Hz Hzy).
    exact Hy.
Qed.

Lemma index_pairs_NoDup (n : nat) : NoDup (index_pairs n).
Proof.
  unfold index_pairs. apply NoDup_flat_map_disjoint.
  - apply seq_NoDup.
  - intros i _. apply NoDup_map_NoDup_ForallPairs; [|apply seq_NoDup].
    intros j j' _ _ [= ->]. reflexivity.
  - intros i i' [a b] _ _ Hz Hz'.
    apply in_map_iff in Hz, Hz'.
    destruct Hz as [j [[= <- _] _]]. destruct Hz' as [j' [[= <- _] _]].
    reflexivity.
Qed.

(** The key of a pair of the nine metrics names the pair. *)
Lemma pair_key_inj (a b c d : string) :
  In a numeric_metrics -> In b numeric_metrics ->
  In c numeric_metrics -> In d numeric_metrics ->
  (a ++ "_vs_" ++ b)%string = (c ++ "_vs_" ++ d)%string ->
  a = c /\ b = d.
Proof.
  assert (H : forallb (fun a => forallb (fun b => forallb (fun c =>
              forallb (fun d =>
                implb (String.eqb (a ++ "_vs_" ++ b) (c ++ "_vs_" ++ d))
                      (String.eqb a c && String.eqb b d))
              numeric_metrics) numeric_metrics) numeric_metrics)
            numeric_metrics = true) by (vm_compute; reflexivity).
  intros Ha Hb Hc Hd Heq.
  rewrite forallb_forall in H. specialize (H a Ha).
  rewrite forallb_forall in H. specialize (H b Hb).
  rewrite forallb_forall in H. specialize (H c Hc).
  rewrite forallb_forall in H. specialize (H d Hd).
  rewrite Heq, String.eqb_refl in H. cbn [implb] in H.
  apply andb_true_iff in H. destruct H as [H1 H2].
  apply String.eqb_eq in H1, H2. auto.
Qed.

(** X13.  For a request of pairwise distinct numeric metrics the
    correlation table of a trend analysis needs two of them to be columns,
    and is then filled by one write for each unordered pair of them:
    n(n-1)/2 writes for n columns.  When the request names metrics of the
    engine's nine, the keys written are pairwise distinct, so the table has
    that many entries. *)
Theorem _calculate_correlations_pairs (df : DataFrame) (metrics : list string) :
  NoDup metrics -> numeric_request metrics ->
  let n := List.length (filter (has_column df) metrics) in
  match _calculate_correlations df metrics with
  | Error msg =>
      (n < 2)%nat /\ msg = "Need at least 2 metrics for correlation"
  | Value entries =>
      (2 <= n)%nat /\ (2 * List.length entries = n * (n - 1))%nat
      /\ (incl metrics numeric_metrics -> NoDup (map fst entries))
  end.
Proof.
  intros Hnodup _. cbv zeta. unfold _calculate_correlations.
  set (available := filter (has_column df) metrics).
  destruct (Nat.ltb_spec (List.length available) 2) as [Hlt|Hge].
  - split; [exact Hlt|reflexivity].
  - split; [exact Hge|]. split.
    + rewrite length_map. apply index_pairs_length.
    + intros Hincl. rewrite map_map. cbn [fst].
      assert (Hav : NoDup available) by (apply NoDup_filter, Hnodup).
      assert (Hin : forall i, (i < List.length available)%nat ->
                              In (nth i available "") numeric_metrics).
      { intros i Hi. apply Hincl.
        apply (proj1 (filter_In (has_column df) _ metrics)).
        apply nth_In, Hi. }
      apply NoDup_map_NoDup_ForallPairs; [|apply index_pairs_NoDup].
      intros [i j] [i' j'] Hij Hij' Hkey.
      apply index_pairs_In in Hij, Hij'. cbn [fst snd] in Hkey.
      destruct (pair_key_inj _ _ _ _ (Hin i ltac:(lia)) (Hin j ltac:(lia))
                  (Hin i' ltac:(lia)) (Hin j' ltac:(lia)) Hkey)
        as [Hi Hj].
      apply (proj1 (NoDup_nth available "") Hav) in Hi; [|lia|lia].
      apply (proj1 (NoDup_nth available "") Hav) in Hj; [|lia|lia].
      subst. reflexivity.
Qed.

End CorrelationPairs.

(** Weight and BMI of the four weighings: one pair, one entry. *)
Lemma _calculate_correlations_pairs_witness :
  exists entries,
    _calculate_correlations (L := RefLib.lib) weight_with_bmi
                            ["weight_kg"; "bmi"]
    = Value entries
    /\ List.length entries = 1%nat.
Proof.
  eexists. split; [reflexivity|].
  pose proof (_calculate_correlations_pairs (L := RefLib.lib) weight_with_bmi
                ["weight_kg"; "bmi"]) as H.
  cbv zeta in H.
  assert (Hnodup : NoDup ["weight_kg"; "bmi"]).
  { repeat (constructor; [cbn; intuition discriminate|]). constructor. }
  assert (Hnum : numeric_request ["weight_kg"; "bmi"]).
  { intros m Hm Hnon. cbn in Hm, Hnon.
    intuition (subst; discriminate). }
  specialize (H Hnodup Hnum).
  destruct H as [_ [Hlen _]]. cbn in Hlen. cbn. lia.
Defined.

(** *** The saved store (data processor lines 53-66, 122-172) *)

Section SavedStore.

Context {L : PyLib}.

Lemma firstn_In {A : Type} (n : nat) (l : list A) (x : A) :
  In x (firstn n l) -> In x l.
Proof.
  intros H. rewrite <- (firstn_skipn n l). apply in_or_app. now left.
Qed.

Lemma NewestFirst_leb_trans :
  Transitive (fun a b => is_true (NewestFirst.leb a b)).
Proof.
  intros a b c. unfold NewestFirst.leb, is_true. rewrite !Z.leb_le. lia.
Qed.

Lemma saved_store_map (rows : list Measurement) :
  saved_store rows
  = map (fun record =>
           update_derived record (_calculate_derived_metrics record))
        (NewestFirstSort.sort rows).
Proof. unfold saved_store, process_excel_file. rewrite map_map. reflexivity. Qed.

Lemma descending_map (f : Measurement -> Measurement) (l : list Measurement) :
  (forall r, date (f r) = date r) ->
  StronglySorted (fun a b => is_true (NewestFirst.leb a b)) l ->
  StronglySorted descending (map f l).
Proof.
  intros Hf. induction 1 as [|a l Hl IH Ha]; cbn [map]; constructor.
  - exact IH.
  - rewrite Forall_map. rewrite Forall_forall in *. intros r Hr.
    pose proof (Ha r Hr) as H. unfold NewestFirst.leb, is_true in H.
    rewrite Z.leb_le in H. unfold descending. rewrite !Hf. exact H.
Qed.

Lemma saved_store_descending (rows : list Measurement) :
  StronglySorted descending (saved_store rows).
Proof.
  rewrite saved_store_map. apply descending_map; [reflexivity|].
  apply NewestFirstSort.StronglySorted_sort, NewestFirst_leb_trans.
Qed.

Lemma saved_store_dates (rows : list Measurement) :
  Permutation (map date rows) (map date (saved_store rows)).
Proof.
  rewrite saved_store_map, map_map. cbn [update_derived date].
  apply Permutation_map, NewestFirstSort.Permuted_sort.
Qed.

(** X14.  What an upload saves is every row of the sheet once, with its
    derived metrics, newest first; the measured values of a row are kept
    under their keys. *)
Theorem process_excel_file_saved (rows : list Measurement) :
  StronglySorted descending (saved_store rows)
  /\ Permutation
       (map (fun record =>
               update_derived record (_calculate_derived_metrics record))
            rows)
       (saved_store rows)
  /\ (forall record key,
        key <> "muscle_to_weight_ratio" -> key <> "fat_muscle_ratio" ->
        key <> "fitness_score" ->
        lookup key
               (fields (update_derived record
                          (_calculate_derived_metrics record)))
        = lookup key (fields record)).
Proof.
  split; [apply saved_store_descending|]. split.
  - rewrite saved_store_map. apply Permutation_map,
      NewestFirstSort.Permuted_sort.
  - intros record key H1 H2 H3. unfold update_derived. cbn [fields].
    apply String.eqb_neq in H1, H2, H3.
    rewrite String.eqb_sym in H1, H2, H3.
    destruct (muscle_to_weight_ratio _), (fat_muscle_ratio _),
      (fitness_score _); cbn [app lookup]; rewrite ?H1, ?H2, ?H3;
      reflexivity.
Qed.

Lemma descending_head (a : Measurement) (l : list Measurement) :
  StronglySorted descending (a :: l) ->
  forall r, In r (a :: l) -> (date r <= date a)%Z.
Proof.
  intros Hs r [->|Hr]; [lia|].
  apply StronglySorted_inv in Hs. destruct Hs as [_ Ha].
  rewrite Forall_forall in Ha. apply (Ha r Hr).
Qed.

Lemma saved_store_head (rows : list Measurement) (a : Measurement)
    (l : list Measurement) :
  saved_store rows = a :: l ->
  forall r, In r rows -> (date r <= date a)%Z.
Proof.
  intros Hstore r Hr.
  pose proof (saved_store_descending rows) as Hs. rewrite Hstore in Hs.
  pose proof (saved_store_dates rows) as Hp. rewrite Hstore in Hp.
  assert (Hin : In (date r) (map date (a :: l))).
  { apply (Permutation_in _ Hp), in_map, Hr. }
  apply in_map_iff in Hin. destruct Hin as [r' [<- Hr']].
  apply (descending_head a l Hs r' Hr').
Qed.

(** X15.  On a store written by an upload the first record is the newest:
    the latest measurement, and the [latest_measurement] of the summary,
    are not older than any row of the sheet, and the summary ends its date
    range on that day. *)
Theorem latest_of_saved_store (rows : list Measurement) :
  match get_latest_measurement (saved_store rows) with
  | None => rows = []
  | Some latest => forall r, In r rows -> (date r <= date latest)%Z
  end
  /\ match get_metrics_summary (saved_store rows) with
     | Error _ => rows = []
     | Value s =>
         (forall r, In r rows ->
                    (date r <= latest_measurement (overview s))%Z)
         /\ dr_end (date_range (overview s))
            = (latest_measurement (overview s) / 86400)%Z
     end.
Proof.
  destruct (saved_store rows) as [|a l] eqn:Hstore.
  - assert (Hnil : rows = []).
    { pose proof (saved_store_dates rows) as Hp. rewrite Hstore in Hp.
      apply Permutation_sym, Permutation_nil in Hp.
      destruct rows; [reflexivity|discriminate]. }
    split; exact Hnil.
  - pose proof (saved_store_head rows a l Hstore) as Hhead.
    split; [rewrite latest_of_store; exact Hhead|].
    unfold get_metrics_summary. rewrite get_body_composition_data_all.
    change (firstn 100 (a :: l)) with (a :: firstn 99 l).
    unfold metrics_summary_of.
    cbn [overview latest_measurement date_range dr_end].
    split; [exact Hhead|]. f_equal.
    apply date_max_newest.
    + apply (Permutation_in _ (sort_values_perm _)). now left.
    + intros r Hr.
      apply (Permutation_in _ (Permutation_sym (sort_values_perm _))) in Hr.
      pose proof (saved_store_descending rows) as Hs. rewrite Hstore in Hs.
      apply (descending_head a l Hs).
      destruct Hr as [<-|Hr]; [now left|right].
      apply (firstn_In _ _ _ Hr).
Qed.

Lemma StronglySorted_filter {A : Type} (R : A -> A -> Prop) (f : A -> bool)
    (l : list A) :
  StronglySorted R l -> StronglySorted R (filter f l).
Proof.
  induction 1 as [|a l Hl IH Ha]; cbn [filter]; [constructor|].
  destruct (f a); [|exact IH]. constructor; [exact IH|].
  rewrite Forall_forall in *. intros x Hx. apply filter_In in Hx.
  apply Ha, Hx.
Qed.

Lemma StronglySorted_app_order {A : Type} (R : A -> A -> Prop)
    (l1 l2 : list A) :
  StronglySorted R (l1 ++ l2) ->
  forall a b, In a l1 -> In b l2 -> R a b.
Proof.
  induction l1 as [|x l1 IH]; intros Hs a b Ha Hb; [destruct Ha|].
  cbn [app] in Hs. apply StronglySorted_inv in Hs. destruct Hs as [Hl Hx].
  destruct Ha as [<-|Ha].
  - rewrite Forall_forall in Hx. apply Hx, in_or_app. now right.
  - apply (IH Hl a b Ha Hb).
Qed.

(** X16.  Read with a limit, a store written by an upload gives the newest
    records of the date range: what the limit cuts off is in the range and
    not newer than anything returned. *)
Theorem saved_store_limit_keeps_newest
    (rows : list Measurement) (start_date end_date : option Z) (n : nat) :
  let store := saved_store rows in
  let result :=
    get_body_composition_data store start_date end_date (Some (S n)) in
  exists cut,
    filter (in_range start_date end_date) store = result ++ cut
    /\ List.length result
       = Nat.min (S n)
           (List.length (filter (in_range start_date end_date) store))
    /\ (forall r r', In r result -> In r' cut -> (date r' <= date r)%Z)
    /\ (forall r, In r result ->
                  In r store /\ in_range start_date end_date r = true).
Proof.
  cbv zeta. unfold get_body_composition_data.
  set (kept := filter (in_range start_date end_date) (saved_store rows)).
  exists (skipn (S n) kept).
  split; [symmetry; apply firstn_skipn|].
  split; [apply length_firstn|].
  split.
  - intros r r' Hr Hr'.
    assert (Hs : StronglySorted descending
                   (firstn (S n) kept ++ skipn (S n) kept)).
    { rewrite firstn_skipn. apply StronglySorted_filter,
        saved_store_descending. }
    apply (StronglySorted_app_order _ _ _ Hs r r' Hr Hr').
  - intros r Hr. apply firstn_In in Hr. apply filter_In in Hr. exact Hr.
Qed.

End SavedStore.

(** *** The measurement closest to a date (data processor lines 174-195) *)

Section ClosestMeasurement.

Lemma closer_fold (target : Z) (data : list Measurement)
    (best : option (Measurement * Z)) :
  (forall r d, best = Some (r, d) -> d = Z.abs (date r - target)) ->
  match fold_left (closer target) data best with
  | None => best = None /\ data = []
  | Some (r, d) =>
      d = Z.abs (date r - target)
      /\ (In r data \/ best = Some (r, d))
      /\ (forall r', In r' data -> (d <= Z.abs (date r' - target))%Z)
      /\ (forall r0 d0, best = Some (r0, d0) -> (d <= d0)%Z)
  end.
Proof.
  revert best. induction data as [|a data IH]; intros best Hbest.
  - cbn [fold_left]. destruct best as [[r d]|]; [|split; reflexivity].
    split; [apply Hbest; reflexivity|].
    split; [right; reflexivity|].
    split; [intros r' []|]. intros r0 d0 [= -> ->]. lia.
  - cbn [fold_left].
    assert (Hnext : forall r d, closer target best a = Some (r, d) ->
                                d = Z.abs (date r - target)).
    { intros r d. unfold closer. destruct best as [[r0 d0]|].
      - destruct (Z.abs (date a - target) <? d0)%Z.
        + intros [= <- <-]. reflexivity.
        + intros [= <- <-]. apply Hbest. reflexivity.
      - intros [= <- <-]. reflexivity. }
    specialize (IH (closer target best a) Hnext).
    destruct (fold_left (closer target) data (closer target best a))
      as [[r d]|].
    + destruct IH as [Hd [Hin [Hmin Hle]]].
      split; [exact Hd|].
      unfold closer in Hin, Hle.
      destruct best as [[r0 d0]|].
      * destruct (Z.ltb_spec (Z.abs (date a - target)) d0) as [Hlt|Hge].
        -- split.
           { destruct Hin as [Hin|[= <- <-]]; left; [now right|now left]. }
           split.
           { intros r' [<-|Hr']; [|apply Hmin, Hr'].
             apply (Hle a _ eq_refl). }
           intros r1 d1 [= <- <-].
           pose proof (Hle a _ eq_refl). lia.
        -- split.
           { destruct Hin as [Hin|Hin]; [left; now right|right; exact Hin]. }
           split.
           { intros r' [<-|Hr']; [|apply Hmin, Hr'].
             pose proof (Hle r0 d0 eq_refl). lia. }
           intros r1 d1 [= <- <-]. apply (Hle r0 d0 eq_refl).
      * split.
        { destruct Hin as [Hin|[= <- <-]]; left; [now right|now left]. }
        split.
        { intros r' [<-|Hr']; [|apply Hmin, Hr'].
          apply (Hle a _ eq_refl). }
        intros r0 d0 [=].
    + destruct IH as [Hnone _]. unfold closer in Hnone.
      destruct best as [[r0 d0]|]; [|discriminate].
      destruct (Z.abs (date a - target) <? d0)%Z; discriminate.
Qed.

(** X17.  The measurement closest to a date is looked for among the first
    hundred records of the store only: the answer is one of them, none of
    them is closer to midnight of the date, and there is no answer exactly
    when the store is empty. *)
Theorem get_measurement_by_date_closest (store : Store) (target_date : Z) :
  let searched := firstn 100 store in
  match get_measurement_by_date store target_date with
  | None => store = []
  | Some closest =>
      In closest searched
      /\ forall r, In r searched ->
           (Z.abs (date closest - 86400 * target_date)
            <= Z.abs (date r - 86400 * target_date))%Z
  end.
Proof.
  cbv zeta. unfold get_measurement_by_date.
  rewrite get_body_composition_data_all.
  pose proof (closer_fold (86400 * target_date) (firstn 100 store) None)
    as H.
  destruct (fold_left (closer (86400 * target_date)) (firstn 100 store) None)
    as [[r d]|].
  - cbn [option_map fst].
    destruct H as [Hd [Hin [Hmin _]]]; [discriminate|].
    split.
    + destruct Hin as [Hin|Hin]; [exact Hin|discriminate].
    + intros r' Hr'. rewrite <- Hd. apply Hmin, Hr'.
  - cbn [option_map]. destruct H as [_ Hnil]; [discriminate|].
    destruct store; [reflexivity|discriminate].
Qed.

End ClosestMeasurement.

(** *** The trend of the data processor (lines 264-317) *)

Section StoredTrends.

Context {L : PyLib}.

Lemma insert_by_date_length (r : Measurement) (sorted : list Measurement) :
  List.length (insert_by_date r sorted) = S (List.length sorted).
Proof.
  induction sorted as [|s rest IH]; [reflexivity|].
  cbn [insert_by_date]. destruct (date r <=? date s)%Z; [reflexivity|].
  cbn [List.length]. rewrite IH. reflexivity.
Qed.

Lemma sort_by_date_length (data : list Measurement) :
  List.length (sort_by_date data) = List.length data.
Proof.
  induction data as [|a data IH]; [reflexivity|].
  change (sort_by_date (a :: data))
    with (insert_by_date a (sort_by_date data)).
  rewrite insert_by_date_length, IH. reflexivity.
Qed.

(** X18.  In the trend of the data processor a series that starts at zero
    has the integer 0 as percentage and is "stable" whatever its change;
    a trend is given from two present values on, over the period asked
    for. *)
Theorem calculate_trends_zero_start
    (store : Store) (now : Z) (metric : string) (days : Z) (t : StoredTrend) :
  calculate_trends store now metric days = stored_trend t ->
  (2 <= st_data_points t <= 100)%nat
  /\ st_period_days t = days
  /\ ((st_start_value t =? 0) = true ->
      st_percent_change t = PyInt 0 /\ st_trend t = "stable").
Proof.
  unfold calculate_trends.
  set (data := get_body_composition_data store _ _ _).
  assert (Hdata : (List.length data <= 100)%nat).
  { unfold data, get_body_composition_data. apply firstn_le_length. }
  destruct (List.length data <? 2)%nat; [discriminate|].
  assert (Hsort : forall l, List.length (sort_by_date l) = List.length l)
    by apply sort_by_date_length.
  assert (Hvalues : forall l,
             (List.length (present_values metric l) <= List.length l)%nat).
  { induction l as [|a l IH]; [cbn; lia|].
    cbn [present_values]. destruct (lookup metric (fields a));
      cbn [List.length]; lia. }
  destruct (Nat.ltb_spec
              (List.length (present_values metric (sort_by_date data))) 2)
    as [|Hge]; [discriminate|].
  intros [= <-].
  cbn [st_data_points st_period_days st_start_value st_percent_change
       st_trend].
  split.
  { split; [exact Hge|].
    pose proof (Hvalues (sort_by_date data)). rewrite Hsort in H. lia. }
  split; [reflexivity|].
  intros Hzero. unfold percent_or_zero, neb. rewrite Hzero.
  split; reflexivity.
Qed.

Lemma filter_app_drop {A : Type} (f : A -> bool) (l1 l2 : list A) (x : A) :
  f x = false -> filter f (l1 ++ x :: l2) = filter f (l1 ++ l2).
Proof.
  intros Hx. rewrite !filter_app. cbn [filter]. rewrite Hx. reflexivity.
Qed.

(** X19.  The trend of the data processor ends at midnight of the current
    day: a measurement taken later today does not count. *)
Theorem calculate_trends_ignores_today
    (before after : Store) (r : Measurement) (now : Z) (metric : string)
    (days : Z) :
  (86400 * (now / 86400) < date r)%Z ->
  calculate_trends (before ++ r :: after) now metric days
  = calculate_trends (before ++ after) now metric days.
Proof.
  intros Htoday. unfold calculate_trends, get_body_composition_data.
  rewrite filter_app_drop; [reflexivity|].
  unfold in_range. apply andb_false_iff. right.
  apply negb_false_iff, Z.gtb_lt. exact Htoday.
Qed.

End StoredTrends.

Lemma calculate_trends_zero_start_witness :
  exists t,
    calculate_trends (L := RefLib.lib) from_zero 86400 "weight_kg" 30
    = stored_trend t
    /\ st_percent_change t = PyInt 0 /\ st_trend t = "stable".
Proof.
  eexists. split; [reflexivity|].
  apply (calculate_trends_zero_start (L := RefLib.lib) from_zero 86400
           "weight_kg" 30 _ eq_refl).
  reflexivity.
Defined.

Lemma calculate_trends_ignores_today_witness :
  calculate_trends (L := RefLib.lib) with_today (86400 * 2 + 3600)
                   "weight_kg" 30
  = calculate_trends (L := RefLib.lib) [weighed 86400 79; weighed 0 80]
                     (86400 * 2 + 3600) "weight_kg" 30.
Proof.
  apply (calculate_trends_ignores_today (L := RefLib.lib) []
           [weighed 86400 79; weighed 0 80] (weighed (86400 * 2 + 60) 90)).
  vm_compute. reflexivity.
Defined.

(** *** Reading photos (photo manager lines 179-224, [main.py] lines
        140-154) *)

Section Photos.

Import PhotoManager.

Ltac each_char c :=
  destruct c as [[] [] [] [] [] [] [] []]; vm_compute; reflexivity.

Lemma lower_char_idem (c : ascii) : lower_char (lower_char c) = lower_char c.
Proof. each_char c. Qed.

Lemma is_space_lower (c : ascii) : is_space (lower_char c) = is_space c.
Proof. each_char c. Qed.

Lemma comma_lower (c : ascii) :
  Ascii.eqb (lower_char c) ","%char = Ascii.eqb c ","%char.
Proof. each_char c. Qed.

Lemma lower_idem (s : string) : lower (lower s) = lower s.
Proof.
  induction s as [|c s IH]; [reflexivity|].
  cbn [lower]. rewrite lower_char_idem, IH. reflexivity.
Qed.

Lemma lstrip_lower (s : string) : lstrip (lower s) = lower (lstrip s).
Proof.
  induction s as [|c s IH]; [reflexivity|].
  cbn [lower lstrip]. rewrite is_space_lower.
  destruct (is_space c); [exact IH|reflexivity].
Qed.

Lemma rstrip_lower (s : string) : rstrip (lower s) = lower (rstrip s).
Proof.
  induction s as [|c s IH]; [reflexivity|].
  cbn [lower rstrip]. rewrite IH, is_space_lower.
  destruct (rstrip s); cbn [lower]; [destruct (is_space c)|]; reflexivity.
Qed.

Lemma strip_lower (s : string) : strip (lower s) = lower (strip s).
Proof. unfold strip. rewrite lstrip_lower, rstrip_lower. reflexivity. Qed.

Lemma split_comma_lower (s : string) :
  split_comma (lower s) = map lower (split_comma s).
Proof.
  induction s as [|c s IH]; [reflexivity|].
  cbn [lower split_comma]. rewrite comma_lower, IH.
  destruct (Ascii.eqb c ","%char); [reflexivity|].
  destruct (split_comma s); reflexivity.
Qed.

Lemma tag_list_lower (tags : string) : tag_list (lower tags) = tag_list tags.
Proof.
  unfold tag_list. rewrite split_comma_lower, map_map.
  apply map_ext. intros tag. rewrite strip_lower, lower_idem. reflexivity.
Qed.

Lemma get_photos_lower (metadata : list Photo) (start_date end_date : option Z)
    (tags : string) :
  get_photos metadata start_date end_date (Some (lower tags))
  = get_photos metadata start_date end_date (Some tags).
Proof.
  unfold get_photos. destruct tags as [|c tags]; [reflexivity|].
  rewrite tag_list_lower. reflexivity.
Qed.

(** X20.  The tag filter does not depend on letter case: two requests whose
    tags differ in case only select the same photos. *)
Theorem get_photos_tags_ignore_case
    (metadata : list Photo) (start_date end_date : option Z)
    (tags1 tags2 : string) :
  lower tags1 = lower tags2 ->
  get_photos metadata start_date end_date (Some tags1)
  = get_photos metadata start_date end_date (Some tags2).
Proof.
  intros Hcase.
  rewrite <- (get_photos_lower metadata start_date end_date tags1).
  rewrite <- (get_photos_lower metadata start_date end_date tags2).
  rewrite Hcase. reflexivity.
Qed.

Lemma mem_In (x : string) (l : list string) : mem x l = true <-> In x l.
Proof.
  unfold mem. rewrite existsb_exists. split.
  - intros [y [Hy Heq]]. apply String.eqb_eq in Heq. now subst.
  - intros Hx. exists x. split; [exact Hx|apply String.eqb_refl].
Qed.

(** X21.  With tags that are ASCII text, in the request and in the file,
    a photo is returned exactly when it is in the metadata file, inside the
    date range, and, when tags are asked for, carries one of them up to
    letter case; the photos keep the order of the file. *)
Theorem get_photos_selects
    (metadata : list Photo) (start_date end_date : option Z)
    (tags : option string) :
  ascii_tags metadata ->
  (forall wanted_tags, tags = Some wanted_tags ->
                       ascii_text wanted_tags = true) ->
  (forall photo,
     In photo (get_photos metadata start_date end_date tags)
     <-> In photo metadata
         /\ photo_in_range start_date end_date photo = true
         /\ match tags with
            | None | Some EmptyString => True
            | Some wanted_tags =>
                exists wanted tag,
                  In wanted (tag_list wanted_tags)
                  /\ In tag (photo_tags photo)
                  /\ lower wanted = lower tag
            end)
  /\ exists keep, get_photos metadata start_date end_date tags
                  = filter keep metadata.
Proof.
  intros _ _.
  assert (Htag : forall wanted photo,
             has_tag wanted photo = true
             <-> exists w tag, In w wanted /\ In tag (photo_tags photo)
                               /\ lower w = lower tag).
  { intros wanted photo. unfold has_tag. rewrite existsb_exists. split.
    - intros [w [Hw Hmem]]. apply mem_In, in_map_iff in Hmem.
      destruct Hmem as [tag [Heq Htag]]. exists w, tag. auto.
    - intros [w [tag [Hw [Htag Heq]]]]. exists w. split; [exact Hw|].
      apply mem_In. rewrite Heq. apply in_map, Htag. }
  split.
  - intros photo. unfold get_photos.
    destruct tags as [[|c tags]|].
    + rewrite filter_In. tauto.
    + rewrite !filter_In, Htag. tauto.
    + rewrite filter_In. tauto.
  - unfold get_photos. destruct tags as [[|c tags]|].
    + eexists. reflexivity.
    + exists (fun photo =>
                photo_in_range start_date end_date photo
                && has_tag (tag_list (String c tags)) photo).
      induction metadata as [|p metadata IH]; [reflexivity|].
      cbn [filter].
      destruct (photo_in_range start_date end_date p); cbn [filter andb];
        [destruct (has_tag _ p); rewrite IH; reflexivity|exact IH].
    + eexists. reflexivity.
Qed.

(** X22.  The photo endpoint treats a limit of 0 as no limit; a positive
    limit gives the first photos of the selection, as many as the limit
    allows, and a negative limit drops that many photos from its end. *)
Theorem get_progress_photos_limit
    (metadata : list Photo) (start_date end_date : option Z)
    (tags : option string) (limit : Z) :
  let photos := get_photos metadata start_date end_date tags in
  let result :=
    get_progress_photos metadata start_date end_date tags (Some limit) in
  (limit = 0%Z -> result = photos)
  /\ ((0 < limit)%Z ->
      List.length result = Nat.min (Z.to_nat limit) (List.length photos)
      /\ exists cut, photos = result ++ cut)
  /\ ((limit < 0)%Z ->
      List.length result = (List.length photos - Z.to_nat (- limit))%nat
      /\ exists cut, photos = result ++ cut).
Proof.
  cbv zeta. unfold get_progress_photos, slice_to.
  set (photos := get_photos metadata start_date end_date tags).
  split; [intros ->; reflexivity|]. split.
  - intros Hpos.
    destruct (Z.eqb_spec limit 0); [lia|].
    destruct (Z.ltb_spec limit 0); [lia|].
    split; [apply length_firstn|].
    exists (skipn (Z.to_nat limit) photos). symmetry. apply firstn_skipn.
  - intros Hneg.
    destruct (Z.eqb_spec limit 0); [lia|].
    destruct (Z.ltb_spec limit 0); [|lia].
    split; [rewrite length_firstn; lia|].
    eexists. symmetry. apply firstn_skipn.
Qed.

End Photos.

(** The request "front" on the three photos: the two tagged "Front" and
    "FRONT" are returned. *)
Lemma get_photos_selects_witness :
  List.length (PhotoManager.get_photos three_photos None None (Some "front"))
  = 2%nat
  /\ forall photo,
       In photo (PhotoManager.get_photos three_photos None None (Some "front"))
       -> In photo three_photos.
Proof.
  split; [reflexivity|].
  intros photo Hin.
  assert (Hfile : PhotoManager.ascii_tags three_photos).
  { intros p tag Hp Htag. cbn in Hp.
    destruct Hp as [<-|[<-|[<-|[]]]]; cbn in Htag;
      repeat (destruct Htag as [<-|Htag]; [reflexivity|]);
      destruct Htag. }
  assert (Hrequest : forall wanted_tags,
             Some "front" = Some wanted_tags ->
             PhotoManager.ascii_text wanted_tags = true).
  { intros wanted_tags [= <-]. reflexivity. }
  apply (proj1 (proj1 (get_photos_selects
                         three_photos None None (Some "front")
                         Hfile Hrequest) photo) Hin).
Defined.

Lemma get_photos_tags_ignore_case_witness :
  PhotoManager.get_photos three_photos None None (Some "FRONT, Side")
  = PhotoManager.get_photos three_photos None None (Some "front, side").
Proof.
  apply get_photos_tags_ignore_case. reflexivity.
Defined.
